(** * veggiekarte: the refresh pipeline of [refresh.py]

    A shallow embedding of [refresh.py] (icon and category classifiers,
    endpoint fetcher, record transformer, artifact writer and rotation) and
    the properties its specification states about it.

    Python values are embedded as follows.
    - [str] is a sequence of Unicode code points ([list N]); the literals of
      the script are written as Rocq strings and decoded from UTF-8 by [u].
    - a [dict] of tags is a [gmap str str].
    - an exception is the [Raise] case of [outcome].
    - [print] calls are left out: nothing reads the standard output. *)

From Stdlib Require Import ZArith NArith Lia Ascii String SpecFloat.
From stdpp Require Import base option list gmap pretty.

Open Scope Z_scope.

(* ===================================================================== *)
(** ** Python strings *)
(* ===================================================================== *)

Module PyStr.

(** A Python [str]: code points. *)
Abbreviation str := (list N).

(** UTF-8 decoding of a literal (well-formed input only: the literals of
    the script). A lead byte announces how many continuation bytes
    follow; [pending] counts those still expected and [acc] holds the
    bits read so far. *)
Fixpoint utf8_decode (pending : nat) (acc : N) (bs : list N) : str :=
  match bs with
  | [] => []
  | b :: bs' =>
      match pending with
      | S (S k) => utf8_decode (S k) (acc * 64 + N.land b 63)%N bs'
      | S O => (acc * 64 + N.land b 63)%N :: utf8_decode O 0%N bs'
      | O =>
          if (b <? 128)%N then b :: utf8_decode O 0%N bs'
          else if (b <? 224)%N then utf8_decode 1 (N.land b 31) bs'
          else if (b <? 240)%N then utf8_decode 2 (N.land b 15) bs'
          else utf8_decode 3 (N.land b 7) bs'
      end
  end.

Definition u (s : string) : str :=
  utf8_decode O 0%N (map N_of_ascii (list_ascii_of_string s)).

(** Single characters used by the script. *)
Definition DQUOTE : N := 34%N.      (* the double quote *)
Definition BACKSLASH : N := 92%N.   (* the backslash *)
Definition LF : N := 10%N.          (* line feed *)
Definition CR : N := 13%N.          (* carriage return *)

(** [s.startswith(p)] *)
Fixpoint startswith (p s : str) : bool :=
  match p, s with
  | [], _ => true
  | _ :: _, [] => false
  | a :: p', b :: s' => (a =? b)%N && startswith p' s'
  end.

(** [s.replace(old, new)]: the leftmost occurrences of [old], none of
    them overlapping, are replaced. [skip] counts the characters of an
    occurrence that has just been replaced and are still to be passed
    over. With an empty [old] Python puts [new] before every character
    and at the end. *)
Fixpoint replace_from (old new : str) (skip : nat) (s : str) : str :=
  match s with
  | [] => []
  | c :: s' =>
      match skip with
      | S k => replace_from old new k s'
      | O =>
          if startswith old s
          then new ++ replace_from old new (length old - 1) s'
          else c :: replace_from old new O s'
      end
  end.

Definition replace (old new s : str) : str :=
  match old with
  | [] => new ++ flat_map (fun c => c :: new) s
  | _ :: _ => replace_from old new O s
  end.

(** [s.split(sep)] for a separator of one character: the pieces between
    the separators, at least one piece. *)
Fixpoint split_on (sep : N) (s : str) : list str :=
  match s with
  | [] => [[]]
  | c :: s' =>
      if (c =? sep)%N then [] :: split_on sep s'
      else match split_on sep s' with
           | [] => [[c]]
           | p :: ps => (c :: p) :: ps
           end
  end.

(** [sep in s] for one character. *)
Definition contains (c : N) (s : str) : bool := existsb (N.eqb c) s.

(** [s == t] *)
Definition str_eqb (s t : str) : bool := bool_decide (s = t).

(** [l == m] for lists of strings. *)
Definition str_eqb_list (l m : list str) : bool := bool_decide (l = m).

End PyStr.
Import PyStr.


(* ===================================================================== *)
(** ** Exceptions *)
(* ===================================================================== *)

(** The exceptions the script can run into. *)
Inductive exn : Type :=
  | ValueError            (* unpacking a list of the wrong length *)
  | AttributeError        (* a method called on [None] *)
  | UnboundLocalError     (* a local variable read before it is assigned *)
  | FileNotFoundError     (* [os.rename] of a missing file, [open] in a missing directory *)
  | PermissionError       (* [open] of a file that may not be written *)
  | UnicodeEncodeError    (* [f.write] of a text the encoding cannot represent *)
  | TypeError             (* [None] used as a dictionary *)
  | JSONDecodeError       (* [json.loads] of a malformed body *)
  | HTTPError.            (* [urllib3] gave up on the request *)

Inductive outcome (A : Type) : Type :=
  | Ok (a : A)
  | Raise (e : exn).
Arguments Ok {A} a.
Arguments Raise {A} e.

Definition bind {A B} (m : outcome A) (k : A -> outcome B) : outcome B :=
  match m with
  | Ok a => k a
  | Raise e => Raise e
  end.

Declare Scope outcome_scope.
Delimit Scope outcome_scope with outcome.
Notation "'let*' x ':=' m 'in' k" := (bind m (fun x => k))
  (at level 10, x name, m at level 100, k at level 200) : outcome_scope.
Open Scope outcome_scope.

(* ===================================================================== *)
(** ** The [html] module of the Python library *)
(* ===================================================================== *)

Module Html.

(** [html.escape(s)] with its default [quote=True]: five replacements,
    the ampersand first. *)
Definition escape (s : str) : str :=
  let s := replace (u "&") (u "&amp;") s in
  let s := replace (u "<") (u "&lt;") s in
  let s := replace (u ">") (u "&gt;") s in
  let s := replace [DQUOTE] (u "&quot;") s in
  let s := replace (u "'") (u "&#x27;") s in
  s.

Definition is_digit (c : N) : bool := ((48 <=? c) && (c <=? 57))%N.

Definition is_hexdigit (c : N) : bool :=
  (is_digit c || ((65 <=? c) && (c <=? 70)) || ((97 <=? c) && (c <=? 102)))%N.

(** The class of the third alternative of [_charref]: anything but tab,
    line feed, form feed, space, [<], [&], [#] and [;]. *)
Definition is_name_char (c : N) : bool :=
  negb (contains c [9; 10; 12; 32; 60; 38; 35; 59]%N).

Fixpoint take_while (p : N -> bool) (s : str) : str :=
  match s with
  | [] => []
  | c :: s' => if p c then c :: take_while p s' else []
  end.

(** The optional [;] that ends each alternative. *)
Definition opt_semicolon (s : str) : str :=
  match s with
  | c :: _ => if (c =? 59)%N then [c] else []
  | [] => []
  end.

(** What the group of
    [&(#[0-9]+;?|#[xX][0-9a-fA-F]+;?|[^\t\n\f <&#;]{1,32};?)]
    matches on the text [s] that follows an ampersand, if it matches. The
    alternatives are tried in order and each repetition is greedy;
    nothing follows the group, so nothing is given back. *)
Definition match_charref (s : str) : option str :=
  match s with
  | 35%N :: r =>
      let ds := take_while is_digit r in
      match ds with
      | _ :: _ => Some (35%N :: ds ++ opt_semicolon (drop (length ds) r))
      | [] =>
          match r with
          | x :: r' =>
              if contains x (u "xX") then
                let hs := take_while is_hexdigit r' in
                match hs with
                | _ :: _ =>
                    Some (35%N :: x :: hs ++ opt_semicolon (drop (length hs) r'))
                | [] => None
                end
              else None
          | [] => None
          end
      end
  | _ =>
      let ns := take_while is_name_char (take 32 s) in
      match ns with
      | _ :: _ => Some (ns ++ opt_semicolon (drop (length ns) s))
      | [] => None
      end
  end.

Definition digit_value (c : N) : N :=
  if is_digit c then (c - 48)%N
  else if (97 <=? c)%N then (c - 87)%N
  else (c - 55)%N.

(** [int(s, base)] on a string of digits of that base. (Python refuses
    decimal strings of several thousand digits; the script never gets
    there, its only numeric reference is hexadecimal.) *)
Definition parse_int (base : N) (s : str) : N :=
  fold_left (fun acc c => (acc * base + digit_value c)%N) s 0%N.

(** [s.rstrip(';')] *)
Fixpoint rstrip_semicolon (s : str) : str :=
  match s with
  | [] => []
  | c :: s' =>
      match rstrip_semicolon s' with
      | [] => if (c =? 59)%N then [] else [c]
      | r => c :: r
      end
  end.

Section Unescape.

(** Tables of the library: [html.entities.html5], [_invalid_charrefs]
    and [_invalid_codepoints]. *)
Variable html5 : str -> option str.
Variable invalid_charrefs : N -> option str.
Variable invalid_codepoints : N -> bool.

(** [for x in range(len(s)-1, 1, -1): if s[:x] in _html5: ...] *)
Fixpoint longest_name (s : str) (x : nat) : option str :=
  match x with
  | S (S _ as x') =>
      match html5 (take x s) with
      | Some r => Some (r ++ drop x s)
      | None => longest_name s x'
      end
  | _ => None
  end.

(** [_replace_charref], on the group that was matched. *)
Definition replace_charref (s : str) : str :=
  match s with
  | 35%N :: r =>
      let num :=
        match r with
        | x :: r' =>
            if contains x (u "xX")
            then parse_int 16 (rstrip_semicolon r')
            else parse_int 10 (rstrip_semicolon r)
        | [] => 0%N
        end in
      match invalid_charrefs num with
      | Some r => r
      | None =>
          if ((0xD800 <=? num) && (num <=? 0xDFFF) || (0x10FFFF <? num))%N
          then [0xFFFD%N]
          else if invalid_codepoints num then []
          else [num]
      end
  | _ =>
      match html5 s with
      | Some r => r
      | None =>
          match longest_name s (length s - 1) with
          | Some r => r
          | None => 38%N :: s
          end
      end
  end.

(** [_charref.sub(_replace_charref, s)]: the text is scanned from the
    left; [skip] counts the characters of the last match still to be
    passed over. *)
Fixpoint charref_sub (skip : nat) (s : str) : str :=
  match s with
  | [] => []
  | c :: s' =>
      match skip with
      | S k => charref_sub k s'
      | O =>
          if (c =? 38)%N then
            match match_charref s' with
            | Some g => replace_charref g ++ charref_sub (length g) s'
            | None => c :: charref_sub O s'
            end
          else c :: charref_sub O s'
      end
  end.

(** [html.unescape(s)] *)
Definition unescape (s : str) : str :=
  if negb (contains 38 s) then s else charref_sub O s.

End Unescape.

(** An excerpt of the tables, enough to run the script on examples: the
    references to the five characters [html.escape] replaces. *)
Definition html5_excerpt (s : str) : option str :=
  if str_eqb s (u "amp;") || str_eqb s (u "amp") then Some (u "&")
  else if str_eqb s (u "lt;") || str_eqb s (u "lt") then Some (u "<")
  else if str_eqb s (u "gt;") || str_eqb s (u "gt") then Some (u ">")
  else if str_eqb s (u "quot;") || str_eqb s (u "quot") then Some [DQUOTE]
  else if str_eqb s (u "apos;") then Some (u "'")
  else None.

Definition invalid_charrefs_excerpt (n : N) : option str :=
  if (n =? 0)%N then Some [0xFFFD%N]
  else if (n =? 0x0D)%N then Some [CR]
  else if (n =? 0x80)%N then Some [0x20AC%N]
  else None.

Definition invalid_codepoints_excerpt (n : N) : bool :=
  ((1 <=? n) && (n <=? 8) || (14 <=? n) && (n <=? 31)
   || (127 <=? n) && (n <=? 159) || (n =? 11))%N.

End Html.

(* ===================================================================== *)
(** ** Values of the decoded response *)
(* ===================================================================== *)

(** A scalar of the decoded JSON, as Python holds it. *)
Inductive pyval : Type :=
  | PyNone
  | PyBool (b : bool)
  | PyInt (z : Z)
  | PyFloat (f : spec_float)
  | PyStr (s : str).

(** Truth value of a scalar: [None], [False], zero (of either sign for a
    float) and the empty string are false. *)
Definition truthy (v : pyval) : bool :=
  match v with
  | PyNone => false
  | PyBool b => b
  | PyInt z => negb (z =? 0)
  | PyFloat (S754_zero _) => false
  | PyFloat _ => true
  | PyStr s => negb (bool_decide (s = []))
  end.

(** [str(z)] for an [int]. *)
Definition str_of_Z (z : Z) : str := u (pretty z).

(** The [center] object of a way. *)
Record center : Type := {
  c_lat : option pyval;
  c_lon : option pyval
}.

(** An element of the response. [id] and [type] are always there; [tags],
    [lat], [lon] and [center] may be missing ([None] here). *)
Record element : Type := {
  e_id : Z;
  e_type : str;
  e_tags : option (gmap str str);
  e_lat : option pyval;
  e_lon : option pyval;
  e_center : option center
}.

(** What [json.loads] gives for a body: [None] for the JSON [null], or a
    document with its [elements]. *)
Inductive json : Type :=
  | JNull
  | JDoc (elements : list element).

(** [d.get(k, None)] on a member that may be missing. *)
Definition get_or_None (o : option pyval) : pyval := default PyNone o.

(** [tags.get(k, '')] *)
Definition get_or_empty (tags : gmap str str) (k : str) : str :=
  default [] (tags !! k).

(* ===================================================================== *)
(** ** Constants *)
(* ===================================================================== *)

Definition SERVERS : list str := [
  u "https://lz4.overpass-api.de/api/interpreter";
  u "https://overpass.kumi.systems/api/interpreter";
  u "https://z.overpass-api.de/api/interpreter";
  u "http://api.openstreetmap.fr/api/interpreter";
  u "http://dev.overpass-api.de/api_drolbr/interpreter";
  u "http://overpass-api.de/api/interpreter";
  u "http://overpass.openstreetmap.fr/api/interpreter"
].

(** An icon: the name of the marker icon ([icon[0]]) and the emoji of the
    title ([icon[1]]). *)
Definition icon : Type := str * str.

(** The dictionary [ICON_MAPPING], in the order of its literal (the order
    in which Python 3.7 and later iterate over it). *)
Definition ICON_MAPPING : list (str * icon) := [
    (u "cuisine:pizza", (u "maki_restaurant-pizza", u "🍕"));
    (u "amenity:bar", (u "bar", u "🍸"));
    (u "amenity:bbq", (u "bbq", u "🍴"));
    (u "amenity:cafe", (u "cafe", u "☕"));
    (u "amenity:cinema", (u "cinema", u "🎦"));
    (u "amenity:college", (u "maki_college", u "🎓"));
    (u "amenity:fast_food", (u "fast_food", u "🍔"));
    (u "amenity:food_court", (u "restaurant", u "🍽️"));
    (u "amenity:fuel", (u "fuel", u "⛽"));
    (u "amenity:hospital", (u "hospital", u "🏥"));
    (u "amenity:ice_cream", (u "ice_cream", u "🍨"));
    (u "amenity:kindergarten", (u "playground", u "🧒"));
    (u "amenity:pharmacy", (u "pharmacy", u "💊"));
    (u "amenity:place_of_worship", (u "place_of_worship", u "🛐"));
    (u "amenity:pub", (u "pub", u "🍻"));
    (u "amenity:restaurant", (u "restaurant", u "🍽️"));
    (u "amenity:school", (u "maki_school", u "🏫"));
    (u "amenity:shelter", (u "shelter", u "☂️"));
    (u "amenity:swimming_pool", (u "maki_swimming", u "🏊‍♀️"));
    (u "amenity:theatre", (u "theatre", u "🎭"));
    (u "amenity:university", (u "maki_college", u "🎓"));
    (u "amenity:vending_machine", (u "maki_shop", u "🛒"));
    (u "historic:memorial", (u "monument", u "🗿"));
    (u "leisure:golf_course", (u "golf", u "🏌️"));
    (u "leisure:pitch", (u "maki_pitch", u "🏃"));
    (u "leisure:sports_centre", (u "sports", u "🤼"));
    (u "leisure:stadium", (u "maki_stadium", u "🏟️"));
    (u "shop:alcohol", (u "alcohol", u "🍷"));
    (u "shop:bakery", (u "bakery", u "🥯"));
    (u "shop:beauty", (u "beauty", u "💇"));
    (u "shop:bicycle", (u "bicycle", u "🚲"));
    (u "shop:books", (u "library", u "📚"));
    (u "shop:butcher", (u "butcher", u "🔪"));
    (u "shop:clothes", (u "clothes", u "👚"));
    (u "shop:confectionery", (u "confectionery", u "🍬"));
    (u "shop:convenience", (u "convenience", u "🏪"));
    (u "shop:department_store", (u "department_store", u "🏬"));
    (u "shop:doityourself", (u "diy", u "🛠️"));
    (u "shop:fishmonger", (u "maki_shop", u "🐟"));
    (u "shop:garden_centre", (u "garden-centre", u "🏡"));
    (u "shop:general", (u "maki_shop", u "🛒"));
    (u "shop:gift", (u "gift", u "🎁"));
    (u "shop:greengrocer", (u "greengrocer", u "🍏"));
    (u "shop:hairdresser", (u "hairdresser", u "💇"));
    (u "shop:kiosk", (u "maki_shop", u "🛒"));
    (u "shop:music", (u "music", u "🎶"));
    (u "shop:supermarket", (u "supermarket", u "🏪"));
    (u "shop:wine", (u "alcohol", u "🍷"));
    (u "tourism:guest_house", (u "guest_house", u "🏠"));
    (u "tourism:museum", (u "museum", u "🖼️"))
].

(** The icon used when nothing in [ICON_MAPPING] matches. *)
Definition default_icon : icon := (u "maki_star-stroked", u "").

(* ===================================================================== *)
(** ** [determine_icon] *)
(* ===================================================================== *)

(** [k, v = l]: the list must have exactly two items. *)
Definition unpack2 (l : list str) : outcome (str * str) :=
  match l with
  | [k; v] => Ok (k, v)
  | _ => Raise ValueError
  end.

(** The loop of [determine_icon] over the entries still to be visited. *)
Fixpoint determine_icon_from (entries : list (str * icon))
    (tags : gmap str str) : outcome icon :=
  match entries with
  | [] => Ok default_icon
  | (kv, val) :: rest =>
      let* kv2 := unpack2 (split_on 58 kv) in
      let '(k, v) := kv2 in
      match tags !! k with
      | None => determine_icon_from rest tags                   (* not t *)
      | Some [] => determine_icon_from rest tags                (* not t *)
      | Some t =>
          let t := default [] (head (split_on 59 t)) in
          if str_eqb t v then Ok val
          else determine_icon_from rest tags
      end
  end.

Definition determine_icon (tags : gmap str str) : outcome icon :=
  determine_icon_from ICON_MAPPING tags.

(* ===================================================================== *)
(** ** The category of a record *)
(* ===================================================================== *)

Inductive category : Type :=
  | vegan_only
  | vegetarian_only
  | vegan_friendly
  | vegan_limited
  | vegetarian_friendly.

(** The string the script binds to [category]. *)
Definition category_name (c : category) : str :=
  match c with
  | vegan_only => u "vegan_only"
  | vegetarian_only => u "vegetarian_only"
  | vegan_friendly => u "vegan_friendly"
  | vegan_limited => u "vegan_limited"
  | vegetarian_friendly => u "vegetarian_friendly"
  end.

(** The [if]/[elif] chain of [write_data] that gives the object its
    category. *)
Definition classify (tags : gmap str str) : category :=
  if str_eqb (get_or_empty tags (u "diet:vegan")) (u "only") then vegan_only
  else if str_eqb (get_or_empty tags (u "diet:vegetarian")) (u "only")
          && str_eqb (get_or_empty tags (u "diet:vegan")) (u "yes")
  then vegetarian_only
  else if str_eqb (get_or_empty tags (u "diet:vegan")) (u "yes") then vegan_friendly
  else if str_eqb (get_or_empty tags (u "diet:vegan")) (u "limited") then vegan_limited
  else vegetarian_friendly.

(** The five counters of [write_data]. *)
Record counters : Type := {
  n_vegan_only : Z;
  n_vegetarian_only : Z;
  n_vegan_friendly : Z;
  n_vegan_limited : Z;
  n_vegetarian_friendly : Z
}.

Definition no_markers : counters :=
  {| n_vegan_only := 0; n_vegetarian_only := 0; n_vegan_friendly := 0;
     n_vegan_limited := 0; n_vegetarian_friendly := 0 |}.

(** The [n_... += 1] of the branch taken. *)
Definition count_marker (c : category) (n : counters) : counters :=
  match c with
  | vegan_only =>
      {| n_vegan_only := n_vegan_only n + 1;
         n_vegetarian_only := n_vegetarian_only n;
         n_vegan_friendly := n_vegan_friendly n;
         n_vegan_limited := n_vegan_limited n;
         n_vegetarian_friendly := n_vegetarian_friendly n |}
  | vegetarian_only =>
      {| n_vegan_only := n_vegan_only n;
         n_vegetarian_only := n_vegetarian_only n + 1;
         n_vegan_friendly := n_vegan_friendly n;
         n_vegan_limited := n_vegan_limited n;
         n_vegetarian_friendly := n_vegetarian_friendly n |}
  | vegan_friendly =>
      {| n_vegan_only := n_vegan_only n;
         n_vegetarian_only := n_vegetarian_only n;
         n_vegan_friendly := n_vegan_friendly n + 1;
         n_vegan_limited := n_vegan_limited n;
         n_vegetarian_friendly := n_vegetarian_friendly n |}
  | vegan_limited =>
      {| n_vegan_only := n_vegan_only n;
         n_vegetarian_only := n_vegetarian_only n;
         n_vegan_friendly := n_vegan_friendly n;
         n_vegan_limited := n_vegan_limited n + 1;
         n_vegetarian_friendly := n_vegetarian_friendly n |}
  | vegetarian_friendly =>
      {| n_vegan_only := n_vegan_only n;
         n_vegetarian_only := n_vegetarian_only n;
         n_vegan_friendly := n_vegan_friendly n;
         n_vegan_limited := n_vegan_limited n;
         n_vegetarian_friendly := n_vegetarian_friendly n + 1 |}
  end.

(* ===================================================================== *)
(** ** The popup of a marker *)
(* ===================================================================== *)

(** The script writes a double quote of the popup as a backslash and a
    double quote: the popup ends up inside a JavaScript string. *)
Definition Q : str := [BACKSLASH; DQUOTE].

(** [<a href=\"HREF\" target=\"_blank\">TEXT</a>] *)
Definition link (href text : str) : str :=
  u "<a href=" ++ Q ++ href ++ Q ++ u " target=" ++ Q ++ u "_blank" ++ Q
    ++ u ">" ++ text ++ u "</a>".

(** [<div class=\"popupflex-container\"><div>EMOJI</div><div>BODY</div></div>] *)
Definition popup_row (emoji body : str) : str :=
  u "<div class=" ++ Q ++ u "popupflex-container" ++ Q ++ u "><div>" ++ emoji
    ++ u "</div><div>" ++ body ++ u "</div></div>".

(** The first line of the popup: the name and a link to the object. *)
Definition popup_header (name typ : str) (ide : Z) : str :=
  u "<b>" ++ name ++ u "</b> "
    ++ link (u "https://openstreetmap.org/" ++ typ ++ u "/" ++ str_of_Z ide) (u "*")
    ++ u "<hr/>".

Definition popup_cuisine (tags : gmap str str) : str :=
  match tags !! u "cuisine" with
  | Some c => popup_row (u "👩‍🍳") c
  | None => []
  end.

(** [placeAddress] *)
Definition place_address (tags : gmap str str) : str :=
  let placeAddress := [] in
  let placeAddress :=
    match tags !! u "addr:street" with
    | Some street =>
        placeAddress ++ street ++ u " " ++ get_or_empty tags (u "addr:housenumber")
    | None => placeAddress
    end in
  let placeAddress :=
    match tags !! u "addr:city" with
    | Some city =>
        (if bool_decide (placeAddress ≠ []) then placeAddress ++ u "<br/>"
         else placeAddress) ++ city
    | None => placeAddress
    end in
  let placeAddress :=
    match tags !! u "addr:country" with
    | Some country =>
        (if bool_decide (placeAddress ≠ []) then placeAddress ++ u "<br/>"
         else placeAddress) ++ country
    | None => placeAddress
    end in
  placeAddress.

Definition popup_address (tags : gmap str str) : str :=
  let placeAddress := place_address tags in
  if bool_decide (placeAddress ≠ []) then popup_row (u "📍") placeAddress else [].

(** [tags[preferred]] if that key is there, else [tags[other]] if that one
    is, else the empty string: the rule for the website, the e-mail
    address and the phone number. *)
Definition contact_value (tags : gmap str str) (preferred other : str) : str :=
  match tags !! preferred with
  | Some v => v
  | None =>
      match tags !! other with
      | Some v => v
      | None => []
      end
  end.

(** [placeWebsite] *)
Definition place_website (tags : gmap str str) : str :=
  contact_value tags (u "contact:website") (u "website").

(** [placeWebsiteWithout] *)
Definition website_text (placeWebsite : str) : str :=
  replace (u "https://") (u "") placeWebsite.

Definition popup_website (tags : gmap str str) : str :=
  let placeWebsite := place_website tags in
  if bool_decide (placeWebsite ≠ []) then
    let placeWebsiteWithout := website_text placeWebsite in
    popup_row (u "🌐") (link placeWebsite placeWebsiteWithout)
  else [].

Definition popup_email (tags : gmap str str) : str :=
  let placeEmail := contact_value tags (u "contact:email") (u "email") in
  if bool_decide (placeEmail ≠ []) then
    popup_row (u "📧") (link (u "mailto:" ++ placeEmail) placeEmail ++ u "<br/>")
  else [].

Definition popup_phone (tags : gmap str str) : str :=
  let placePhone := contact_value tags (u "contact:phone") (u "phone") in
  if bool_decide (placePhone ≠ []) then
    popup_row (u "☎️") (link (u "tel:" ++ placePhone) placePhone ++ u "<br/>")
  else [].

Definition popup_opening_hours (tags : gmap str str) : str :=
  match tags !! u "opening_hours" with
  | Some h =>
      let opening_hours := replace [CR] [] (replace [LF] [] h) in
      let opening_hours := replace (u "; ") (u "<br/>") opening_hours in
      popup_row (u "🕖") opening_hours
  | None => []
  end.

Definition build_popup (name typ : str) (ide : Z) (tags : gmap str str) : str :=
  popup_header name typ ide
    ++ popup_cuisine tags
    ++ popup_address tags
    ++ popup_website tags
    ++ popup_email tags
    ++ popup_phone tags
    ++ popup_opening_hours tags.

(* ===================================================================== *)
(** ** What a run does to the outside *)
(* ===================================================================== *)

(** The answer to a request: its status and what
    [json.loads(r.data.decode("utf-8"))] makes of its body when the script
    asks for it. *)
Record response : Type := {
  status : Z;
  payload : outcome json
}.

(** The calls a run makes to the network, the clock and the file system. *)
Inductive event : Type :=
  | Request (url : str)
  | Sleep (seconds : Z)
  | OpenWrite (path : str)
  | Rename (src dst : str).

(** The files of the directory, by path, with their bytes. *)
Abbreviation files := (gmap str (list Byte.byte)).

(** [os.rename(src, dst)] between files: [src] must exist, a [dst] that
    exists is replaced. *)
Definition os_rename (src dst : str) (fs : files) : outcome files :=
  match fs !! src with
  | Some content => Ok (<[dst := content]> (delete src fs))
  | None => Raise FileNotFoundError
  end.

(** The query sent to each server. *)
Definition overpass_data_out : str := u "?data=[out:json];(".
Definition overpass_vegan_objects : str :=
  u "node[" ++ [DQUOTE] ++ u "diet:vegan" ++ [DQUOTE] ++ u "~" ++ [DQUOTE]
    ++ u "yes|only|limited" ++ [DQUOTE] ++ u "];way[" ++ [DQUOTE]
    ++ u "diet:vegan" ++ [DQUOTE] ++ u "~" ++ [DQUOTE] ++ u "yes|only|limited"
    ++ [DQUOTE] ++ u "];".
Definition overpass_vegetarian_objects : str :=
  u "node[" ++ [DQUOTE] ++ u "diet:vegetarian" ++ [DQUOTE] ++ u "~" ++ [DQUOTE]
    ++ u "yes|only" ++ [DQUOTE] ++ u "];way[" ++ [DQUOTE]
    ++ u "diet:vegetarian" ++ [DQUOTE] ++ u "~" ++ [DQUOTE] ++ u "yes|only"
    ++ [DQUOTE] ++ u "];".
Definition overpass_out : str := u ");out+center;".

Definition query_url (overpass_server : str) : str :=
  overpass_server ++ overpass_data_out ++ overpass_vegan_objects
    ++ overpass_vegetarian_objects ++ overpass_out.

(** Events [evs] happened, then the computation [r] ran. *)
Definition after {A} (evs : list event) (r : A * list event) : A * list event :=
  (r.1, evs ++ r.2).

(* ===================================================================== *)
(** ** [get_data_osm] *)
(* ===================================================================== *)

Section Fetch.

(** The network: what the [server]-th request of the run, sent to [url],
    comes back with. *)
Variable HTTP_request : nat -> str -> outcome response.

(** The [while] loop, on the servers from index [server] on ([rest] is
    [SERVERS[server:]]) and with [result] still [None]. It gives what
    the function returns and the events of the loop. *)
Fixpoint fetch_loop (rest : list str) (server : nat)
    : outcome json * list event :=
  match rest with
  | [] => (Ok JNull, [])
  | overpass_server :: rest' =>
      let url := query_url overpass_server in
      match HTTP_request server url with
      | Raise e => (Raise e, [Request url])
      | Ok r =>
          if status r =? 200 then
            match payload r with
            | Raise e => (Raise e, [Request url])
            | Ok JNull => after [Request url] (fetch_loop rest' (S server))
            | Ok result => (Ok result, [Request url])
            end
          else if status r =? 400 then
            after [Request url; Sleep 5] (fetch_loop rest' (S server))
          else if status r =? 429 then
            after [Request url; Sleep 60] (fetch_loop rest' (S server))
          else if status r =? 504 then
            after [Request url; Sleep 600] (fetch_loop rest' (S server))
          else
            after [Request url] (fetch_loop rest' (S server))
      end
  end.

(** [get_data_osm()]: [JNull] is the [None] it returns when no server
    gave a result. *)
Definition get_data_osm : outcome json * list event :=
  fetch_loop SERVERS 0.

End Fetch.

(* ===================================================================== *)
(** ** [write_data] *)
(* ===================================================================== *)

(** The state of the loop over the elements: the local variables [lat] and
    [lon] ([None] while they are unbound; they keep their value from one
    element to the next), the text written to the file so far and the
    counters. The other locals are assigned anew before they are read. *)
Record wstate : Type := {
  lat : option pyval;
  lon : option pyval;
  written : str;
  numbers : counters
}.

(** Reading a local variable. *)
Definition read_local (v : option pyval) : outcome pyval :=
  match v with
  | Some x => Ok x
  | None => Raise UnboundLocalError
  end.

Section Write.

Variable html5 : str -> option str.
Variable invalid_charrefs : N -> option str.
Variable invalid_codepoints : N -> bool.

(** [str(f)] for a [float]. *)
Variable str_of_float : spec_float -> str.

(** [TIMESTAMP], as [%s] prints it. *)
Variable TIMESTAMP : str.

(** ['%s' % v] *)
Definition py_str (v : pyval) : str :=
  match v with
  | PyNone => u "None"
  | PyBool true => u "True"
  | PyBool false => u "False"
  | PyInt z => str_of_Z z
  | PyFloat f => str_of_float f
  | PyStr s => s
  end.

(** [name] and [title] of a marker. *)
Definition name_and_title (icon : icon) (tags : gmap str str)
    (typ : str) (ide : Z) : str * str :=
  match tags !! u "name" with
  | Some n =>
      let name := icon.2 ++ u " " ++ n in
      let title := Html.unescape html5 invalid_charrefs invalid_codepoints name in
      let title := replace [DQUOTE] (u "”") title in
      (name, title)
  | None =>
      let name := icon.2 ++ u " " ++ typ ++ u " " ++ str_of_Z ide in
      (name, name)
  end.

(** The line written for a marker. *)
Definition marker_line (lat lon : pyval) (title : str) (icon : icon)
    (category popup : str) : str :=
  u "L.marker([" ++ py_str lat ++ u "," ++ py_str lon ++ u "],{title:"
    ++ [DQUOTE] ++ title ++ [DQUOTE] ++ u ",icon:getIcon(" ++ [DQUOTE]
    ++ icon.1 ++ [DQUOTE] ++ u "," ++ [DQUOTE] ++ category ++ [DQUOTE]
    ++ u ")}).bindPopup(" ++ [DQUOTE] ++ popup ++ [DQUOTE] ++ u ").addTo("
    ++ category ++ u ");" ++ [LF].

(** The tags of an element after [html.escape] went over every value. *)
Definition escaped_tags (e : element) : gmap str str :=
  Html.escape <$> default ∅ (e_tags e).

(** The body of the loop from the test of the coordinates on: nothing
    more for a false coordinate ([continue]), a marker otherwise. *)
Definition finish_element (e : element) (st : wstate) : outcome wstate :=
  let ide := e_id e in
  let typ := e_type e in
  let tags := escaped_tags e in
  let* la := read_local (lat st) in
  if negb (truthy la) then Ok st else
  let* lo := read_local (lon st) in
  if negb (truthy lo) then Ok st else
  let* icon := determine_icon tags in
  let '(name, title) := name_and_title icon tags typ ide in
  let category := classify tags in
  let popup := build_popup name typ ide tags in
  Ok {| lat := lat st; lon := lon st;
        written := written st
          ++ marker_line la lo title icon (category_name category) popup;
        numbers := count_marker category (numbers st) |}.

(** The body of the loop, for the element [e]: the tags are escaped,
    [lat] and [lon] are assigned for a node and for a way, and the rest
    follows. *)
Definition process_element (e : element) (st : wstate) : outcome wstate :=
  let typ := e_type e in
  let st :=
    if str_eqb typ (u "node") then
      {| lat := Some (get_or_None (e_lat e));
         lon := Some (get_or_None (e_lon e));
         written := written st; numbers := numbers st |}
    else st in
  let* st :=
    if str_eqb typ (u "way") then
      match e_center e with
      | Some center_coordinates =>
          Ok {| lat := Some (get_or_None (c_lat center_coordinates));
                lon := Some (get_or_None (c_lon center_coordinates));
                written := written st; numbers := numbers st |}
      | None => Raise AttributeError
      end
    else Ok st in
  finish_element e st.

(** The [for] loop as far as the text goes, the encoding of the file
    left aside: [written] is the text handed to [f.write] so far. When an
    element raises, nothing was handed over for it. *)
Fixpoint write_loop (elements : list element) (st : wstate)
    : outcome unit * wstate :=
  match elements with
  | [] => (Ok tt, st)
  | e :: elements' =>
      match process_element e st with
      | Ok st' => write_loop elements' st'
      | Raise x => (Raise x, st)
      end
  end.

(** The two lines of the header and the two texts of the footer, as
    they are handed to [f.write]. *)
Definition header_created : str := u "// Created: " ++ TIMESTAMP ++ [LF].
Definition header_function : str :=
  u "function veggiemap_populate(markers) {" ++ [LF].
Definition footer_brace : str := u "}" ++ [LF].
Definition footer_numbers (n : counters) : str :=
  u "let numbers = {" ++ [LF]
    ++ u " n_vegan_only:" ++ str_of_Z (n_vegan_only n) ++ u "," ++ [LF]
    ++ u " n_vegetarian_only:" ++ str_of_Z (n_vegetarian_only n) ++ u "," ++ [LF]
    ++ u " n_vegan_friendly:" ++ str_of_Z (n_vegan_friendly n) ++ u "," ++ [LF]
    ++ u " n_vegan_limited:" ++ str_of_Z (n_vegan_limited n) ++ u "," ++ [LF]
    ++ u " n_vegetarian_friendly:" ++ str_of_Z (n_vegetarian_friendly n) ++ [LF]
    ++ u "};" ++ [LF].

(** The text of the header and the text of the footer. *)
Definition file_header : str := header_created ++ header_function.
Definition file_footer (n : counters) : str := footer_brace ++ footer_numbers n.

(** The state in which the loop starts: the header has been handed to
    [f.write]. *)
Definition initial_wstate : wstate :=
  {| lat := None; lon := None; written := file_header; numbers := no_markers |}.

(** The directory of the script. *)
Variable SCRIPTDIR : str.

(** The text layer of the file, in the encoding of the locale ([open] is
    given none) and with its translation of line ends: [encode before text]
    is the bytes [f.write(text)] appends once [before] has been written to
    the file, or [None] for a text the encoding cannot represent. The
    device takes the bytes it is given: a full disk is not modelled. *)
Variable encode : str -> str -> option (list Byte.byte).

(** The exception [open(VEGGIEMAP_TEMPFILE, 'w')] raises, [None] when the
    file opens. *)
Variable open_error : option exn.

Definition VEGGIEMAP_TEMPFILE : str := SCRIPTDIR ++ u "/js/veggiemap-data-temp.js".
Definition VEGGIEMAP_FILE : str := SCRIPTDIR ++ u "/js/veggiemap-data.js".
Definition VEGGIEMAP_OLDFILE : str := SCRIPTDIR ++ u "/js/veggiemap-data_old.js".

(** [f.write(text)] on the open file, [file] being the bytes and [before]
    the text written so far: the text is encoded as a whole and appended,
    or [UnicodeEncodeError] is raised and nothing of the text is
    written. *)
Definition f_write (before text : str) (file : list Byte.byte)
    : outcome (list Byte.byte) :=
  match encode before text with
  | Some bytes => Ok (file ++ bytes)
  | None => Raise UnicodeEncodeError
  end.

(** The [for] loop with its write. The body of the loop ends with its
    only [f.write], of the line of the marker: that line is what
    [process_element] adds to [written], and it is never empty. An element
    that leaves [written] as it is went through [continue], and nothing is
    handed to [f.write]. When the body or the write raises the loop stops
    with the file as it is. *)
Fixpoint write_elements (elements : list element) (st : wstate)
    (file : list Byte.byte) : outcome wstate * list Byte.byte :=
  match elements with
  | [] => (Ok st, file)
  | e :: elements' =>
      match process_element e st with
      | Raise x => (Raise x, file)
      | Ok st' =>
          if bool_decide (written st' = written st)
          then write_elements elements' st' file
          else
            match f_write (written st)
                    (drop (length (written st)) (written st')) file with
            | Raise x => (Raise x, file)
            | Ok file' => write_elements elements' st' file'
            end
      end
  end.

(** The body of the [with] block: how it ends and what the file holds
    then. *)
Definition write_block (data : json) : outcome unit * list Byte.byte :=
  match f_write [] header_created [] with
  | Raise x => (Raise x, [])
  | Ok file1 =>
      match f_write header_created header_function file1 with
      | Raise x => (Raise x, file1)
      | Ok file2 =>
          match data with
          | JNull => (Raise TypeError, file2)
          | JDoc elements =>
              match write_elements elements initial_wstate file2 with
              | (Raise x, file3) => (Raise x, file3)
              | (Ok st, file3) =>
                  match f_write (written st) footer_brace file3 with
                  | Raise x => (Raise x, file3)
                  | Ok file4 =>
                      match f_write (written st ++ footer_brace)
                              (footer_numbers (numbers st)) file4 with
                      | Raise x => (Raise x, file4)
                      | Ok file5 => (Ok tt, file5)
                      end
                  end
              end
          end
      end
  end.

(** [write_data(data)]. When [open] raises, nothing is written. When the
    temp file opens it is created or emptied, and it holds what was
    written when the function is left, normally or not. *)
Definition write_data (data : json) (fs : files)
    : outcome unit * files * list event :=
  match open_error with
  | Some x => (Raise x, fs, [OpenWrite VEGGIEMAP_TEMPFILE])
  | None =>
      let '(r, file) := write_block data in
      (r, <[VEGGIEMAP_TEMPFILE := file]> fs, [OpenWrite VEGGIEMAP_TEMPFILE])
  end.

(** [check_data()] *)
Definition check_data (fs : files) : outcome unit * files * list event :=
  match fs !! VEGGIEMAP_TEMPFILE with
  | Some temp =>
      if Z.of_nat (length temp) >? 250 then
        match os_rename VEGGIEMAP_FILE VEGGIEMAP_OLDFILE fs with
        | Raise x => (Raise x, fs, [])
        | Ok fs1 =>
            match os_rename VEGGIEMAP_TEMPFILE VEGGIEMAP_FILE fs1 with
            | Raise x => (Raise x, fs1, [Rename VEGGIEMAP_FILE VEGGIEMAP_OLDFILE])
            | Ok fs2 =>
                (Ok tt, fs2, [Rename VEGGIEMAP_FILE VEGGIEMAP_OLDFILE;
                              Rename VEGGIEMAP_TEMPFILE VEGGIEMAP_FILE])
            end
        end
      else (Ok tt, fs, [])
  | None => (Ok tt, fs, [])
  end.

Variable HTTP_request : nat -> str -> outcome response.

(** [main()] *)
Definition main (fs : files) : outcome unit * files * list event :=
  match get_data_osm HTTP_request with
  | (Raise x, evs) => (Raise x, fs, evs)
  | (Ok JNull, evs) => (Ok tt, fs, evs)
  | (Ok osm_data, evs) =>
      match write_data osm_data fs with
      | (Raise x, fs1, evs1) => (Raise x, fs1, evs ++ evs1)
      | (Ok _, fs1, evs1) =>
          let '(r, fs2, evs2) := check_data fs1 in
          (r, fs2, evs ++ evs1 ++ evs2)
      end
  end.

End Write.

(* ===================================================================== *)
(** ** Notions of the specification *)
(* ===================================================================== *)

(** The text of a value before its first [;]. *)
Definition before_semicolon (t : str) : str :=
  Html.take_while (fun c => negb (c =? 59)%N) t.

(** A rule of the icon table: attribute name, expected value, icon. The
    key of an [ICON_MAPPING] entry is [name:value]. *)
Definition rule : Type := str * str * icon.

Definition rule_of (entry : str * icon) : rule :=
  let k := Html.take_while (fun c => negb (c =? 58)%N) entry.1 in
  (k, drop (S (length k)) entry.1, entry.2).

Definition icon_rules : list rule := map rule_of ICON_MAPPING.

(** A rule matches when its attribute is present and the value, up to its
    first [;], is the expected one. *)
Definition rule_matches (tags : gmap str str) (r : rule) : bool :=
  match tags !! r.1.1 with
  | Some t => str_eqb (before_semicolon t) r.1.2
  | None => false
  end.

(** The icon of the first rule of the table that matches, the default icon
    if none does. *)
Definition first_match_icon (tags : gmap str str) : icon :=
  match find (rule_matches tags) icon_rules with
  | Some r => r.2
  | None => default_icon
  end.

(** The order of Python on strings: by code points, a prefix first. *)
Fixpoint str_ltb (s t : str) : bool :=
  match s, t with
  | [], [] => false
  | [], _ :: _ => true
  | _ :: _, [] => false
  | a :: s', b :: t' => (a <? b)%N || ((a =? b)%N && str_ltb s' t')
  end.

Fixpoint ascending (l : list str) : bool :=
  match l with
  | a :: (b :: _) as l' => str_ltb a b && ascending l'
  | _ => true
  end.

(** An [ICON_MAPPING] entry [determine_icon] can take apart: its key has
    one colon, with a value after it. *)
Definition entry_ok (entry : str * icon) : bool :=
  let r := rule_of entry in
  str_eqb_list (split_on 58 entry.1) [r.1.1; r.1.2]
    && negb (str_eqb r.1.2 []).

(** The pause the specification gives for a status that is not 200. *)
Definition cooldown (status : Z) : list event :=
  if status =? 429 then [Sleep 60]
  else if status =? 504 then [Sleep 600]
  else if status =? 400 then [Sleep 5]
  else [].

Section FetchNotions.

Variable HTTP_request : nat -> str -> outcome response.

(** The [i]-th request, to [server], is answered with a status other
    than 200. *)
Definition fails (i : nat) (server : str) : Prop :=
  exists r, HTTP_request i (query_url server) = Ok r /\ status r <> 200.

(** The events of unsuccessful attempts on [servers] one after the
    other, the first being request number [i]: each request, then the
    pause for its status. *)
Fixpoint failure_events (servers : list str) (i : nat) : list event :=
  match servers with
  | [] => []
  | server :: rest =>
      Request (query_url server)
        :: match HTTP_request i (query_url server) with
           | Ok r => cooldown (status r)
           | Raise _ => []
           end
        ++ failure_events rest (S i)
  end.


End FetchNotions.

(** A network whose first server answers 200 with the body [null] and
    whose other servers answer 200 with a document without elements. *)
Definition null_then_empty (i : nat) (url : str) : outcome response :=
  match i with
  | O => Ok {| status := 200; payload := Ok JNull |}
  | S _ => Ok {| status := 200; payload := Ok (JDoc []) |}
  end.

(** A network whose first server answers 429 and whose other servers
    answer 200 with a document without elements. *)
Definition busy_then_empty (i : nat) (url : str) : outcome response :=
  match i with
  | O => Ok {| status := 429; payload := Raise JSONDecodeError |}
  | S _ => Ok {| status := 200; payload := Ok (JDoc []) |}
  end.

(** A network on which every server answers 504. *)
Definition all_timeout (i : nat) (url : str) : outcome response :=
  Ok {| status := 504; payload := Raise JSONDecodeError |}.

(** Events of the network and the clock, as opposed to those of the file
    system. *)
Definition is_net_event (ev : event) : bool :=
  match ev with
  | Request _ | Sleep _ => true
  | OpenWrite _ | Rename _ _ => false
  end.

(** ** An environment to run the script in *)

(** UTF-8, the encoding the examples write files in. *)
Definition utf8_encode_char (c : N) : list N :=
  if (c <? 0x80)%N then [c]
  else if (c <? 0x800)%N then [0xC0 + c / 64; 0x80 + c mod 64]%N
  else if (c <? 0x10000)%N
  then [0xE0 + c / 4096; 0x80 + (c / 64) mod 64; 0x80 + c mod 64]%N
  else [0xF0 + c / 262144; 0x80 + (c / 4096) mod 64;
        0x80 + (c / 64) mod 64; 0x80 + c mod 64]%N.

Definition utf8_encode (s : str) : list Byte.byte :=
  map (fun n => default Byte.x00 (Byte.of_N n)) (flat_map utf8_encode_char s).

(** A printer of floats for the examples, which only use integers as
    coordinates: sign, mantissa and binary exponent. *)
Definition example_str_of_float (f : spec_float) : str :=
  match f with
  | S754_zero s => if s then u "-0.0" else u "0.0"
  | S754_infinity s => if s then u "-inf" else u "inf"
  | S754_nan => u "nan"
  | S754_finite s m e =>
      (if s then u "-" else []) ++ str_of_Z (Z.pos m) ++ u "*2**" ++ str_of_Z e
  end.

Definition example_dir : str := u "/srv/veggiekarte".
Definition example_timestamp : str := u "2024-01-01 00:00:00.000000".

(** A directory that holds a large temp file and nothing else. *)
Definition only_temp : files :=
  {[ VEGGIEMAP_TEMPFILE example_dir := repeat Byte.x20 251 ]}.

(** A directory with an active file, an older previous file and a large
    temp file. *)
Definition three_files : files :=
  <[ VEGGIEMAP_TEMPFILE example_dir := repeat Byte.x20 251 ]>
  (<[ VEGGIEMAP_FILE example_dir := utf8_encode (u "active") ]>
  {[ VEGGIEMAP_OLDFILE example_dir := utf8_encode (u "old") ]}).

(** A directory with an active file and a small temp file. *)
Definition small_temp : files :=
  <[ VEGGIEMAP_TEMPFILE example_dir := repeat Byte.x20 250 ]>
  {[ VEGGIEMAP_FILE example_dir := utf8_encode (u "active") ]}.

(** What the round trip of a name assumes of the tables of the library:
    the four named references [html.escape] produces are in [html5], and
    the code point of the apostrophe, which it writes as a number, is in
    neither table of invalid numbers. *)
Definition library_tables (html5 : str -> option str)
    (invalid_charrefs : N -> option str) (invalid_codepoints : N -> bool) : Prop :=
  html5 (u "amp;") = Some (u "&")
  /\ html5 (u "lt;") = Some (u "<")
  /\ html5 (u "gt;") = Some (u ">")
  /\ html5 (u "quot;") = Some [DQUOTE]
  /\ invalid_charrefs 39%N = None
  /\ invalid_codepoints 39%N = false.

(** A text with every double quote turned into the right double quotation
    mark U+201D. *)
Definition requote (s : str) : str :=
  map (fun c => if (c =? DQUOTE)%N then 0x201D%N else c) s.

(** What [html.escape] writes for one character. *)
Definition escape_char (c : N) : str :=
  if (c =? 38)%N then u "&amp;"
  else if (c =? 60)%N then u "&lt;"
  else if (c =? 62)%N then u "&gt;"
  else if (c =? 34)%N then u "&quot;"
  else if (c =? 39)%N then u "&#x27;"
  else [c].

(** An emoji that reads the same after [html.unescape] and the
    replacement of double quotes: no ampersand, no double quote. *)
Definition plain_emoji (i : icon) : bool :=
  negb (contains 38 i.2) && negb (contains DQUOTE i.2).

(** [old] occurs in [s]. *)
Definition occurs (old s : str) : Prop :=
  exists pre post, s = pre ++ old ++ post.

(** [s] without the prefix [p], if it starts with it. *)
Definition strip_leading (p s : str) : str :=
  if startswith p s then drop (length p) s else s.

(** The claim that the text of the website link is the value less a
    leading [https://] and nothing else. *)
Definition website_text_strips_prefix_only : Prop :=
  forall tags : gmap str str,
    place_website tags <> [] ->
    popup_website tags =
      popup_row (u "🌐")
        (link (place_website tags)
              (strip_leading (u "https://") (place_website tags))).

(** Tags with a website whose address holds [https://] further in. *)
Definition redirect_tags : gmap str str :=
  {[ u "website" := u "http://example.org/?to=https://example.com" ]}.

(** Tags with both website attributes. *)
Definition two_websites : gmap str str :=
  <[ u "contact:website" := u "https://example.com/contact" ]>
  {[ u "website" := u "https://example.com" ]}.

(** A coordinate that is absent, [null], zero, or false in some other
    way. *)
Definition missing_or_zero (o : option pyval) : Prop :=
  o = None \/ o = Some PyNone \/ o = Some (PyInt 0)
  \/ (exists s, o = Some (PyFloat (S754_zero s)))
  \/ o = Some (PyBool false) \/ o = Some (PyStr []).

Definition is_node_or_way (e : element) : bool :=
  str_eqb (e_type e) (u "node") || str_eqb (e_type e) (u "way").

(** The most recent node or way of the elements gone through. *)
Fixpoint last_node_or_way (pre : list element) : option element :=
  match pre with
  | [] => None
  | p :: pre' =>
      match last_node_or_way pre' with
      | Some q => Some q
      | None => if is_node_or_way p then Some p else None
      end
  end.

(** The latitude and longitude a node or a way resolves to. *)
Definition resolved_coordinates (p : element) : option (pyval * pyval) :=
  if str_eqb (e_type p) (u "node")
  then Some (get_or_None (e_lat p), get_or_None (e_lon p))
  else match e_center p with
       | Some c => Some (get_or_None (c_lat c), get_or_None (c_lon c))
       | None => None
       end.

(** Elements for the examples. *)
Definition cafe : element :=
  {| e_id := 1; e_type := u "node";
     e_tags := Some (<[u "diet:vegan" := u "only"]>
                     (<[u "name" := u "Green Cafe"]>
                      {[ u "amenity" := u "cafe" ]}));
     e_lat := Some (PyInt 52); e_lon := Some (PyInt 13); e_center := None |}.

Definition node_without_lat : element :=
  {| e_id := 2; e_type := u "node";
     e_tags := Some {[ u "diet:vegan" := u "yes" ]};
     e_lat := None; e_lon := Some (PyInt 13); e_center := None |}.

Definition way_without_center : element :=
  {| e_id := 3; e_type := u "way";
     e_tags := Some {[ u "diet:vegan" := u "yes" ]};
     e_lat := None; e_lon := None; e_center := None |}.

Definition relation : element :=
  {| e_id := 4; e_type := u "relation";
     e_tags := Some {[ u "diet:vegetarian" := u "yes" ]};
     e_lat := None; e_lon := None; e_center := None |}.

(** A network whose first server answers 200 with a document that holds
    the cafe of the examples. *)
Definition cafe_at_once (i : nat) (url : str) : outcome response :=
  Ok {| status := 200; payload := Ok (JDoc [cafe]) |}.

Section WriteNotions.

Variable html5 : str -> option str.
Variable invalid_charrefs : N -> option str.
Variable invalid_codepoints : N -> bool.
Variable str_of_float : spec_float -> str.
Variable TIMESTAMP : str.

(** The claim that an element which is neither a node nor a way always
    gets a marker once a node or a way came before it. *)
Definition other_type_always_marked : Prop :=
  forall (pre : list element) (e : element) (st : wstate),
    is_node_or_way e = false ->
    write_loop html5 invalid_charrefs invalid_codepoints str_of_float
      pre (initial_wstate TIMESTAMP) = (Ok tt, st) ->
    last_node_or_way pre <> None ->
    exists st' line,
      process_element html5 invalid_charrefs invalid_codepoints
        str_of_float e st = Ok st'
      /\ written st' = written st ++ line /\ line <> [].

End WriteNotions.

(* ===================================================================== *)
(** ** Further notions: the whole of [write_data], [get_data_osm], [main] *)
(* ===================================================================== *)

(** The characters [html.escape] replaces, and the semicolon its
    replacements end with. *)
Definition escape_sensitive (c : N) : bool :=
  contains c [38; 60; 62; 34; 39; 59]%N.

(** A text that [html.escape] leaves as it is and that holds no
    semicolon. *)
Definition plain_text (v : str) : bool :=
  forallb (fun c => negb (escape_sensitive c)) v.

(** The tags of an element as the response holds them. *)
Definition raw_tags (e : element) : gmap str str := default ∅ (e_tags e).

(** A node, or a way with its [center]: the elements the body of the loop
    is written for. *)
Definition node_or_centered_way (e : element) : bool :=
  str_eqb (e_type e) (u "node")
  || (str_eqb (e_type e) (u "way") && bool_decide (is_Some (e_center e))).

(** An element whose latitude and longitude are both true. *)
Definition located (e : element) : bool :=
  match resolved_coordinates e with
  | Some (la, lo) => truthy la && truthy lo
  | None => false
  end.

(** The number of markers counted. *)
Definition total (n : counters) : Z :=
  n_vegan_only n + n_vegetarian_only n + n_vegan_friendly n
    + n_vegan_limited n + n_vegetarian_friendly n.

(** The counter of a category. *)
Definition counter_of (c : category) (n : counters) : Z :=
  match c with
  | vegan_only => n_vegan_only n
  | vegetarian_only => n_vegetarian_only n
  | vegan_friendly => n_vegan_friendly n
  | vegan_limited => n_vegan_limited n
  | vegetarian_friendly => n_vegetarian_friendly n
  end.

Definition category_eqb (c d : category) : bool :=
  match c, d with
  | vegan_only, vegan_only
  | vegetarian_only, vegetarian_only
  | vegan_friendly, vegan_friendly
  | vegan_limited, vegan_limited
  | vegetarian_friendly, vegetarian_friendly => true
  | _, _ => false
  end.



(** The files renamed in a trace. *)
Definition renames (evs : list event) : list (str * str) :=
  omap (fun ev => match ev with Rename a b => Some (a, b) | _ => None end) evs.

(** The counters after the markers of the given categories, one after
    the other. *)
Definition tally (n : counters) (cs : list category) : counters :=
  fold_left (fun n c => count_marker c n) cs n.

(** The categories of the located elements, in the order of the
    response. *)
Definition marked_categories (es : list element) : list category :=
  map (fun e => classify (escaped_tags e)) (List.filter located es).

(** The attribute names the rules of the icon table look at. *)
Definition icon_keys : list str :=
  [u "cuisine"; u "amenity"; u "historic"; u "leisure"; u "shop"; u "tourism"].

(** The line of the popup for an e-mail address or a phone number. *)
Definition contact_row (emoji scheme v : str) : str :=
  popup_row emoji (link (scheme ++ v) v ++ u "<br/>").

(** A text of ASCII characters. *)
Definition ascii_text (s : str) : bool := forallb (fun c => (c <? 128)%N) s.

(** A network whose first server answers 503 and whose other servers
    answer 200 with a body that is no JSON. *)
Definition unavailable_then_garbled (i : nat) (url : str) : outcome response :=
  match i with
  | O => Ok {| status := 503; payload := Raise JSONDecodeError |}
  | S _ => Ok {| status := 200; payload := Raise JSONDecodeError |}
  end.

(** A network that answers 200 with the cafe, a way without [center] and
    the cafe again. *)
Definition cafe_way_cafe (i : nat) (url : str) : outcome response :=
  Ok {| status := 200; payload := Ok (JDoc ([cafe] ++ way_without_center :: [cafe])) |}.

(** UTF-8 as the text layer of a file: a lone surrogate and a number
    beyond U+10FFFF cannot be encoded. *)
Definition utf8 (s : str) : option (list Byte.byte) :=
  if forallb (fun c => (c <? 0xD800) || ((0xDFFF <? c) && (c <? 0x110000)))%N s
  then Some (utf8_encode s)
  else None.

(** UTF-8 as the encoding of a file: it keeps nothing from one write to
    the next. *)
Definition utf8_file (before text : str) : option (list Byte.byte) := utf8 text.

(** Latin-1 as the encoding of a file: one byte for a code point below
    256, and no other code point. *)
Definition latin1_file (before text : str) : option (list Byte.byte) :=
  if forallb (fun c => (c <? 256)%N) text
  then Some (map (fun n => default Byte.x00 (Byte.of_N n)) text)
  else None.

(** The code points from U+2600 on, where the emoji are. *)
Definition emoji_range (c : N) : bool := (0x2600 <=? c)%N.

(** An encoding without a character from U+2600 on, as ASCII, Latin-1 and
    Windows-1252 are: it refuses a text that holds one. *)
Definition without_emoji (encode : str -> str -> option (list Byte.byte)) : Prop :=
  forall before s, existsb emoji_range s = true -> encode before s = None.

(** An element that a rule of the icon table matches. *)
Definition has_table_icon (e : element) : bool :=
  existsb (rule_matches (escaped_tags e)) icon_rules.

(** Texts written one after the other to a file that holds the bytes
    [file] of the text [before], up to the first that cannot be
    encoded. *)
Fixpoint write_all (encode : str -> str -> option (list Byte.byte))
    (before : str) (chunks : list str) (file : list Byte.byte)
    : outcome unit * list Byte.byte :=
  match chunks with
  | [] => (Ok tt, file)
  | c :: chunks' =>
      match encode before c with
      | Some bytes => write_all encode (before ++ c) chunks' (file ++ bytes)
      | None => (Raise UnicodeEncodeError, file)
      end
  end.



Section LineNotions.

Variable html5 : str -> option str.
Variable invalid_charrefs : N -> option str.
Variable invalid_codepoints : N -> bool.
Variable str_of_float : spec_float -> str.

(** The line of a located element: its coordinates, the title, the icon
    of the first matching rule, the category and the popup. *)
Definition element_line (e : element) : str :=
  match resolved_coordinates e with
  | Some (la, lo) =>
      let tags := escaped_tags e in
      let icon := first_match_icon tags in
      let nt := name_and_title html5 invalid_charrefs invalid_codepoints
                  icon tags (e_type e) (e_id e) in
      marker_line str_of_float la lo nt.2 icon
        (category_name (classify tags))
        (build_popup nt.1 (e_type e) (e_id e) tags)
  | None => []
  end.

(** The texts [write_data] hands to [f.write] for a response of nodes and
    of ways with their centre: the two header lines, the lines of the
    located elements, the closing brace and the numbers. *)
Definition file_chunks (TIMESTAMP : str) (es : list element) : list str :=
  [header_created TIMESTAMP; header_function]
    ++ map element_line (List.filter located es)
    ++ [footer_brace; footer_numbers (tally no_markers (marked_categories es))].

End LineNotions.

(* ===================================================================== *)
(** ** Facts about strings *)
(* ===================================================================== *)

Lemma str_eqb_eq (s t : str) : str_eqb s t = true <-> s = t.
Proof. unfold str_eqb. apply bool_decide_eq_true. Qed.

Lemma str_eqb_neq (s t : str) : str_eqb s t = false <-> s <> t.
Proof. unfold str_eqb. apply bool_decide_eq_false. Qed.

Lemma str_eqb_refl (s : str) : str_eqb s s = true.
Proof. by apply str_eqb_eq. Qed.

(** Comparisons of two literals are computed. *)
Ltac eval_str_eqb :=
  repeat match goal with
  | |- context [str_eqb (u ?a) (u ?b)] =>
      let v := eval vm_compute in (str_eqb (u a) (u b)) in
      replace (str_eqb (u a) (u b)) with v by (vm_compute; reflexivity)
  end.

Lemma get_or_empty_Some (tags : gmap str str) (k v : str) :
  tags !! k = Some v -> get_or_empty tags k = v.
Proof. unfold get_or_empty. by intros ->. Qed.

Lemma get_or_empty_ne (tags : gmap str str) (k v : str) :
  tags !! k <> Some v -> v <> [] -> get_or_empty tags k <> v.
Proof.
  unfold get_or_empty. intros Hk Hv.
  destruct (tags !! k) as [w|]; simpl; congruence.
Qed.

(** The first piece of a split is the text before the first separator. *)
Lemma head_split_on (sep : N) (t : str) :
  head (split_on sep t) = Some (Html.take_while (fun c => negb (c =? sep)%N) t).
Proof.
  induction t as [|c t IH]; simpl; [done|].
  destruct (c =? sep)%N; simpl; [done|].
  destruct (split_on sep t) as [|p ps]; simpl in *; [done|].
  by injection IH as ->.
Qed.

(* ===================================================================== *)
(** ** The category classifier *)
(* ===================================================================== *)

(** C1. The category of an attribute set follows the decision order of the
    script: [diet:vegan] [only] gives [vegan_only] whatever else is
    tagged; failing that, [diet:vegetarian] [only] with [diet:vegan] [yes]
    gives [vegetarian_only]; failing that, [diet:vegan] [yes] gives
    [vegan_friendly]; failing that, [diet:vegan] [limited] gives
    [vegan_limited]; everything else is [vegetarian_friendly]. Every
    attribute set has exactly one category. *)
Theorem classify_decision_order (tags : gmap str str) :
  let vegan := tags !! u "diet:vegan" in
  let vegetarian := tags !! u "diet:vegetarian" in
  (vegan = Some (u "only") -> classify tags = vegan_only)
  /\ (vegan <> Some (u "only") ->
      vegetarian = Some (u "only") /\ vegan = Some (u "yes") ->
      classify tags = vegetarian_only)
  /\ (vegan <> Some (u "only") ->
      ~ (vegetarian = Some (u "only") /\ vegan = Some (u "yes")) ->
      vegan = Some (u "yes") ->
      classify tags = vegan_friendly)
  /\ (vegan <> Some (u "only") ->
      ~ (vegetarian = Some (u "only") /\ vegan = Some (u "yes")) ->
      vegan <> Some (u "yes") ->
      vegan = Some (u "limited") ->
      classify tags = vegan_limited)
  /\ (vegan <> Some (u "only") ->
      ~ (vegetarian = Some (u "only") /\ vegan = Some (u "yes")) ->
      vegan <> Some (u "yes") ->
      vegan <> Some (u "limited") ->
      classify tags = vegetarian_friendly)
  /\ (exists c, classify tags = c /\ forall c', classify tags = c' -> c' = c).
Proof.
  intros vegan vegetarian. subst vegan vegetarian. unfold classify.
  repeat split.
  - intros H. by rewrite (get_or_empty_Some _ _ _ H), str_eqb_refl.
  - intros Hno [Hv Hy].
    rewrite (get_or_empty_Some _ _ _ Hv), (get_or_empty_Some _ _ _ Hy).
    by vm_compute.
  - intros Hno Hnot Hy.
    rewrite (get_or_empty_Some _ _ _ Hy). eval_str_eqb.
    rewrite andb_true_r.
    destruct (str_eqb _ _) eqn:E; [|done].
    apply str_eqb_eq in E. exfalso. apply Hnot. split; [|done].
    unfold get_or_empty in E. destruct (tags !! u "diet:vegetarian"); simpl in E.
    + by subst.
    + by vm_compute in E.
  - intros Hno _ Hny Hl.
    rewrite (get_or_empty_Some _ _ _ Hl). eval_str_eqb.
    by rewrite andb_false_r.
  - intros Hno _ Hny Hnl.
    assert (Ho : str_eqb (get_or_empty tags (u "diet:vegan")) (u "only") = false).
    { apply str_eqb_neq, get_or_empty_ne; [done | by vm_compute]. }
    assert (Hy : str_eqb (get_or_empty tags (u "diet:vegan")) (u "yes") = false).
    { apply str_eqb_neq, get_or_empty_ne; [done | by vm_compute]. }
    assert (Hl : str_eqb (get_or_empty tags (u "diet:vegan")) (u "limited") = false).
    { apply str_eqb_neq, get_or_empty_ne; [done | by vm_compute]. }
    by rewrite Ho, Hy, Hl, andb_false_r.
  - eexists. split; [reflexivity | by intros c' <-].
Qed.

(** Vegan only and vegetarian only at once: [vegan_only]. *)
Lemma classify_decision_order_witness :
  classify (<[u "diet:vegan" := u "only"]> {[ u "diet:vegetarian" := u "only" ]})
    = vegan_only.
Proof.
  apply (proj1 (classify_decision_order
                  (<[u "diet:vegan" := u "only"]>
                     {[ u "diet:vegetarian" := u "only" ]}))).
  vm_compute. reflexivity.
Defined.

(* ===================================================================== *)
(** ** The icon classifier *)
(* ===================================================================== *)

(** On entries it can take apart, the loop of [determine_icon] returns the
    icon of the first rule that matches. *)
Lemma determine_icon_from_first_match (entries : list (str * icon))
    (tags : gmap str str) :
  forallb entry_ok entries = true ->
  determine_icon_from entries tags =
    Ok (match find (rule_matches tags) (map rule_of entries) with
        | Some r => r.2
        | None => default_icon
        end).
Proof.
  induction entries as [|[kv val] rest IH]; [done|].
  cbn [forallb]. intros [Hok Hrest]%andb_true_iff. specialize (IH Hrest).
  unfold entry_ok in Hok. apply andb_true_iff in Hok as [Hsplit Hval].
  apply bool_decide_eq_true in Hsplit. apply negb_true_iff, str_eqb_neq in Hval.
  set (r := rule_of (kv, val)) in *.
  assert (Hr : r = (r.1.1, r.1.2, val)) by reflexivity.
  cbn [fst snd] in Hsplit.
  cbn [determine_icon_from map find]. fold r. rewrite Hsplit.
  cbn [unpack2 bind]. unfold rule_matches at 1.
  destruct (tags !! r.1.1) as [[|c t]|] eqn:Hk.
  - replace (str_eqb (before_semicolon []) r.1.2) with false; [done|].
    symmetry. apply str_eqb_neq. intros Hnil. apply Hval. by rewrite <- Hnil.
  - rewrite head_split_on. cbn [default]. fold (before_semicolon (c :: t)).
    destruct (str_eqb _ _); [|done]. by rewrite Hr.
  - done.
Qed.

Lemma ICON_MAPPING_ok : forallb entry_ok ICON_MAPPING = true.
Proof. vm_compute. reflexivity. Qed.

Lemma determine_icon_first_match (tags : gmap str str) :
  determine_icon tags = Ok (first_match_icon tags).
Proof. apply determine_icon_from_first_match, ICON_MAPPING_ok. Qed.

(** C2. [determine_icon] returns the icon of the first rule, in the order
    of the table, whose attribute is present with a value that equals the
    rule's value up to its first [;]. The table starts with
    [cuisine:pizza] and goes on in ascending order of the keys; an
    attribute set that matches both the pizza rule and the bar rule gets
    the pizza icon; when no rule matches the result is the default icon
    with an empty emoji; the function never raises. *)
Theorem determine_icon_spec (tags : gmap str str) :
  determine_icon tags = Ok (first_match_icon tags)
  /\ (exists rest,
        ICON_MAPPING =
          (u "cuisine:pizza", (u "maki_restaurant-pizza", u "🍕")) :: rest
        /\ ascending (map fst rest) = true
        /\ icon_rules =
             (u "cuisine", u "pizza", (u "maki_restaurant-pizza", u "🍕"))
               :: map rule_of rest)
  /\ (rule_matches tags (u "cuisine", u "pizza", (u "maki_restaurant-pizza", u "🍕")) = true ->
      rule_matches tags (u "amenity", u "bar", (u "bar", u "🍸")) = true ->
      determine_icon tags = Ok (u "maki_restaurant-pizza", u "🍕"))
  /\ ((forall r, r ∈ icon_rules -> rule_matches tags r = false) ->
      determine_icon tags = Ok (u "maki_star-stroked", []))
  /\ (forall e, determine_icon tags <> Raise e).
Proof.
  pose proof (determine_icon_first_match tags) as Hfirst.
  split; [done|]. split; [|split; [|split]].
  - eexists. split; [reflexivity|]. split; by vm_compute.
  - intros Hpizza _. rewrite Hfirst. f_equal.
    unfold first_match_icon.
    change icon_rules with
      ((u "cuisine", u "pizza", (u "maki_restaurant-pizza", u "🍕"))
         :: map rule_of (tail ICON_MAPPING)).
    simpl find. by rewrite Hpizza.
  - intros Hnone. rewrite Hfirst. f_equal. unfold first_match_icon.
    destruct (find _ _) as [r|] eqn:Hfind; [|done].
    apply find_some in Hfind as [Hin Hr].
    apply list_elem_of_In, Hnone in Hin. congruence.
  - intros e. by rewrite Hfirst.
Qed.

(** Pizza in a bar, tagged with several cuisines. *)
Lemma determine_icon_spec_witness :
  determine_icon (<[u "amenity" := u "bar"]> {[ u "cuisine" := u "pizza;pasta" ]})
    = Ok (u "maki_restaurant-pizza", u "🍕").
Proof.
  apply (proj1 (proj2 (proj2 (determine_icon_spec
           (<[u "amenity" := u "bar"]> {[ u "cuisine" := u "pizza;pasta" ]}))))).
  - vm_compute. reflexivity.
  - vm_compute. reflexivity.
Defined.

(* ===================================================================== *)
(** ** The endpoint fetcher *)
(* ===================================================================== *)

Section FetchFacts.

Variable HTTP_request : nat -> str -> outcome response.

Lemma fetch_loop_failed_attempt (server : str) (rest : list str) (i : nat) :
  fails HTTP_request i server ->
  fetch_loop HTTP_request (server :: rest) i =
    after (failure_events HTTP_request [server] i)
          (fetch_loop HTTP_request rest (S i)).
Proof.
  intros (r & Hr & Hst). cbn [fetch_loop failure_events]. rewrite Hr.
  apply Z.eqb_neq in Hst. rewrite Hst. unfold cooldown, after.
  destruct (status r =? 400) eqn:E400.
  { apply Z.eqb_eq in E400. rewrite E400. by cbn. }
  destruct (status r =? 429) eqn:E429; [by cbn|].
  destruct (status r =? 504) eqn:E504; by cbn.
Qed.

Lemma failure_events_app (l1 l2 : list str) (i : nat) :
  failure_events HTTP_request (l1 ++ l2) i =
    failure_events HTTP_request l1 i
      ++ failure_events HTTP_request l2 (i + length l1).
Proof.
  revert i. induction l1 as [|s l1 IH]; intros i; cbn [app failure_events length].
  - by rewrite Nat.add_0_r.
  - rewrite IH, <- app_assoc. by rewrite Nat.add_succ_comm.
Qed.

(** The loop returns the first document it is given, after the failed
    attempts before it and without any event after it. *)
Lemma fetch_loop_first_document (servers : list str) (i k : nat)
    (server : str) (r : response) (elements : list element) :
  servers !! k = Some server ->
  (forall j s, (j < k)%nat -> servers !! j = Some s -> fails HTTP_request (i + j) s) ->
  HTTP_request (i + k)%nat (query_url server) = Ok r ->
  status r = 200 ->
  payload r = Ok (JDoc elements) ->
  fetch_loop HTTP_request servers i =
    (Ok (JDoc elements),
     failure_events HTTP_request (take k servers) i ++ [Request (query_url server)]).
Proof.
  revert servers i. induction k as [|k IH]; intros servers i Hk Hbefore Hr Hst Hpay.
  - destruct servers as [|s rest]; [done|]. injection Hk as ->.
    rewrite Nat.add_0_r in Hr. cbn [fetch_loop take failure_events app].
    by rewrite Hr, Hst, Hpay.
  - destruct servers as [|s rest]; [done|]. cbn [lookup list_lookup] in Hk.
    rewrite fetch_loop_failed_attempt.
    2:{ specialize (Hbefore O s). rewrite Nat.add_0_r in Hbefore.
        apply Hbefore; [lia | done]. }
    rewrite (IH rest (S i)); [| done | | by rewrite Nat.add_succ_comm | done | done].
    + unfold after. cbn [fst snd take failure_events]. f_equal.
      rewrite app_nil_r. cbn [app]. by rewrite <- app_assoc.
    + intros j s' Hj Hs'. rewrite Nat.add_succ_comm.
      apply Hbefore; [lia | done].
Qed.

(** When every attempt fails the loop returns [None] after all of
    them. *)
Lemma fetch_loop_exhausted (servers : list str) (i : nat) :
  (forall j s, servers !! j = Some s -> fails HTTP_request (i + j) s) ->
  fetch_loop HTTP_request servers i =
    (Ok JNull, failure_events HTTP_request servers i).
Proof.
  revert i. induction servers as [|s rest IH]; intros i Hall; [done|].
  rewrite fetch_loop_failed_attempt.
  2:{ specialize (Hall O s). rewrite Nat.add_0_r in Hall. by apply Hall. }
  rewrite IH.
  - unfold after. cbn [fst snd failure_events]. by rewrite app_nil_r.
  - intros j s' Hs'. rewrite Nat.add_succ_comm. by apply (Hall (S j)).
Qed.

(** The fetcher touches no file. *)
Lemma fetch_loop_net_events (servers : list str) (i : nat) :
  forallb is_net_event (fetch_loop HTTP_request servers i).2 = true.
Proof.
  revert i. induction servers as [|s rest IH]; intros i; [done|].
  cbn [fetch_loop]. specialize (IH (S i)).
  destruct (HTTP_request i (query_url s)) as [r|]; [|done].
  destruct (status r =? 200).
  { destruct (payload r) as [[|]|]; done. }
  repeat (destruct (status r =? _)); done.
Qed.



End FetchFacts.




(* ===================================================================== *)
(** ** A failed fetch *)
(* ===================================================================== *)

Section MainFacts.

Variable html5 : str -> option str.
Variable invalid_charrefs : N -> option str.
Variable invalid_codepoints : N -> bool.
Variable str_of_float : spec_float -> str.
Variable TIMESTAMP : str.
Variable SCRIPTDIR : str.
Variable encode : str -> str -> option (list Byte.byte).
Variable open_error : option exn.
Variable HTTP_request : nat -> str -> outcome response.

Lemma main_without_data (fs : files) (evs : list event) :
  get_data_osm HTTP_request = (Ok JNull, evs) ->
  main html5 invalid_charrefs invalid_codepoints str_of_float TIMESTAMP
       SCRIPTDIR encode open_error HTTP_request fs = (Ok tt, fs, evs)
  /\ forallb is_net_event evs = true.
Proof.
  intros Hget. unfold main. rewrite Hget. split; [done|].
  pose proof (fetch_loop_net_events HTTP_request SERVERS 0) as Hnet.
  unfold get_data_osm in Hget. by rewrite Hget in Hnet.
Qed.

End MainFacts.

(** C4. When the fetch returns [None], as it does when every server
    answers with a status other than 200, [main] calls neither
    [write_data] nor [check_data]: the files are as they were and the only
    events of the run are the requests and the pauses of the fetch, no
    file is opened and none renamed. *)
Theorem main_fetch_failure
    (html5 : str -> option str) (invalid_charrefs : N -> option str)
    (invalid_codepoints : N -> bool) (str_of_float : spec_float -> str)
    (TIMESTAMP SCRIPTDIR : str) (encode : str -> str -> option (list Byte.byte))
    (open_error : option exn)
    (HTTP_request : nat -> str -> outcome response) (fs : files) :
  (forall evs,
     get_data_osm HTTP_request = (Ok JNull, evs) ->
     main html5 invalid_charrefs invalid_codepoints str_of_float TIMESTAMP
          SCRIPTDIR encode open_error HTTP_request fs = (Ok tt, fs, evs)
     /\ forallb is_net_event evs = true)
  /\ ((forall j s, SERVERS !! j = Some s -> fails HTTP_request j s) ->
      get_data_osm HTTP_request =
        (Ok JNull, failure_events HTTP_request SERVERS 0)
      /\ main html5 invalid_charrefs invalid_codepoints str_of_float TIMESTAMP
           SCRIPTDIR encode open_error HTTP_request fs =
           (Ok tt, fs, failure_events HTTP_request SERVERS 0)
      /\ forallb is_net_event (failure_events HTTP_request SERVERS 0) = true).
Proof.
  split.
  - intros evs. apply main_without_data.
  - intros Hall.
    pose proof (fetch_loop_exhausted HTTP_request SERVERS 0 Hall) as Hget.
    split; [done|]. by apply main_without_data.
Qed.

(** Every server answers 504: nothing happens to the three files. *)
Lemma main_fetch_failure_witness :
  main Html.html5_excerpt Html.invalid_charrefs_excerpt
       Html.invalid_codepoints_excerpt example_str_of_float example_timestamp
       example_dir utf8_file None all_timeout three_files =
    (Ok tt, three_files, failure_events all_timeout SERVERS 0).
Proof.
  apply (proj2 (main_fetch_failure Html.html5_excerpt Html.invalid_charrefs_excerpt
                  Html.invalid_codepoints_excerpt example_str_of_float
                  example_timestamp example_dir utf8_file None all_timeout three_files)).
  intros j s Hs. eexists. split; [reflexivity|]. simpl. lia.
Defined.

(* ===================================================================== *)
(** ** Rotation of the files *)
(* ===================================================================== *)

Section RotationFacts.

Variable SCRIPTDIR : str.

Local Abbreviation TEMP := (VEGGIEMAP_TEMPFILE SCRIPTDIR).
Local Abbreviation FILE := (VEGGIEMAP_FILE SCRIPTDIR).
Local Abbreviation OLD := (VEGGIEMAP_OLDFILE SCRIPTDIR).

Lemma temp_ne_file : TEMP <> FILE.
Proof. intros H. apply app_inv_head in H. by vm_compute in H. Qed.

Lemma temp_ne_old : TEMP <> OLD.
Proof. intros H. apply app_inv_head in H. by vm_compute in H. Qed.

Lemma file_ne_old : FILE <> OLD.
Proof. intros H. apply app_inv_head in H. by vm_compute in H. Qed.

(** No temp file, or one of at most 250 bytes: nothing is renamed. *)
Lemma check_data_refuses (fs : files) :
  (fs !! TEMP = None
   \/ exists temp, fs !! TEMP = Some temp /\ Z.of_nat (length temp) <= 250) ->
  check_data SCRIPTDIR fs = (Ok tt, fs, []).
Proof.
  unfold check_data. intros [-> | (temp & -> & Hsize)]; [done|].
  rewrite Z.gtb_ltb. apply Z.ltb_ge in Hsize. by rewrite Hsize.
Qed.

(** A temp file of more than 250 bytes and an active file: the active
    file moves to the previous path, the temp file to the active one. *)
Lemma check_data_rotates (fs : files) (temp active : list Byte.byte) :
  fs !! TEMP = Some temp ->
  250 < Z.of_nat (length temp) ->
  fs !! FILE = Some active ->
  check_data SCRIPTDIR fs =
    (Ok tt,
     <[FILE := temp]> (delete TEMP (<[OLD := active]> (delete FILE fs))),
     [Rename FILE OLD; Rename TEMP FILE]).
Proof.
  intros Htemp Hsize Hfile. unfold check_data. rewrite Htemp.
  rewrite Z.gtb_ltb. apply Z.ltb_lt in Hsize. rewrite Hsize.
  unfold os_rename. rewrite Hfile.
  rewrite lookup_insert_ne by (apply not_eq_sym, temp_ne_old).
  rewrite lookup_delete_ne by (apply not_eq_sym, temp_ne_file).
  by rewrite Htemp.
Qed.

End RotationFacts.

(** C5. [check_data] promotes the temp file by its size. With no temp
    file, or one of at most 250 bytes, nothing is renamed and every file,
    the active one and the temp file among them, is as before. With a temp
    file of more than 250 bytes, the active file is renamed to the
    previous path, replacing what was there, and the temp file is renamed
    to the active path; no other file changes. *)
Theorem check_data_spec (SCRIPTDIR : str) (fs : files) :
  let TEMP := VEGGIEMAP_TEMPFILE SCRIPTDIR in
  let FILE := VEGGIEMAP_FILE SCRIPTDIR in
  let OLD := VEGGIEMAP_OLDFILE SCRIPTDIR in
  ((fs !! TEMP = None
    \/ exists temp, fs !! TEMP = Some temp /\ Z.of_nat (length temp) <= 250) ->
   check_data SCRIPTDIR fs = (Ok tt, fs, []))
  /\ (forall temp active,
        fs !! TEMP = Some temp ->
        250 < Z.of_nat (length temp) ->
        fs !! FILE = Some active ->
        exists fs',
          check_data SCRIPTDIR fs =
            (Ok tt, fs', [Rename FILE OLD; Rename TEMP FILE])
          /\ fs' !! FILE = Some temp
          /\ fs' !! OLD = Some active
          /\ fs' !! TEMP = None
          /\ forall p, p <> TEMP -> p <> FILE -> p <> OLD -> fs' !! p = fs !! p).
Proof.
  intros TEMP FILE OLD. split; [apply check_data_refuses|].
  intros temp active Htemp Hsize Hfile.
  pose proof (temp_ne_file SCRIPTDIR) as Htf.
  pose proof (temp_ne_old SCRIPTDIR) as Hto.
  pose proof (file_ne_old SCRIPTDIR) as Hfo.
  eexists. split; [exact (check_data_rotates SCRIPTDIR fs temp active Htemp Hsize Hfile)|].
  fold TEMP FILE OLD in Htf, Hto, Hfo |- *.
  split; [|split; [|split]].
  - apply lookup_insert_eq.
  - rewrite lookup_insert_ne by exact Hfo.
    rewrite lookup_delete_ne by exact Hto.
    apply lookup_insert_eq.
  - rewrite lookup_insert_ne by exact (not_eq_sym Htf).
    apply lookup_delete_eq.
  - intros p Hpt Hpf Hpo.
    rewrite lookup_insert_ne by exact (not_eq_sym Hpf).
    rewrite lookup_delete_ne by exact (not_eq_sym Hpt).
    rewrite lookup_insert_ne by exact (not_eq_sym Hpo).
    apply lookup_delete_ne. exact (not_eq_sym Hpf).
Qed.

(** A temp file of 250 bytes is not promoted; one of 251 bytes takes the
    place of the active file, which takes the place of the previous
    one. *)
Lemma check_data_spec_witness :
  check_data example_dir small_temp = (Ok tt, small_temp, [])
  /\ exists fs',
       check_data example_dir three_files =
         (Ok tt, fs',
          [Rename (VEGGIEMAP_FILE example_dir) (VEGGIEMAP_OLDFILE example_dir);
           Rename (VEGGIEMAP_TEMPFILE example_dir) (VEGGIEMAP_FILE example_dir)])
       /\ fs' !! VEGGIEMAP_FILE example_dir = Some (repeat Byte.x20 251)
       /\ fs' !! VEGGIEMAP_OLDFILE example_dir = Some (utf8_encode (u "active"))
       /\ fs' !! VEGGIEMAP_TEMPFILE example_dir = None.
Proof.
  split.
  - apply (proj1 (check_data_spec example_dir small_temp)).
    right. exists (repeat Byte.x20 250).
    split; [reflexivity | vm_compute; discriminate].
  - destruct (proj2 (check_data_spec example_dir three_files)
                (repeat Byte.x20 251) (utf8_encode (u "active")))
      as (fs' & Hrun & Hfile & Hold & Htemp & _).
    + vm_compute. reflexivity.
    + vm_compute. reflexivity.
    + vm_compute. reflexivity.
    + exists fs'. by repeat split.
Defined.

(** X19. Without an active file [check_data] cannot promote a temp file,
    however large: the first [os.rename] raises [FileNotFoundError], no
    file is renamed and every file is as before, the temp file in its
    place and the active path still empty. *)
Theorem check_data_first_run (SCRIPTDIR : str) (fs : files)
    (temp : list Byte.byte) :
  fs !! VEGGIEMAP_TEMPFILE SCRIPTDIR = Some temp ->
  250 < Z.of_nat (length temp) ->
  fs !! VEGGIEMAP_FILE SCRIPTDIR = None ->
  check_data SCRIPTDIR fs = (Raise FileNotFoundError, fs, []).
Proof.
  intros Htemp Hsize Hfile. unfold check_data. rewrite Htemp.
  rewrite Z.gtb_ltb. apply Z.ltb_lt in Hsize. rewrite Hsize.
  unfold os_rename. by rewrite Hfile.
Qed.

Lemma check_data_first_run_witness :
  check_data example_dir only_temp = (Raise FileNotFoundError, only_temp, []).
Proof.
  apply (check_data_first_run example_dir only_temp (repeat Byte.x20 251)).
  - vm_compute. reflexivity.
  - vm_compute. reflexivity.
  - vm_compute. reflexivity.
Defined.

(* ===================================================================== *)
(** ** Escaping and the title of a marker *)
(* ===================================================================== *)

(** Replacing one character is a character-wise substitution. *)
Lemma replace_char (c : N) (new s : str) :
  replace [c] new s = flat_map (fun x => if (x =? c)%N then new else [x]) s.
Proof.
  unfold replace. induction s as [|x s IH]; [done|].
  cbn [replace_from startswith flat_map length Nat.sub].
  rewrite andb_true_r, (N.eqb_sym c x).
  destruct (x =? c)%N; by rewrite IH.
Qed.

Lemma flat_map_flat_map {A B C} (f : A -> list B) (g : B -> list C) (l : list A) :
  flat_map g (flat_map f l) = flat_map (fun x => flat_map g (f x)) l.
Proof.
  induction l as [|x l IH]; [done|]. cbn [flat_map].
  by rewrite flat_map_app, IH.
Qed.

(** [html.escape] works character by character. *)
Lemma escape_flat_map (s : str) : Html.escape s = flat_map escape_char s.
Proof.
  unfold Html.escape.
  change (u "&") with [38%N]. change (u "<") with [60%N].
  change (u ">") with [62%N]. change (u "'") with [39%N].
  change DQUOTE with 34%N.
  rewrite !replace_char, !flat_map_flat_map.
  apply flat_map_ext. intros c. unfold escape_char.
  destruct (N.eqb_spec c 38) as [->|H38]; [by vm_compute|].
  destruct (N.eqb_spec c 60) as [->|H60]; [by vm_compute|].
  destruct (N.eqb_spec c 62) as [->|H62]; [by vm_compute|].
  destruct (N.eqb_spec c 34) as [->|H34]; [by vm_compute|].
  destruct (N.eqb_spec c 39) as [->|H39]; [by vm_compute|].
  apply N.eqb_neq in H38, H60, H62, H34, H39.
  repeat (progress (cbn [flat_map app]; rewrite ?H38, ?H60, ?H62, ?H34, ?H39)).
  reflexivity.
Qed.

Section UnescapeFacts.

Variable html5 : str -> option str.
Variable invalid_charrefs : N -> option str.
Variable invalid_codepoints : N -> bool.
Hypothesis tables : library_tables html5 invalid_charrefs invalid_codepoints.

Local Abbreviation charref_sub :=
  (Html.charref_sub html5 invalid_charrefs invalid_codepoints).
Local Abbreviation unescape :=
  (Html.unescape html5 invalid_charrefs invalid_codepoints).

(** Text without an ampersand goes through the substitution as it
    is. *)
Lemma charref_sub_plain (p s : str) :
  contains 38 p = false -> charref_sub O (p ++ s) = p ++ charref_sub O s.
Proof.
  induction p as [|c p IH]; [done|]. cbn [contains existsb].
  intros [Hc Hp]%orb_false_iff. cbn [app Html.charref_sub].
  rewrite (N.eqb_sym c 38), Hc. by rewrite <- IH.
Qed.

(** The fast path of [unescape] gives what the substitution would. *)
Lemma unescape_charref_sub (s : str) : unescape s = charref_sub O s.
Proof.
  unfold Html.unescape. destruct (contains 38 s) eqn:H; [done|]. cbn [negb].
  pose proof (charref_sub_plain s [] H) as Hs.
  cbn [Html.charref_sub] in Hs. rewrite !app_nil_r in Hs. by rewrite Hs.
Qed.

(** The substitution reads back what [html.escape] wrote for a
    character. *)
Lemma charref_sub_escape_char (c : N) (rest : str) :
  charref_sub O (escape_char c ++ rest) = c :: charref_sub O rest.
Proof.
  destruct tables as (Hamp & Hlt & Hgt & Hquot & Hic & Hicp).
  unfold escape_char.
  destruct (N.eqb_spec c 38) as [->|H38].
  { change (u "&amp;" ++ rest) with (38%N :: u "amp;" ++ rest).
    cbn [Html.charref_sub N.eqb Pos.eqb].
    replace (Html.match_charref (u "amp;" ++ rest)) with (Some (u "amp;"))
      by (vm_compute; reflexivity).
    change (Html.replace_charref html5 invalid_charrefs invalid_codepoints (u "amp;"))
      with (match html5 (u "amp;") with
            | Some r => r
            | None =>
                match Html.longest_name html5 (u "amp;") 3 with
                | Some r => r
                | None => 38%N :: u "amp;"
                end
            end).
    rewrite Hamp. reflexivity. }
  destruct (N.eqb_spec c 60) as [->|H60].
  { change (u "&lt;" ++ rest) with (38%N :: u "lt;" ++ rest).
    cbn [Html.charref_sub N.eqb Pos.eqb].
    replace (Html.match_charref (u "lt;" ++ rest)) with (Some (u "lt;"))
      by (vm_compute; reflexivity).
    change (Html.replace_charref html5 invalid_charrefs invalid_codepoints (u "lt;"))
      with (match html5 (u "lt;") with
            | Some r => r
            | None =>
                match Html.longest_name html5 (u "lt;") 2 with
                | Some r => r
                | None => 38%N :: u "lt;"
                end
            end).
    rewrite Hlt. reflexivity. }
  destruct (N.eqb_spec c 62) as [->|H62].
  { change (u "&gt;" ++ rest) with (38%N :: u "gt;" ++ rest).
    cbn [Html.charref_sub N.eqb Pos.eqb].
    replace (Html.match_charref (u "gt;" ++ rest)) with (Some (u "gt;"))
      by (vm_compute; reflexivity).
    change (Html.replace_charref html5 invalid_charrefs invalid_codepoints (u "gt;"))
      with (match html5 (u "gt;") with
            | Some r => r
            | None =>
                match Html.longest_name html5 (u "gt;") 2 with
                | Some r => r
                | None => 38%N :: u "gt;"
                end
            end).
    rewrite Hgt. reflexivity. }
  destruct (N.eqb_spec c 34) as [->|H34].
  { change (u "&quot;" ++ rest) with (38%N :: u "quot;" ++ rest).
    cbn [Html.charref_sub N.eqb Pos.eqb].
    replace (Html.match_charref (u "quot;" ++ rest)) with (Some (u "quot;"))
      by (vm_compute; reflexivity).
    change (Html.replace_charref html5 invalid_charrefs invalid_codepoints (u "quot;"))
      with (match html5 (u "quot;") with
            | Some r => r
            | None =>
                match Html.longest_name html5 (u "quot;") 4 with
                | Some r => r
                | None => 38%N :: u "quot;"
                end
            end).
    rewrite Hquot. reflexivity. }
  destruct (N.eqb_spec c 39) as [->|H39].
  { change (u "&#x27;" ++ rest) with (38%N :: u "#x27;" ++ rest).
    cbn [Html.charref_sub N.eqb Pos.eqb].
    replace (Html.match_charref (u "#x27;" ++ rest)) with (Some (u "#x27;"))
      by (vm_compute; reflexivity).
    change (Html.replace_charref html5 invalid_charrefs invalid_codepoints (u "#x27;"))
      with (match invalid_charrefs 39%N with
            | Some r => r
            | None => if invalid_codepoints 39%N then [] else [39%N]
            end).
    rewrite Hic, Hicp. reflexivity. }
  apply N.eqb_neq in H38. cbn [app Html.charref_sub]. by rewrite H38.
Qed.

(** Unescaping an escaped text gives the text back. *)
Lemma unescape_escape (s : str) : unescape (Html.escape s) = s.
Proof.
  rewrite unescape_charref_sub, escape_flat_map.
  induction s as [|c s IH]; [done|]. cbn [flat_map].
  by rewrite charref_sub_escape_char, IH.
Qed.

(** The same behind a prefix without ampersand. *)
Lemma unescape_prefix_escape (p s : str) :
  contains 38 p = false -> unescape (p ++ Html.escape s) = p ++ s.
Proof.
  intros Hp. rewrite unescape_charref_sub, charref_sub_plain by done.
  by rewrite <- unescape_charref_sub, unescape_escape.
Qed.

End UnescapeFacts.

Lemma icon_rules_plain :
  forallb (fun r : rule => plain_emoji r.2) icon_rules = true.
Proof. vm_compute. reflexivity. Qed.

Lemma first_match_icon_plain (tags : gmap str str) :
  plain_emoji (first_match_icon tags) = true.
Proof.
  unfold first_match_icon.
  destruct (find _ _) as [r|] eqn:Hfind; [|by vm_compute].
  apply find_some in Hfind as [Hin _].
  pose proof icon_rules_plain as Hall. rewrite forallb_forall in Hall.
  by apply Hall.
Qed.

Lemma flat_map_unchanged (c : N) (new s : str) :
  contains c s = false ->
  flat_map (fun x => if (x =? c)%N then new else [x]) s = s.
Proof.
  induction s as [|x s IH]; [done|]. cbn [contains existsb flat_map].
  intros [Hx Hs]%orb_false_iff. rewrite (N.eqb_sym x c), Hx.
  cbn [app]. by rewrite IH.
Qed.

Lemma flat_map_requote (s : str) :
  flat_map (fun x => if (x =? DQUOTE)%N then u "”" else [x]) s = requote s.
Proof.
  induction s as [|x s IH]; [done|]. cbn [flat_map requote map].
  rewrite IH. by destruct (x =? DQUOTE)%N.
Qed.

(** C8. Escaping a name and decoding it again for the title gives the
    name back: the title of a named element is the emoji of its icon, a
    space and the name as it was tagged, with every double quote turned
    into the right double quotation mark; the name shown in the popup
    keeps the escaped text. *)
Theorem title_round_trip
    (html5 : str -> option str) (invalid_charrefs : N -> option str)
    (invalid_codepoints : N -> bool)
    (tables : library_tables html5 invalid_charrefs invalid_codepoints)
    (e : element) (raw : gmap str str) (n : str) :
  e_tags e = Some raw ->
  raw !! u "name" = Some n ->
  Html.unescape html5 invalid_charrefs invalid_codepoints (Html.escape n) = n
  /\ exists icon,
       determine_icon (escaped_tags e) = Ok icon
       /\ name_and_title html5 invalid_charrefs invalid_codepoints icon
            (escaped_tags e) (e_type e) (e_id e) =
            (icon.2 ++ u " " ++ Html.escape n,
             icon.2 ++ u " " ++ requote n).
Proof.
  intros Htags Hname. split; [by apply unescape_escape|].
  exists (first_match_icon (escaped_tags e)).
  split; [apply determine_icon_first_match|].
  pose proof (first_match_icon_plain (escaped_tags e)) as Hplain.
  set (icon := first_match_icon (escaped_tags e)) in *.
  apply andb_true_iff in Hplain as [Hamp Hquote].
  apply negb_true_iff in Hamp, Hquote.
  assert (Hesc : escaped_tags e !! u "name" = Some (Html.escape n)).
  { unfold escaped_tags. rewrite Htags.
    change (default ∅ (Some raw)) with raw. by rewrite lookup_fmap, Hname. }
  unfold name_and_title. rewrite Hesc. f_equal.
  rewrite (app_assoc icon.2 (u " ") (Html.escape n)).
  rewrite unescape_prefix_escape; [|done|].
  2:{ unfold contains. rewrite existsb_app. fold (contains 38 icon.2).
      by rewrite Hamp. }
  rewrite replace_char, !flat_map_app.
  rewrite flat_map_unchanged by done.
  by rewrite !flat_map_requote, <- app_assoc.
Qed.

(** The name [Tom & "Jerry"] of a cafe. *)
Lemma title_round_trip_witness :
  Html.unescape Html.html5_excerpt Html.invalid_charrefs_excerpt
    Html.invalid_codepoints_excerpt
    (Html.escape (u "Tom & " ++ [DQUOTE] ++ u "Jerry" ++ [DQUOTE])) =
    u "Tom & " ++ [DQUOTE] ++ u "Jerry" ++ [DQUOTE].
Proof.
  apply (title_round_trip Html.html5_excerpt Html.invalid_charrefs_excerpt
           Html.invalid_codepoints_excerpt)
    with (e := {| e_id := 1; e_type := u "node";
                  e_tags := Some (<[u "amenity" := u "cafe"]>
                    {[ u "name" := u "Tom & " ++ [DQUOTE] ++ u "Jerry" ++ [DQUOTE] ]});
                  e_lat := Some (PyInt 52); e_lon := Some (PyInt 13);
                  e_center := None |})
         (raw := <[u "amenity" := u "cafe"]>
                    {[ u "name" := u "Tom & " ++ [DQUOTE] ++ u "Jerry" ++ [DQUOTE] ]}).
  - repeat split; vm_compute; reflexivity.
  - reflexivity.
  - vm_compute. reflexivity.
Defined.

(* ===================================================================== *)
(** ** The website line of the popup *)
(* ===================================================================== *)

Lemma startswith_app (old rest : str) : startswith old (old ++ rest) = true.
Proof.
  induction old as [|c old IH]; [done|]. cbn [app startswith].
  by rewrite N.eqb_refl, IH.
Qed.

Lemma startswith_inv (old s : str) :
  startswith old s = true -> s = old ++ drop (length old) s.
Proof.
  revert s. induction old as [|c old IH]; intros s H; [done|].
  destruct s as [|x s]; [done|]. cbn [startswith] in H.
  apply andb_true_iff in H as [Hc Hs]. apply N.eqb_eq in Hc as ->.
  cbn [length drop app]. by rewrite <- IH.
Qed.

Lemma replace_from_skip (old new p rest : str) :
  replace_from old new (length p) (p ++ rest) = replace_from old new O rest.
Proof. induction p as [|c p IH]; [by destruct rest | done]. Qed.

(** Where the pattern does not occur nothing is replaced. *)
Lemma replace_absent (old new s : str) :
  old <> [] -> ~ occurs old s -> replace old new s = s.
Proof.
  intros Hold. unfold replace. destruct old as [|d old]; [done|]. clear Hold.
  induction s as [|c s IH]; intros Hno; [done|].
  cbn [replace_from]. destruct (startswith (d :: old) (c :: s)) eqn:Hstart.
  - exfalso. apply Hno. exists [], (drop (length (d :: old)) (c :: s)).
    by apply startswith_inv.
  - rewrite IH; [done|]. intros (pre & post & ->). apply Hno.
    by exists (c :: pre), post.
Qed.

(** A leading occurrence is replaced and the scan goes on behind it. *)
Lemma replace_leading (old new rest : str) :
  old <> [] -> replace old new (old ++ rest) = new ++ replace old new rest.
Proof.
  intros Hold. unfold replace. destruct old as [|d old]; [done|].
  change ((d :: old) ++ rest) with (d :: (old ++ rest)).
  cbn [replace_from].
  change (d :: (old ++ rest)) with ((d :: old) ++ rest).
  rewrite startswith_app. cbn [length Nat.sub]. rewrite Nat.sub_0_r.
  by rewrite replace_from_skip.
Qed.

(** C9, as amended. The website of the popup is the value of
    [contact:website] when that attribute is there, even if [website] is
    there too, and the value of [website] otherwise. The link points to
    that value as it is; the text of the link is the value with every
    [https://] in it removed, which for a value that holds it at the
    start only is the value without that prefix, and for a value that does
    not hold it is the value itself. *)
Theorem website_line_spec (tags : gmap str str) :
  let site := place_website tags in
  (forall v, tags !! u "contact:website" = Some v -> site = v)
  /\ (forall v, tags !! u "contact:website" = None ->
                tags !! u "website" = Some v -> site = v)
  /\ (site <> [] ->
      popup_website tags =
        popup_row (u "🌐") (link site (replace (u "https://") [] site)))
  /\ (forall rest, site = u "https://" ++ rest ->
                   ~ occurs (u "https://") rest ->
                   website_text site = rest)
  /\ (~ occurs (u "https://") site -> website_text site = site).
Proof.
  intros site. subst site. unfold place_website, contact_value.
  split; [|split; [|split; [|split]]].
  - by intros v ->.
  - by intros v -> ->.
  - intros Hsite. unfold popup_website, place_website, contact_value.
    by rewrite bool_decide_true.
  - intros rest -> Hno. unfold website_text.
    rewrite replace_leading by (by vm_compute).
    by rewrite replace_absent; [| by vm_compute |].
  - intros Hno. unfold website_text. by apply replace_absent; [vm_compute|].
Qed.

(** Both attributes are there: the link goes to [contact:website]. *)
Lemma website_line_spec_witness :
  place_website two_websites = u "https://example.com/contact".
Proof.
  apply (proj1 (website_line_spec two_websites)). vm_compute. reflexivity.
Defined.

(** C9, as stated, fails: an [https://] further in the value is removed
    from the text of the link as well. *)
Lemma website_text_inner_scheme : ~ website_text_strips_prefix_only.
Proof.
  intros H. specialize (H redirect_tags). vm_compute in H.
  assert (Hne : forall A (x : A) (l : list A), x :: l <> []) by done.
  specialize (H (Hne _ _ _)). discriminate H.
Qed.

Example website_text_inner_scheme_run :
  website_text (u "http://example.org/?to=https://example.com")
    = u "http://example.org/?to=example.com".
Proof. vm_compute. reflexivity. Qed.

(* ===================================================================== *)
(** ** The record transformer *)
(* ===================================================================== *)

Lemma missing_or_zero_falsy (o : option pyval) :
  missing_or_zero o <-> truthy (get_or_None o) = false.
Proof.
  unfold missing_or_zero. split.
  - intros [-> | [-> | [-> | [[s ->] | [-> | ->]]]]]; reflexivity.
  - destruct o as [[| b | z | f | s]|]; cbn [get_or_None default truthy id];
      intros H; auto.
    + destruct b; [done|]. auto 10.
    + apply negb_false_iff, Z.eqb_eq in H as ->. auto.
    + destruct f as [sg| | |]; try done. right. right. right. left. by exists sg.
    + apply negb_false_iff, bool_decide_eq_true in H as ->. auto 10.
Qed.

Section TransformFacts.

Variable html5 : str -> option str.
Variable invalid_charrefs : N -> option str.
Variable invalid_codepoints : N -> bool.
Variable str_of_float : spec_float -> str.

Local Abbreviation step :=
  (process_element html5 invalid_charrefs invalid_codepoints str_of_float).
Local Abbreviation loop :=
  (write_loop html5 invalid_charrefs invalid_codepoints str_of_float).
Local Abbreviation titled :=
  (name_and_title html5 invalid_charrefs invalid_codepoints).
Local Abbreviation finish :=
  (finish_element html5 invalid_charrefs invalid_codepoints str_of_float).

Lemma process_node (e : element) (st : wstate) :
  e_type e = u "node" ->
  step e st =
    finish e
      {| lat := Some (get_or_None (e_lat e));
         lon := Some (get_or_None (e_lon e));
         written := written st; numbers := numbers st |}.
Proof.
  intros Htype. unfold process_element. rewrite Htype. eval_str_eqb.
  reflexivity.
Qed.

Lemma process_way (e : element) (st : wstate) :
  e_type e = u "way" ->
  step e st =
    match e_center e with
    | Some c =>
        finish e
          {| lat := Some (get_or_None (c_lat c));
             lon := Some (get_or_None (c_lon c));
             written := written st; numbers := numbers st |}
    | None => Raise AttributeError
    end.
Proof.
  intros Htype. unfold process_element. rewrite Htype. eval_str_eqb.
  by destruct (e_center e).
Qed.

Lemma process_other (e : element) (st : wstate) :
  is_node_or_way e = false ->
  step e st = finish e st.
Proof.
  unfold is_node_or_way. intros [Hn Hw]%orb_false_iff.
  unfold process_element. by rewrite Hn, Hw.
Qed.

(** A false coordinate: the element leaves the state as it is. *)
Lemma finish_element_skips (e : element) (st : wstate) (la lo : pyval) :
  lat st = Some la -> lon st = Some lo ->
  truthy la = false \/ truthy lo = false ->
  finish e st = Ok st.
Proof.
  intros Hla Hlo Hfalse. unfold finish_element. rewrite Hla, Hlo.
  cbn [read_local bind].
  destruct (truthy la); [|done]. destruct Hfalse as [H | H]; [done|].
  by rewrite H.
Qed.

(** Two true coordinates: one marker line is written with them and one
    counter goes up. *)
Lemma finish_element_marks (e : element) (st : wstate) (la lo : pyval) :
  lat st = Some la -> lon st = Some lo ->
  truthy la = true -> truthy lo = true ->
  exists icon name title,
    determine_icon (escaped_tags e) = Ok icon
    /\ titled icon (escaped_tags e) (e_type e) (e_id e) = (name, title)
    /\ finish e st =
         Ok {| lat := Some la; lon := Some lo;
               written := written st
                 ++ marker_line str_of_float la lo title icon
                      (category_name (classify (escaped_tags e)))
                      (build_popup name (e_type e) (e_id e) (escaped_tags e));
               numbers := count_marker (classify (escaped_tags e)) (numbers st) |}.
Proof.
  intros Hla Hlo Hta Hto. unfold finish_element. rewrite Hla, Hlo.
  cbn [read_local bind]. rewrite Hta, Hto. cbn [negb].
  rewrite determine_icon_first_match. cbn [bind].
  destruct (titled _ _ _ _) as [name title] eqn:Hnt.
  by exists (first_match_icon (escaped_tags e)), name, title.
Qed.

(** The locals [lat] and [lon] after an element that did not raise. *)
Lemma finish_element_locals (e : element) (st st' : wstate) :
  finish e st = Ok st' -> lat st' = lat st /\ lon st' = lon st.
Proof.
  unfold finish_element. destruct (lat st) as [la|] eqn:Hla; [|done].
  cbn [read_local bind]. destruct (truthy la); cbn [negb]; [|by intros [= <-]].
  destruct (lon st) as [lo|] eqn:Hlo; [|done].
  cbn [read_local bind]. destruct (truthy lo); cbn [negb]; [|by intros [= <-]].
  rewrite determine_icon_first_match. cbn [bind].
  destruct (titled _ _ _ _). by intros [= <-].
Qed.

Lemma process_element_locals (e : element) (st st' : wstate) :
  step e st = Ok st' ->
  if is_node_or_way e
  then exists la lo, resolved_coordinates e = Some (la, lo)
                     /\ lat st' = Some la /\ lon st' = Some lo
  else lat st' = lat st /\ lon st' = lon st.
Proof.
  intros Hrun. unfold is_node_or_way, resolved_coordinates.
  destruct (str_eqb (e_type e) (u "node")) eqn:Hn.
  { apply str_eqb_eq in Hn. rewrite process_node in Hrun by done.
    apply finish_element_locals in Hrun as [-> ->]. cbn [orb lat lon]. eauto. }
  destruct (str_eqb (e_type e) (u "way")) eqn:Hw.
  { apply str_eqb_eq in Hw. rewrite process_way in Hrun by done.
    destruct (e_center e) as [c|]; [|done].
    apply finish_element_locals in Hrun as [-> ->]. cbn [orb lat lon]. eauto. }
  rewrite process_other in Hrun by (unfold is_node_or_way; by rewrite Hn, Hw).
  cbn [orb]. by apply (finish_element_locals e).
Qed.

Lemma write_loop_app (pre post : list element) (st st1 : wstate) :
  loop pre st = (Ok tt, st1) ->
  loop (pre ++ post) st = loop post st1.
Proof.
  revert st. induction pre as [|p pre IH]; intros st H.
  - by injection H as ->.
  - cbn [app write_loop] in *.
    destruct (step p st) as [st2|]; [by apply IH | done].
Qed.

(** After a stretch of the loop that did not raise, [lat] and [lon] hold
    what its most recent node or way resolved to; without one they are
    as they were. *)
Lemma write_loop_locals (pre : list element) (st st1 : wstate) :
  loop pre st = (Ok tt, st1) ->
  match last_node_or_way pre with
  | Some p => exists la lo, resolved_coordinates p = Some (la, lo)
                            /\ lat st1 = Some la /\ lon st1 = Some lo
  | None => lat st1 = lat st /\ lon st1 = lon st
  end.
Proof.
  revert st. induction pre as [|p pre IH]; intros st H.
  - by injection H as ->.
  - cbn [loop last_node_or_way] in *.
    destruct (step p st) as [st2|] eqn:Hp; [|done].
    specialize (IH st2 H). apply process_element_locals in Hp.
    destruct (last_node_or_way pre); [done|].
    destruct IH as [-> ->]. by destruct (is_node_or_way p).
Qed.

End TransformFacts.

(** C6. A node whose latitude or longitude is absent, zero or false in
    some other way is passed over: the element runs without raising, no
    line is written for it and no counter changes; the loop goes on with
    the next element. *)
Theorem node_without_coordinates_skipped
    (html5 : str -> option str) (invalid_charrefs : N -> option str)
    (invalid_codepoints : N -> bool) (str_of_float : spec_float -> str)
    (e : element) (st : wstate) :
  e_type e = u "node" ->
  missing_or_zero (e_lat e) \/ missing_or_zero (e_lon e) ->
  exists st',
    process_element html5 invalid_charrefs invalid_codepoints str_of_float e st
      = Ok st'
    /\ written st' = written st
    /\ numbers st' = numbers st
    /\ forall rest,
         write_loop html5 invalid_charrefs invalid_codepoints str_of_float
           (e :: rest) st =
         write_loop html5 invalid_charrefs invalid_codepoints str_of_float
           rest st'.
Proof.
  intros Htype Hmissing. rewrite !missing_or_zero_falsy in Hmissing.
  eexists. split; [|split; [|split]].
  - rewrite process_node by done.
    by apply (finish_element_skips _ _ _ _ _ _ (get_or_None (e_lat e))
                (get_or_None (e_lon e))).
  - reflexivity.
  - reflexivity.
  - intros rest. cbn [write_loop]. rewrite process_node by done.
    by rewrite (finish_element_skips _ _ _ _ _ _ (get_or_None (e_lat e))
                  (get_or_None (e_lon e))).
Qed.

(** A node without latitude after the header was written. *)
Lemma node_without_coordinates_skipped_witness :
  exists st',
    process_element Html.html5_excerpt Html.invalid_charrefs_excerpt
      Html.invalid_codepoints_excerpt example_str_of_float node_without_lat
      (initial_wstate example_timestamp) = Ok st'
    /\ written st' = file_header example_timestamp
    /\ numbers st' = no_markers.
Proof.
  destruct (node_without_coordinates_skipped Html.html5_excerpt
              Html.invalid_charrefs_excerpt Html.invalid_codepoints_excerpt
              example_str_of_float node_without_lat
              (initial_wstate example_timestamp))
    as (st' & Hrun & Hw & Hn & _).
  - reflexivity.
  - left. left. reflexivity.
  - exists st'. auto.
Defined.

(** C7. A way without [center] is not passed over: the method [get] is
    called on [None], the element raises [AttributeError] and the loop
    stops there. (The claim asks for a skip, as for a node without
    coordinates.) *)
Theorem way_without_center_raises
    (html5 : str -> option str) (invalid_charrefs : N -> option str)
    (invalid_codepoints : N -> bool) (str_of_float : spec_float -> str)
    (e : element) (st : wstate) :
  e_type e = u "way" ->
  e_center e = None ->
  process_element html5 invalid_charrefs invalid_codepoints str_of_float e st
    = Raise AttributeError
  /\ forall rest,
       write_loop html5 invalid_charrefs invalid_codepoints str_of_float
         (e :: rest) st = (Raise AttributeError, st).
Proof.
  intros Htype Hcenter.
  assert (Hrun : process_element html5 invalid_charrefs invalid_codepoints
                   str_of_float e st = Raise AttributeError).
  { rewrite process_way by done. by rewrite Hcenter. }
  split; [done|]. intros rest. cbn [write_loop]. by rewrite Hrun.
Qed.

(** A response whose only element is a way without [center]. *)
Lemma way_without_center_raises_witness :
  write_loop Html.html5_excerpt Html.invalid_charrefs_excerpt
    Html.invalid_codepoints_excerpt example_str_of_float
    [way_without_center] (initial_wstate example_timestamp)
  = (Raise AttributeError, initial_wstate example_timestamp).
Proof.
  apply (way_without_center_raises Html.html5_excerpt
           Html.invalid_charrefs_excerpt Html.invalid_codepoints_excerpt
           example_str_of_float way_without_center); reflexivity.
Defined.

(** C10, as amended. An element that is neither a node nor a way is not
    passed over for its type: it is handled with the [lat] and [lon] the
    most recent node or way before it left behind. When both are true its
    marker is written with them and its category is counted; when one is
    false it is passed over. When no node or way came before it, the loop
    raises [UnboundLocalError] at this element. *)
Theorem other_type_uses_previous_coordinates
    (html5 : str -> option str) (invalid_charrefs : N -> option str)
    (invalid_codepoints : N -> bool) (str_of_float : spec_float -> str)
    (TIMESTAMP : str) (pre : list element) (e : element)
    (post : list element) (st : wstate) :
  e_type e <> u "node" ->
  e_type e <> u "way" ->
  write_loop html5 invalid_charrefs invalid_codepoints str_of_float
    pre (initial_wstate TIMESTAMP) = (Ok tt, st) ->
  match last_node_or_way pre with
  | None =>
      process_element html5 invalid_charrefs invalid_codepoints str_of_float
        e st = Raise UnboundLocalError
      /\ write_loop html5 invalid_charrefs invalid_codepoints str_of_float
           (pre ++ e :: post) (initial_wstate TIMESTAMP)
         = (Raise UnboundLocalError, st)
  | Some p =>
      exists la lo st',
        resolved_coordinates p = Some (la, lo)
        /\ process_element html5 invalid_charrefs invalid_codepoints
             str_of_float e st = Ok st'
        /\ write_loop html5 invalid_charrefs invalid_codepoints str_of_float
             (pre ++ e :: post) (initial_wstate TIMESTAMP)
           = write_loop html5 invalid_charrefs invalid_codepoints str_of_float
               post st'
        /\ if truthy la && truthy lo
           then exists icon name title,
                  determine_icon (escaped_tags e) = Ok icon
                  /\ name_and_title html5 invalid_charrefs invalid_codepoints
                       icon (escaped_tags e) (e_type e) (e_id e) = (name, title)
                  /\ written st' =
                       written st
                         ++ marker_line str_of_float la lo title icon
                              (category_name (classify (escaped_tags e)))
                              (build_popup name (e_type e) (e_id e)
                                 (escaped_tags e))
                  /\ numbers st' =
                       count_marker (classify (escaped_tags e)) (numbers st)
           else st' = st
  end.
Proof.
  intros Hn Hw Hpre.
  assert (Hother : is_node_or_way e = false).
  { unfold is_node_or_way. apply orb_false_iff. by split; apply str_eqb_neq. }
  pose proof (write_loop_locals _ _ _ _ _ _ _ Hpre) as Hlocals.
  pose proof (write_loop_app _ _ _ _ pre (e :: post) _ _ Hpre) as Happ.
  cbn [write_loop] in Happ.
  destruct (last_node_or_way pre) as [p|].
  - destruct Hlocals as (la & lo & Hp & Hla & Hlo).
    destruct (truthy la && truthy lo) eqn:Htrue.
    + apply andb_true_iff in Htrue as [Hta Hto].
      destruct (finish_element_marks html5 invalid_charrefs invalid_codepoints
                  str_of_float e st la lo Hla Hlo Hta Hto)
        as (icon & name & title & Hicon & Hnt & Hrun).
      rewrite <- process_other in Hrun by done.
      eexists la, lo, _. split; [done|]. split; [exact Hrun|].
      split; [by rewrite Happ, Hrun|].
      rewrite Hta, Hto. cbn [andb]. by exists icon, name, title.
    + assert (Hrun : process_element html5 invalid_charrefs invalid_codepoints
                       str_of_float e st = Ok st).
      { rewrite process_other by done.
        apply (finish_element_skips _ _ _ _ _ _ la lo); [done..|].
        apply andb_false_iff in Htrue. tauto. }
      exists la, lo, st. split; [done|]. split; [done|].
      split; [by rewrite Happ, Hrun|]. by rewrite Htrue.
  - destruct Hlocals as [Hla _]. cbn [initial_wstate lat] in Hla.
    assert (Hrun : process_element html5 invalid_charrefs invalid_codepoints
                     str_of_float e st = Raise UnboundLocalError).
    { rewrite process_other by done. unfold finish_element. by rewrite Hla. }
    split; [done|]. by rewrite Happ, Hrun.
Qed.

(** A relation after a cafe gets a marker at the place of the cafe. *)
Lemma other_type_uses_previous_coordinates_witness :
  exists st st',
    write_loop Html.html5_excerpt Html.invalid_charrefs_excerpt
      Html.invalid_codepoints_excerpt example_str_of_float [cafe]
      (initial_wstate example_timestamp) = (Ok tt, st)
    /\ resolved_coordinates cafe = Some (PyInt 52, PyInt 13)
    /\ process_element Html.html5_excerpt Html.invalid_charrefs_excerpt
         Html.invalid_codepoints_excerpt example_str_of_float relation st
       = Ok st'.
Proof.
  eexists. 
  pose proof (other_type_uses_previous_coordinates Html.html5_excerpt
                Html.invalid_charrefs_excerpt Html.invalid_codepoints_excerpt
                example_str_of_float example_timestamp [cafe] relation []) as H.
  specialize (H _ ltac:(vm_compute; discriminate) ltac:(vm_compute; discriminate)
                ltac:(vm_compute; reflexivity)).
  cbn [last_node_or_way] in H.
  change (is_node_or_way cafe) with true in H. cbn iota in H.
  destruct H as (la & lo & st' & Hp & Hrun & _).
  exists st'. split; [vm_compute; reflexivity|]. split; [reflexivity|].
  exact Hrun.
Defined.

(** C10, as stated, fails: after a node without latitude the relation is
    passed over, it gets no marker. *)
Lemma other_type_after_skipped_node :
  ~ other_type_always_marked Html.html5_excerpt Html.invalid_charrefs_excerpt
      Html.invalid_codepoints_excerpt example_str_of_float example_timestamp.
Proof.
  intros H.
  destruct (H [node_without_lat] relation
              {| lat := Some PyNone; lon := Some (PyInt 13);
                 written := file_header example_timestamp;
                 numbers := no_markers |})
    as (st' & line & Hrun & Hw & Hline).
  - vm_compute. reflexivity.
  - vm_compute. reflexivity.
  - vm_compute. discriminate.
  - replace (process_element _ _ _ _ _ _) with
      (Ok {| lat := Some PyNone; lon := Some (PyInt 13);
             written := file_header example_timestamp;
             numbers := no_markers |}) in Hrun by (vm_compute; reflexivity).
    injection Hrun as <-. cbn [written] in Hw.
    apply Hline. rewrite <- (app_nil_r (file_header example_timestamp)) in Hw at 1.
    by apply app_inv_head in Hw.
Qed.

(* ===================================================================== *)
(** ** The script on examples *)
(* ===================================================================== *)

Example u_ascii : u "a;b" = [97; 59; 98]%N.
Proof. reflexivity. Qed.
Example u_emoji : u "🍕 ☕” é" = [0x1F355; 32; 0x2615; 0x201D; 32; 0xE9]%N.
Proof. reflexivity. Qed.
Example replace_ex : replace (u "aa") (u "b") (u "aaaXaa") = u "baXb".
Proof. reflexivity. Qed.
Example split_ex : split_on 59 (u "yes;limited;") = [u "yes"; u "limited"; u ""].
Proof. reflexivity. Qed.
Example escape_ex : Html.escape (u "Tom & Jerry's <b>") = u "Tom &amp; Jerry&#x27;s &lt;b&gt;".
Proof. vm_compute. reflexivity. Qed.
Example unescape_ex :
  Html.unescape Html.html5_excerpt Html.invalid_charrefs_excerpt Html.invalid_codepoints_excerpt
    (u "Tom &amp; Jerry&#x27;s &lt;b&gt; &#65;&ampx &nope; &") = u "Tom & Jerry's <b> A&x &nope; &".
Proof. vm_compute. reflexivity. Qed.

(** The cafe of the specification: category [vegan_only], icon [cafe] with
    its emoji, and a marker line with the coordinates and the name. *)
Example cafe_category : classify (escaped_tags cafe) = vegan_only.
Proof. vm_compute. reflexivity. Qed.

Example cafe_icon : determine_icon (escaped_tags cafe) = Ok (u "cafe", u "☕").
Proof. vm_compute. reflexivity. Qed.

Example cafe_marker :
  write_block Html.html5_excerpt Html.invalid_charrefs_excerpt
    Html.invalid_codepoints_excerpt example_str_of_float example_timestamp
    utf8_file (JDoc [cafe]) =
  (Ok tt,
   utf8_encode
     (file_header example_timestamp
        ++ u "L.marker([52,13],{title:" ++ [DQUOTE] ++ u "☕ Green Cafe" ++ [DQUOTE]
        ++ u ",icon:getIcon(" ++ [DQUOTE] ++ u "cafe" ++ [DQUOTE] ++ u ","
        ++ [DQUOTE] ++ u "vegan_only" ++ [DQUOTE] ++ u ")}).bindPopup(" ++ [DQUOTE]
        ++ u "<b>☕ Green Cafe</b> <a href=" ++ Q
        ++ u "https://openstreetmap.org/node/1" ++ Q ++ u " target=" ++ Q
        ++ u "_blank" ++ Q ++ u ">*</a><hr/>" ++ [DQUOTE] ++ u ").addTo(vegan_only);"
        ++ [LF]
        ++ file_footer {| n_vegan_only := 1; n_vegetarian_only := 0;
                          n_vegan_friendly := 0; n_vegan_limited := 0;
                          n_vegetarian_friendly := 0 |})).
Proof. vm_compute. reflexivity. Qed.

(** A value with several parts matches on its first part alone. *)
Example icon_first_part :
  determine_icon {[ u "amenity" := u "cafe;bar" ]} = Ok (u "cafe", u "☕").
Proof. vm_compute. reflexivity. Qed.

(** Pizza in a bar: the pizza rule comes first. *)
Example icon_pizza_bar :
  determine_icon (<[u "amenity" := u "bar"]> {[ u "cuisine" := u "pizza" ]})
    = Ok (u "maki_restaurant-pizza", u "🍕").
Proof. vm_compute. reflexivity. Qed.

(** The first server is busy, the second answers. *)
Example fetch_busy_then_empty :
  get_data_osm busy_then_empty =
    (Ok (JDoc []),
     [Request (query_url (u "https://lz4.overpass-api.de/api/interpreter"));
      Sleep 60;
      Request (query_url (u "https://overpass.kumi.systems/api/interpreter"))]).
Proof. vm_compute. reflexivity. Qed.

(** A body that is [null]: the second server is asked although the first
    answered 200. *)
Example fetch_null_then_empty :
  get_data_osm null_then_empty =
    (Ok (JDoc []),
     [Request (query_url (u "https://lz4.overpass-api.de/api/interpreter"));
      Request (query_url (u "https://overpass.kumi.systems/api/interpreter"))]).
Proof. vm_compute. reflexivity. Qed.

(** A whole run: the file with the cafe is larger than 250 bytes and takes
    the place of the active file, which becomes the previous one. *)
Example main_cafe_run :
  let '(r, fs, evs) :=
    main Html.html5_excerpt Html.invalid_charrefs_excerpt
      Html.invalid_codepoints_excerpt example_str_of_float example_timestamp
      example_dir utf8_file None cafe_at_once small_temp in
  r = Ok tt
  /\ fs !! VEGGIEMAP_OLDFILE example_dir = Some (utf8_encode (u "active"))
  /\ fs !! VEGGIEMAP_TEMPFILE example_dir = None
  /\ (length <$> fs !! VEGGIEMAP_FILE example_dir) = Some 409%nat
  /\ evs = [Request (query_url (u "https://lz4.overpass-api.de/api/interpreter"));
            OpenWrite (VEGGIEMAP_TEMPFILE example_dir);
            Rename (VEGGIEMAP_FILE example_dir) (VEGGIEMAP_OLDFILE example_dir);
            Rename (VEGGIEMAP_TEMPFILE example_dir) (VEGGIEMAP_FILE example_dir)].
Proof. vm_compute. repeat split. Qed.

(** The cafe written in Latin-1: the header is written, the line of the
    cafe, which holds the emoji of its icon, is refused, and nothing is
    renamed. *)
Example main_cafe_latin1 :
  let '(r, fs, evs) :=
    main Html.html5_excerpt Html.invalid_charrefs_excerpt
      Html.invalid_codepoints_excerpt example_str_of_float example_timestamp
      example_dir latin1_file None cafe_at_once small_temp in
  r = Raise UnicodeEncodeError
  /\ fs !! VEGGIEMAP_FILE example_dir = Some (utf8_encode (u "active"))
  /\ fs !! VEGGIEMAP_TEMPFILE example_dir
     = Some (utf8_encode (file_header example_timestamp))
  /\ evs = [Request (query_url (u "https://lz4.overpass-api.de/api/interpreter"));
            OpenWrite (VEGGIEMAP_TEMPFILE example_dir)].
Proof. vm_compute. repeat split. Qed.

(** The temp file does not open: nothing is written, nothing renamed. *)
Example main_cafe_no_directory :
  main Html.html5_excerpt Html.invalid_charrefs_excerpt
    Html.invalid_codepoints_excerpt example_str_of_float example_timestamp
    example_dir utf8_file (Some FileNotFoundError) cafe_at_once small_temp
  = (Raise FileNotFoundError, small_temp,
     [Request (query_url (u "https://lz4.overpass-api.de/api/interpreter"));
      OpenWrite (VEGGIEMAP_TEMPFILE example_dir)]).
Proof. vm_compute. reflexivity. Qed.

(** A response whose only element is a way without [center]: the body
    of the loop raises and the file holds the header. *)
Example write_data_way_without_center :
  write_block Html.html5_excerpt Html.invalid_charrefs_excerpt
    Html.invalid_codepoints_excerpt example_str_of_float example_timestamp
    utf8_file (JDoc [way_without_center])
  = (Raise AttributeError, utf8_encode (file_header example_timestamp)).
Proof. vm_compute. reflexivity. Qed.

(** A response that starts with a relation: [lat] is read before it is
    assigned. *)
Example write_data_relation_first :
  write_block Html.html5_excerpt Html.invalid_charrefs_excerpt
    Html.invalid_codepoints_excerpt example_str_of_float example_timestamp
    utf8_file (JDoc [relation; cafe])
  = (Raise UnboundLocalError, utf8_encode (file_header example_timestamp)).
Proof. vm_compute. reflexivity. Qed.

(* ===================================================================== *)
(** ** Escaped tags *)
(* ===================================================================== *)

Lemma excerpt_tables :
  library_tables Html.html5_excerpt Html.invalid_charrefs_excerpt
    Html.invalid_codepoints_excerpt.
Proof. repeat split; vm_compute; reflexivity. Qed.

(** [html.escape] maps different texts to different texts. *)
Lemma escape_inj (a b : str) : Html.escape a = Html.escape b -> a = b.
Proof.
  intros H.
  rewrite <- (unescape_escape _ _ _ excerpt_tables a).
  rewrite <- (unescape_escape _ _ _ excerpt_tables b).
  by rewrite H.
Qed.

Lemma escape_plain (v : str) : plain_text v = true -> Html.escape v = v.
Proof.
  rewrite escape_flat_map. induction v as [|c v IH]; [done|].
  cbn [plain_text forallb]. intros [Hc Hv]%andb_true_iff.
  cbn [flat_map]. rewrite (IH Hv).
  apply negb_true_iff in Hc. unfold escape_sensitive in Hc.
  cbn [contains existsb] in Hc.
  unfold escape_char.
  destruct (c =? 38)%N; [by cbn in Hc|].
  destruct (c =? 60)%N; [by cbn in Hc|].
  destruct (c =? 62)%N; [by cbn in Hc|].
  destruct (c =? 34)%N; [by cbn in Hc|].
  destruct (c =? 39)%N; [by cbn in Hc|]. reflexivity.
Qed.

Lemma lookup_escaped_tags (e : element) (k : str) :
  escaped_tags e !! k = Html.escape <$> raw_tags e !! k.
Proof. unfold escaped_tags, raw_tags. apply lookup_fmap. Qed.

Lemma get_or_empty_escaped (e : element) (k : str) :
  get_or_empty (escaped_tags e) k = Html.escape (get_or_empty (raw_tags e) k).
Proof.
  unfold get_or_empty. rewrite lookup_escaped_tags.
  by destruct (raw_tags e !! k).
Qed.

Lemma str_eqb_escape (x v : str) :
  plain_text v = true -> str_eqb (Html.escape x) v = str_eqb x v.
Proof.
  intros Hv. unfold str_eqb. apply bool_decide_ext. split.
  - intros H. apply escape_inj. by rewrite H, escape_plain.
  - intros ->. by apply escape_plain.
Qed.

Lemma contains_flat_map (x : N) (f : N -> str) (s : str) :
  contains x (flat_map f s) = existsb (fun c => contains x (f c)) s.
Proof.
  induction s as [|c s IH]; [done|]. cbn [flat_map existsb].
  unfold contains in *. by rewrite existsb_app, IH.
Qed.

(** What [html.escape] writes for a character holds none of the
    characters [<], [>], the double quote and the apostrophe. *)
Lemma escape_char_safe (c : N) :
  forallb (fun x => negb (contains x (escape_char c))) [60; 62; 34; 39]%N = true.
Proof.
  unfold escape_char.
  destruct (N.eqb_spec c 38) as [->|H38]; [by vm_compute|].
  destruct (N.eqb_spec c 60) as [->|H60]; [by vm_compute|].
  destruct (N.eqb_spec c 62) as [->|H62]; [by vm_compute|].
  destruct (N.eqb_spec c 34) as [->|H34]; [by vm_compute|].
  destruct (N.eqb_spec c 39) as [->|H39]; [by vm_compute|].
  cbn [forallb contains existsb].
  apply not_eq_sym, N.eqb_neq in H60, H62, H34, H39.
  by rewrite H60, H62, H34, H39.
Qed.

Lemma escape_safe (x : N) (s : str) :
  x ∈ [60; 62; 34; 39]%N -> contains x (Html.escape s) = false.
Proof.
  intros Hx. rewrite escape_flat_map, contains_flat_map.
  apply not_true_iff_false. intros [c [_ Hc]]%existsb_exists.
  pose proof (escape_char_safe c) as Hsafe. rewrite forallb_forall in Hsafe.
  apply list_elem_of_In, Hsafe in Hx. by rewrite Hc in Hx.
Qed.

(** X1. After the escaping pass of [write_data] the tags have the keys
    they had, and no value holds [<], [>], a double quote or an
    apostrophe. *)
Theorem escaped_tags_safe (e : element) (k : str) :
  (is_Some (escaped_tags e !! k) <-> is_Some (raw_tags e !! k))
  /\ forall v,
       escaped_tags e !! k = Some v ->
       contains 60 v = false /\ contains 62 v = false
       /\ contains DQUOTE v = false /\ contains 39 v = false.
Proof.
  rewrite lookup_escaped_tags. split.
  - by rewrite fmap_is_Some.
  - intros v Hv. destruct (raw_tags e !! k) as [w|]; [|done].
    injection Hv as <-.
    repeat split; apply escape_safe; unfold DQUOTE; set_solver.
Qed.

Lemma escaped_tags_safe_witness :
  contains 60 (Html.escape (u "<b>Green</b>")) = false.
Proof.
  apply (proj2 (escaped_tags_safe
                  {| e_id := 1; e_type := u "node";
                     e_tags := Some {[ u "name" := u "<b>Green</b>" ]};
                     e_lat := None; e_lon := None; e_center := None |}
                  (u "name"))).
  vm_compute. reflexivity.
Defined.

(** X2. The category is that of the tags as the response holds them:
    escaping the values first changes nothing for the classifier. *)
Theorem classify_escaped (e : element) :
  classify (escaped_tags e) = classify (raw_tags e).
Proof.
  unfold classify. rewrite !get_or_empty_escaped.
  by rewrite !str_eqb_escape by (by vm_compute).
Qed.

Lemma find_ext_in {A} (f g : A -> bool) (l : list A) :
  (forall x, In x l -> f x = g x) -> find f l = find g l.
Proof.
  induction l as [|x l IH]; [done|]. intros H. cbn [find].
  rewrite (H x) by (by left). rewrite IH; [done|].
  intros y Hy. apply H. by right.
Qed.

(** The text before the first semicolon of an escaped value is a plain
    text exactly when that of the value is. *)
Lemma before_semicolon_escape (t v : str) :
  plain_text v = true ->
  before_semicolon (flat_map escape_char t) = v <-> before_semicolon t = v.
Proof.
  revert v. induction t as [|c t IH]; intros v Hv; [done|].
  cbn [flat_map]. unfold escape_char.
  assert (Hsens : forall r, escape_sensitive c = true -> c <> 59%N ->
                            c :: r <> v).
  { intros r Hc _ <-. cbn [plain_text forallb] in Hv. by rewrite Hc in Hv. }
  assert (Hamp : forall r, 38%N :: r <> v).
  { intros r <-. by vm_compute in Hv. }
  destruct (N.eqb_spec c 38) as [->|H38].
  { split; intros H; exfalso; [by apply (Hamp _ H)|].
    revert H. by apply Hsens. }
  destruct (N.eqb_spec c 60) as [->|H60].
  { split; intros H; exfalso; [by apply (Hamp _ H)|].
    revert H. by apply Hsens. }
  destruct (N.eqb_spec c 62) as [->|H62].
  { split; intros H; exfalso; [by apply (Hamp _ H)|].
    revert H. by apply Hsens. }
  destruct (N.eqb_spec c 34) as [->|H34].
  { split; intros H; exfalso; [by apply (Hamp _ H)|].
    revert H. by apply Hsens. }
  destruct (N.eqb_spec c 39) as [->|H39].
  { split; intros H; exfalso; [by apply (Hamp _ H)|].
    revert H. by apply Hsens. }
  cbn [app]. unfold before_semicolon in *. cbn [Html.take_while].
  destruct (c =? 59)%N; cbn [negb]; [done|].
  destruct v as [|d v]; [done|].
  cbn [plain_text forallb] in Hv. apply andb_true_iff in Hv as [_ Hv].
  specialize (IH v Hv). split; intros [= -> H]; f_equal; by apply IH.
Qed.

Lemma icon_rules_plain_values :
  forallb (fun r : rule => plain_text r.1.2) icon_rules = true.
Proof. vm_compute. reflexivity. Qed.

(** X3. The icon is that of the tags as the response holds them: escaping
    the values first changes nothing for [determine_icon]. *)
Theorem determine_icon_escaped (e : element) :
  determine_icon (escaped_tags e) = determine_icon (raw_tags e).
Proof.
  rewrite !determine_icon_first_match. f_equal. unfold first_match_icon.
  rewrite (find_ext_in (rule_matches (escaped_tags e))
             (rule_matches (raw_tags e))); [done|].
  intros r Hr. unfold rule_matches. rewrite lookup_escaped_tags.
  destruct (raw_tags e !! r.1.1) as [t|]; [|done]. cbn [fmap option_fmap option_map].
  pose proof icon_rules_plain_values as Hplain. rewrite forallb_forall in Hplain.
  specialize (Hplain r Hr). cbn beta in Hplain.
  unfold str_eqb. apply bool_decide_ext.
  rewrite escape_flat_map. by apply before_semicolon_escape.
Qed.

Lemma contains_replace_char (c : N) (new s : str) :
  contains c new = false -> contains c (replace [c] new s) = false.
Proof.
  intros Hnew. rewrite replace_char, contains_flat_map.
  apply not_true_iff_false. intros [x [_ Hx]]%existsb_exists.
  destruct (x =? c)%N eqn:E; [congruence|].
  cbn [contains existsb] in Hx. rewrite N.eqb_sym, E in Hx. done.
Qed.

(** X4. The title of an element that has a name holds no double quote,
    whatever the name and whatever the entity tables of the library hold:
    the title cannot end the quoted attribute it is written into. *)
Theorem title_without_double_quote
    (html5 : str -> option str) (invalid_charrefs : N -> option str)
    (invalid_codepoints : N -> bool) (icon : icon) (tags : gmap str str)
    (typ : str) (ide : Z) :
  is_Some (tags !! u "name") ->
  contains DQUOTE
    (name_and_title html5 invalid_charrefs invalid_codepoints icon tags typ ide).2
    = false.
Proof.
  intros [n Hn]. unfold name_and_title. rewrite Hn. cbn [snd].
  by apply contains_replace_char.
Qed.

Lemma title_without_double_quote_witness :
  contains DQUOTE
    (name_and_title Html.html5_excerpt Html.invalid_charrefs_excerpt
       Html.invalid_codepoints_excerpt (u "cafe", u "☕")
       {[ u "name" := u "Tom &quot;T&quot; &#34;" ]} (u "node") 1).2 = false.
Proof.
  apply title_without_double_quote. vm_compute. eauto.
Defined.

(* ===================================================================== *)
(** ** The whole loop of [write_data] *)
(* ===================================================================== *)

Section LoopFacts.

Variable html5 : str -> option str.
Variable invalid_charrefs : N -> option str.
Variable invalid_codepoints : N -> bool.
Variable str_of_float : spec_float -> str.

Local Abbreviation step :=
  (process_element html5 invalid_charrefs invalid_codepoints str_of_float).
Local Abbreviation loop :=
  (write_loop html5 invalid_charrefs invalid_codepoints str_of_float).
Local Abbreviation finish :=
  (finish_element html5 invalid_charrefs invalid_codepoints str_of_float).
Local Abbreviation line :=
  (element_line html5 invalid_charrefs invalid_codepoints str_of_float).

(** Once [lat] and [lon] hold the coordinates of the element, the rest of
    the body writes its line and counts it, or does nothing. *)
Lemma finish_resolved (e : element) (st : wstate) (la lo : pyval) :
  resolved_coordinates e = Some (la, lo) ->
  lat st = Some la -> lon st = Some lo ->
  exists st',
    finish e st = Ok st'
    /\ written st' = written st ++ (if located e then line e else [])
    /\ numbers st' =
         (if located e then count_marker (classify (escaped_tags e)) (numbers st)
          else numbers st).
Proof.
  intros Hres Hla Hlo. unfold located, element_line. rewrite Hres.
  destruct (truthy la && truthy lo) eqn:Htrue.
  - apply andb_true_iff in Htrue as [Hta Hto].
    destruct (finish_element_marks html5 invalid_charrefs invalid_codepoints
                str_of_float e st la lo Hla Hlo Hta Hto)
      as (icon & name & title & Hicon & Hnt & Hrun).
    rewrite determine_icon_first_match in Hicon. injection Hicon as <-.
    eexists. split; [exact Hrun|]. cbn [written numbers]. by rewrite Hnt.
  - exists st. split; [|by rewrite app_nil_r].
    apply (finish_element_skips _ _ _ _ _ _ la lo); [done..|].
    apply andb_false_iff in Htrue. tauto.
Qed.

(** The body of the loop on a node or a way with its centre. *)
Lemma process_resolved (e : element) (st : wstate) :
  node_or_centered_way e = true ->
  exists st',
    step e st = Ok st'
    /\ written st' = written st ++ (if located e then line e else [])
    /\ numbers st' =
         (if located e then count_marker (classify (escaped_tags e)) (numbers st)
          else numbers st).
Proof.
  unfold node_or_centered_way. intros Hkind.
  destruct (str_eqb (e_type e) (u "node")) eqn:Hn.
  - apply str_eqb_eq in Hn. rewrite process_node by done.
    destruct (finish_resolved e
                {| lat := Some (get_or_None (e_lat e));
                   lon := Some (get_or_None (e_lon e));
                   written := written st; numbers := numbers st |}
                (get_or_None (e_lat e)) (get_or_None (e_lon e)))
      as (st' & Hrun & Hw' & Hn'); [|done..|by exists st'].
    unfold resolved_coordinates. rewrite Hn. by eval_str_eqb.
  - cbn [orb] in Hkind. apply andb_true_iff in Hkind as [Hw Hc].
    apply str_eqb_eq in Hw. apply bool_decide_eq_true in Hc as [c Hc].
    rewrite process_way by done. rewrite Hc.
    destruct (finish_resolved e
                {| lat := Some (get_or_None (c_lat c));
                   lon := Some (get_or_None (c_lon c));
                   written := written st; numbers := numbers st |}
                (get_or_None (c_lat c)) (get_or_None (c_lon c)))
      as (st' & Hrun & Hw' & Hn'); [|done..|by exists st'].
    unfold resolved_coordinates. by rewrite Hn, Hc.
Qed.

(** On nodes and ways with their centre the loop does not raise: it writes
    the lines of the located elements, in order, and counts their
    categories. *)
Lemma write_loop_markers (es : list element) (st : wstate) :
  forallb node_or_centered_way es = true ->
  exists st',
    loop es st = (Ok tt, st')
    /\ written st' = written st ++ concat (map line (List.filter located es))
    /\ numbers st' = tally (numbers st) (marked_categories es).
Proof.
  revert st. induction es as [|e es IH]; intros st Hall.
  - exists st. by rewrite app_nil_r.
  - cbn [forallb] in Hall. apply andb_true_iff in Hall as [He Hes].
    destruct (process_resolved e st He) as (st1 & Hrun & Hw1 & Hn1).
    destruct (IH st1 Hes) as (st' & Hloop & Hw & Hn).
    exists st'. cbn [write_loop]. rewrite Hrun. split; [done|].
    unfold marked_categories in *. cbn [List.filter].
    rewrite Hw, Hn, Hw1, Hn1.
    destruct (located e); cbn [map concat tally fold_left].
    + by rewrite <- app_assoc.
    + by rewrite app_nil_r.
Qed.

End LoopFacts.

(** Each counter counts the markers of its category; together they count
    the markers. *)
Lemma tally_counts (n : counters) (cs : list category) :
  (forall c, counter_of c (tally n cs) =
             counter_of c n + Z.of_nat (length (List.filter (category_eqb c) cs)))
  /\ total (tally n cs) = total n + Z.of_nat (length cs).
Proof.
  revert n. induction cs as [|d cs IH]; intros n.
  - split; [intros c|]; cbn; lia.
  - cbn [tally fold_left]. destruct (IH (count_marker d n)) as [IHc IHt].
    fold (tally (count_marker d n) cs). split.
    + intros c. rewrite IHc. cbn [List.filter].
      destruct c, d; cbn [category_eqb counter_of count_marker length
        n_vegan_only n_vegetarian_only n_vegan_friendly n_vegan_limited
        n_vegetarian_friendly]; lia.
    + rewrite IHt. cbn [length].
      destruct d; unfold total; cbn [count_marker
        n_vegan_only n_vegetarian_only n_vegan_friendly n_vegan_limited
        n_vegetarian_friendly]; lia.
Qed.

Lemma filter_map_length {A B} (p : B -> bool) (f : A -> B) (l : list A) :
  length (List.filter p (map f l)) = length (List.filter (fun x => p (f x)) l).
Proof.
  induction l as [|x l IH]; [done|]. cbn [map List.filter].
  destruct (p (f x)); cbn [length]; by rewrite IH.
Qed.

(** X6. After the loop over a response of nodes and of ways with their
    centre, each of the five counters holds the number of located elements
    of its category and the five add up to the number of lines written. *)
Theorem counters_count_markers
    (html5 : str -> option str) (invalid_charrefs : N -> option str)
    (invalid_codepoints : N -> bool) (str_of_float : spec_float -> str)
    (TIMESTAMP : str) (es : list element) :
  forallb node_or_centered_way es = true ->
  exists st,
    write_loop html5 invalid_charrefs invalid_codepoints str_of_float es
      (initial_wstate TIMESTAMP) = (Ok tt, st)
    /\ (forall c,
          counter_of c (numbers st) =
            Z.of_nat (length (List.filter
                                (fun e => category_eqb c (classify (escaped_tags e)))
                                (List.filter located es))))
    /\ total (numbers st) = Z.of_nat (length (List.filter located es)).
Proof.
  intros Hall.
  destruct (write_loop_markers html5 invalid_charrefs invalid_codepoints
              str_of_float es (initial_wstate TIMESTAMP) Hall)
    as (st & Hloop & _ & Hn).
  exists st. split; [done|]. cbn [initial_wstate numbers] in Hn. rewrite Hn.
  destruct (tally_counts no_markers (marked_categories es)) as [Hc Ht].
  unfold marked_categories in *. split.
  - intros c. rewrite Hc.
    replace (counter_of c no_markers) with 0 by (by destruct c).
    cbn [Z.add]. by rewrite filter_map_length.
  - rewrite Ht, length_map. by cbn.
Qed.

Lemma counters_count_markers_witness :
  exists st,
    write_loop Html.html5_excerpt Html.invalid_charrefs_excerpt
      Html.invalid_codepoints_excerpt example_str_of_float
      [cafe; node_without_lat; cafe] (initial_wstate example_timestamp)
      = (Ok tt, st)
    /\ total (numbers st) = 2.
Proof.
  destruct (counters_count_markers Html.html5_excerpt
              Html.invalid_charrefs_excerpt Html.invalid_codepoints_excerpt
              example_str_of_float example_timestamp
              [cafe; node_without_lat; cafe])
    as (st & Hloop & _ & Htotal).
  - vm_compute. reflexivity.
  - exists st. split; [exact Hloop|]. exact Htotal.
Defined.

(* ===================================================================== *)
(** ** The lines of the popup *)
(* ===================================================================== *)

Lemma popup_row_nonempty (emoji body : str) : popup_row emoji body <> [].
Proof. unfold popup_row. by vm_compute. Qed.

Lemma contact_value_preferred (tags : gmap str str) (preferred other v : str) :
  tags !! preferred = Some v -> contact_value tags preferred other = v.
Proof. unfold contact_value. by intros ->. Qed.

Lemma contact_value_other (tags : gmap str str) (preferred other : str) :
  tags !! preferred = None ->
  contact_value tags preferred other = get_or_empty tags other.
Proof. unfold contact_value, get_or_empty. intros ->. by destruct (tags !! other). Qed.

(** X7. The e-mail and phone lines of the popup take the value of the
    [contact:] attribute when it is there and that of the bare attribute
    otherwise; the line links to the value with the [mailto:] or [tel:]
    scheme and shows the value itself; without a value that is not empty
    there is no line. *)
Theorem contact_lines_spec (tags : gmap str str) :
  (forall v, tags !! u "contact:email" = Some v -> v <> [] ->
             popup_email tags = contact_row (u "📧") (u "mailto:") v)
  /\ (forall v, tags !! u "contact:email" = None ->
                tags !! u "email" = Some v -> v <> [] ->
                popup_email tags = contact_row (u "📧") (u "mailto:") v)
  /\ (tags !! u "contact:email" = None ->
      get_or_empty tags (u "email") = [] -> popup_email tags = [])
  /\ (forall v, tags !! u "contact:phone" = Some v -> v <> [] ->
                popup_phone tags = contact_row (u "☎️") (u "tel:") v)
  /\ (forall v, tags !! u "contact:phone" = None ->
                tags !! u "phone" = Some v -> v <> [] ->
                popup_phone tags = contact_row (u "☎️") (u "tel:") v)
  /\ (tags !! u "contact:phone" = None ->
      get_or_empty tags (u "phone") = [] -> popup_phone tags = []).
Proof.
  unfold popup_email, popup_phone, contact_row.
  repeat split.
  - intros v Hv Hne. rewrite (contact_value_preferred _ _ _ _ Hv).
    by rewrite bool_decide_true.
  - intros v Hno Hv Hne. rewrite contact_value_other by done.
    rewrite (get_or_empty_Some _ _ _ Hv). by rewrite bool_decide_true.
  - intros Hno He. rewrite contact_value_other by done. rewrite He.
    by rewrite bool_decide_false by (by intros H).
  - intros v Hv Hne. rewrite (contact_value_preferred _ _ _ _ Hv).
    by rewrite bool_decide_true.
  - intros v Hno Hv Hne. rewrite contact_value_other by done.
    rewrite (get_or_empty_Some _ _ _ Hv). by rewrite bool_decide_true.
  - intros Hno He. rewrite contact_value_other by done. rewrite He.
    by rewrite bool_decide_false by (by intros H).
Qed.

Lemma contact_lines_spec_witness :
  popup_email (<[u "contact:email" := u "info@example.com"]>
               {[ u "email" := u "old@example.com" ]})
    = contact_row (u "📧") (u "mailto:") (u "info@example.com").
Proof.
  apply (proj1 (contact_lines_spec
                  (<[u "contact:email" := u "info@example.com"]>
                     {[ u "email" := u "old@example.com" ]}))).
  - vm_compute. reflexivity.
  - vm_compute. discriminate.
Defined.

(** X8. A [contact:] attribute that is there with an empty value hides the
    bare attribute: the popup has no website, e-mail or phone line then,
    whatever [website], [email] or [phone] hold. *)
Theorem empty_contact_hides_fallback (tags : gmap str str) :
  (tags !! u "contact:website" = Some [] -> popup_website tags = [])
  /\ (tags !! u "contact:email" = Some [] -> popup_email tags = [])
  /\ (tags !! u "contact:phone" = Some [] -> popup_phone tags = []).
Proof.
  unfold popup_website, place_website, popup_email, popup_phone.
  repeat split; intros H; rewrite (contact_value_preferred _ _ _ _ H);
    by rewrite bool_decide_false by (by intros E).
Qed.

Lemma empty_contact_hides_fallback_witness :
  popup_website (<[u "contact:website" := []]>
                 {[ u "website" := u "https://example.com" ]}) = [].
Proof.
  apply (proj1 (empty_contact_hides_fallback
                  (<[u "contact:website" := []]>
                     {[ u "website" := u "https://example.com" ]}))).
  vm_compute. reflexivity.
Defined.

Lemma contains_app (c : N) (s t : str) :
  contains c (s ++ t) = contains c s || contains c t.
Proof. unfold contains. apply existsb_app. Qed.

(** A replacement brings in no character that neither the text nor the
    replacing text holds. *)
Lemma contains_replace_from (c : N) (old new s : str) (skip : nat) :
  contains c s = false -> contains c new = false ->
  contains c (replace_from old new skip s) = false.
Proof.
  intros Hs Hnew. revert skip. induction s as [|x s IH]; intros skip; [done|].
  cbn [contains existsb] in Hs. apply orb_false_iff in Hs as [Hx Hs].
  specialize (IH Hs). cbn [replace_from]. destruct skip as [|k]; [|apply IH].
  destruct (startswith old (x :: s)).
  - by rewrite contains_app, Hnew, IH.
  - cbn [contains existsb]. fold (contains c (replace_from old new 0 s)).
    by rewrite Hx, IH.
Qed.

Lemma contains_replace (c : N) (old new s : str) :
  contains c s = false -> contains c new = false ->
  contains c (replace old new s) = false.
Proof.
  intros Hs Hnew. unfold replace. destruct old as [|d old].
  - rewrite contains_app, Hnew, contains_flat_map. cbn [orb].
    apply not_true_iff_false. intros [x [Hin Hx]]%existsb_exists.
    cbn [contains existsb] in Hx. fold (contains c new) in Hx.
    rewrite Hnew, orb_false_r in Hx.
    assert (contains c s = true); [|congruence].
    apply existsb_exists. eauto.
  - by apply contains_replace_from.
Qed.

(** X9. The opening hours written into the popup hold no line feed and no
    carriage return, whatever the attribute holds. *)
Theorem opening_hours_one_line (tags : gmap str str) :
  contains LF (popup_opening_hours tags) = false
  /\ contains CR (popup_opening_hours tags) = false.
Proof.
  unfold popup_opening_hours. destruct (tags !! u "opening_hours") as [h|]; [|done].
  assert (Hlf : contains LF (replace [CR] [] (replace [LF] [] h)) = false).
  { apply contains_replace; [|done]. by apply contains_replace_char. }
  assert (Hcr : contains CR (replace [CR] [] (replace [LF] [] h)) = false).
  { by apply contains_replace_char. }
  unfold popup_row. rewrite !contains_app.
  split.
  - rewrite (contains_replace LF) by (done || by vm_compute). by vm_compute.
  - rewrite (contains_replace CR) by (done || by vm_compute). by vm_compute.
Qed.

Lemma joined_nil (a b : str) :
  (if bool_decide (a <> []) then a ++ u "<br/>" else a) ++ b = []
  <-> a = [] /\ b = [].
Proof.
  case_bool_decide as Hd.
  - split; [|by intros [-> _]]. intros H. apply app_eq_nil in H as [H _].
    apply app_eq_nil in H as [_ H]. by vm_compute in H.
  - destruct (decide (a = [])) as [->|]; [|done]. cbn [app]. intuition congruence.
Qed.

(** X10. The address of the popup: a house number shows only next to a
    street, and there is an address line unless the street is missing and
    the city and the country are missing or empty. *)
Theorem popup_address_spec (tags : gmap str str) :
  (tags !! u "addr:street" = None ->
   forall h, place_address (<[u "addr:housenumber" := h]> tags) = place_address tags)
  /\ (forall street, tags !! u "addr:street" = Some street ->
        exists rest,
          place_address tags =
            street ++ u " " ++ get_or_empty tags (u "addr:housenumber") ++ rest)
  /\ (popup_address tags = [] <->
      tags !! u "addr:street" = None
      /\ get_or_empty tags (u "addr:city") = []
      /\ get_or_empty tags (u "addr:country") = []).
Proof.
  split; [|split].
  - intros Hno h. unfold place_address.
    rewrite !lookup_insert_ne by (by vm_compute). by rewrite Hno.
  - intros street Hs. unfold place_address. rewrite Hs. cbn [app].
    assert (Hne : street ++ u " " ++ get_or_empty tags (u "addr:housenumber") <> []).
    { intros H. apply app_eq_nil in H as [_ H]. by vm_compute in H. }
    set (a := street ++ u " " ++ get_or_empty tags (u "addr:housenumber")) in *.
    rewrite (bool_decide_true (a <> [])) by done.
    destruct (tags !! u "addr:city") as [city|];
      destruct (tags !! u "addr:country") as [country|].
    + rewrite bool_decide_true.
      * exists (u "<br/>" ++ city ++ u "<br/>" ++ country).
        subst a. by rewrite <- !app_assoc.
      * intros H. apply app_eq_nil in H as [H _]. apply app_eq_nil in H as [H _].
        done.
    + exists (u "<br/>" ++ city). subst a. by rewrite <- !app_assoc.
    + rewrite (bool_decide_true (a <> [])) by done.
      exists (u "<br/>" ++ country). subst a. by rewrite <- !app_assoc.
    + exists []. subst a. by rewrite app_nil_r.
  - unfold popup_address.
    assert (Hrow : (if bool_decide (place_address tags <> [])
                    then popup_row (u "📍") (place_address tags) else []) = []
                   <-> place_address tags = []).
    { case_bool_decide as Hd.
      - split; [intros H; by apply popup_row_nonempty in H | done].
      - split; [intros _ | done].
        by destruct (decide (place_address tags = [])). }
    rewrite Hrow. unfold place_address, get_or_empty. cbn [app].
    assert (Hne : forall street : str,
              street ++ u " " ++ default [] (tags !! u "addr:housenumber") <> []).
    { intros street E. apply app_eq_nil in E as [_ E]. by vm_compute in E. }
    destruct (tags !! u "addr:street") as [street|];
      destruct (tags !! u "addr:city") as [city|];
      destruct (tags !! u "addr:country") as [country|];
      cbn [default id]; rewrite ?joined_nil;
      try specialize (Hne street); intuition congruence.
Qed.

Lemma popup_address_spec_witness :
  place_address (<[u "addr:housenumber" := u "5"]> {[ u "addr:city" := u "Berlin" ]})
    = place_address {[ u "addr:city" := u "Berlin" ]}.
Proof.
  apply (proj1 (popup_address_spec {[ u "addr:city" := u "Berlin" ]})).
  vm_compute. reflexivity.
Defined.

Lemma icon_rules_keys :
  forallb (fun r : rule => bool_decide (r.1.1 ∈ icon_keys)) icon_rules = true.
Proof. vm_compute. reflexivity. Qed.

Lemma icon_rules_values :
  forallb (fun r : rule => negb (str_eqb [] r.1.2)) icon_rules = true.
Proof. vm_compute. reflexivity. Qed.

(** X11. [determine_icon] looks at six attributes only: a change of any
    other attribute leaves the icon as it is; and an attribute with an
    empty value counts as missing. *)
Theorem determine_icon_frame (tags : gmap str str) (k v : str) :
  (k ∉ icon_keys -> determine_icon (<[k := v]> tags) = determine_icon tags)
  /\ determine_icon (<[k := []]> tags) = determine_icon (delete k tags).
Proof.
  rewrite !determine_icon_first_match. unfold first_match_icon.
  pose proof icon_rules_keys as Hkeys. rewrite forallb_forall in Hkeys.
  split.
  - intros Hk.
    rewrite (find_ext_in (rule_matches (<[k := v]> tags)) (rule_matches tags));
      [reflexivity|].
    intros r Hr. apply Hkeys, bool_decide_eq_true in Hr.
    unfold rule_matches. rewrite lookup_insert_ne; [reflexivity|].
    intros ->. exact (Hk Hr).
  - rewrite (find_ext_in (rule_matches (<[k := []]> tags))
               (rule_matches (delete k tags))); [reflexivity|].
    intros r Hr. unfold rule_matches.
    destruct (decide (k = r.1.1)) as [->|Hne].
    + rewrite lookup_insert_eq, lookup_delete_eq.
      apply str_eqb_neq. unfold before_semicolon. cbn [Html.take_while].
      intros E.
      pose proof icon_rules_values as Hv.
      rewrite forallb_forall in Hv. specialize (Hv r Hr). cbn beta in Hv.
      rewrite <- E in Hv. discriminate Hv.
    + rewrite lookup_insert_ne by exact Hne.
      rewrite lookup_delete_ne by exact Hne. reflexivity.
Qed.

Lemma determine_icon_frame_witness :
  determine_icon (<[u "name" := u "pizza"]> {[ u "amenity" := u "cafe" ]})
    = determine_icon {[ u "amenity" := u "cafe" ]}.
Proof.
  apply (proj1 (determine_icon_frame {[ u "amenity" := u "cafe" ]}
                  (u "name") (u "pizza"))).
  vm_compute. intros H. repeat (apply elem_of_cons in H as [H|H]; [discriminate H|]).
  by apply elem_of_nil in H.
Defined.

(* ===================================================================== *)
(** ** The fetcher, whatever the servers answer *)
(* ===================================================================== *)



Section FetchBounds.

Variable HTTP_request : nat -> str -> outcome response.


(** As long as the attempts fail the loop goes from one server to the
    next. *)
Lemma fetch_loop_prefix (servers : list str) (i k : nat) :
  (forall j s, (j < k)%nat -> servers !! j = Some s -> fails HTTP_request (i + j) s) ->
  fetch_loop HTTP_request servers i =
    after (failure_events HTTP_request (take k servers) i)
          (fetch_loop HTTP_request (drop k servers) (i + k)).
Proof.
  revert servers i. induction k as [|k IH]; intros servers i Hbefore.
  - rewrite Nat.add_0_r, drop_0, take_0. cbn [failure_events app]. unfold after.
    by destruct (fetch_loop HTTP_request servers i).
  - destruct servers as [|s rest].
    { cbn [take drop failure_events fetch_loop]. reflexivity. }
    rewrite fetch_loop_failed_attempt.
    2:{ specialize (Hbefore O s). rewrite Nat.add_0_r in Hbefore.
        apply Hbefore; [lia | reflexivity]. }
    rewrite (IH rest (S i)).
    2:{ intros j s' Hj Hs'. rewrite Nat.add_succ_comm.
        apply Hbefore; [lia | exact Hs']. }
    unfold after. cbn [fst snd take drop failure_events].
    rewrite Nat.add_succ_comm. f_equal.
    rewrite app_nil_r. cbn [app]. by rewrite <- app_assoc.
Qed.

End FetchBounds.


(** X13. Failures other than a status are not failed over: when the
    servers before it answered with a status other than 200 and a server
    raises on the request, or answers 200 with a body that does not parse,
    [get_data_osm] raises that exception without asking another server,
    and [main] ends with it, the files as they were. *)
Theorem get_data_osm_aborts
    (html5 : str -> option str) (invalid_charrefs : N -> option str)
    (invalid_codepoints : N -> bool) (str_of_float : spec_float -> str)
    (TIMESTAMP SCRIPTDIR : str) (encode : str -> str -> option (list Byte.byte))
    (open_error : option exn)
    (HTTP_request : nat -> str -> outcome response) (fs : files)
    (k : nat) (server : str) (x : exn) :
  SERVERS !! k = Some server ->
  (forall j s, (j < k)%nat -> SERVERS !! j = Some s -> fails HTTP_request j s) ->
  (HTTP_request k (query_url server) = Raise x
   \/ exists r, HTTP_request k (query_url server) = Ok r
                /\ status r = 200 /\ payload r = Raise x) ->
  get_data_osm HTTP_request =
    (Raise x,
     failure_events HTTP_request (take k SERVERS) 0 ++ [Request (query_url server)])
  /\ main html5 invalid_charrefs invalid_codepoints str_of_float TIMESTAMP
       SCRIPTDIR encode open_error HTTP_request fs =
     (Raise x, fs,
      failure_events HTTP_request (take k SERVERS) 0 ++ [Request (query_url server)]).
Proof.
  intros Hk Hbefore Hraise.
  assert (Hget : get_data_osm HTTP_request =
            (Raise x,
             failure_events HTTP_request (take k SERVERS) 0
               ++ [Request (query_url server)])).
  { unfold get_data_osm. rewrite (fetch_loop_prefix HTTP_request SERVERS 0 k Hbefore).
    apply drop_S in Hk. rewrite Hk. cbn [Nat.add fetch_loop]. unfold after.
    destruct Hraise as [-> | (r & -> & Hst & Hpay)]; [done|].
    by rewrite Hst, Hpay. }
  split; [exact Hget|]. unfold main. by rewrite Hget.
Qed.

(** The first server is unavailable, the second sends a body that is no
    JSON: the third is not asked. *)
Lemma get_data_osm_aborts_witness :
  get_data_osm unavailable_then_garbled
  = (Raise JSONDecodeError,
     failure_events unavailable_then_garbled (take 1 SERVERS) 0
       ++ [Request (query_url (u "https://overpass.kumi.systems/api/interpreter"))]).
Proof.
  apply (get_data_osm_aborts Html.html5_excerpt Html.invalid_charrefs_excerpt
           Html.invalid_codepoints_excerpt example_str_of_float
           example_timestamp example_dir utf8_file None unavailable_then_garbled
           three_files 1%nat
           (u "https://overpass.kumi.systems/api/interpreter") JSONDecodeError).
  - reflexivity.
  - intros j s Hj Hs. destruct j as [|j]; [|lia].
    eexists. split; [reflexivity|]. simpl. lia.
  - right. eexists. split; [reflexivity|]. split; reflexivity.
Defined.

(* ===================================================================== *)
(** ** The size of the file and the threshold of [check_data] *)
(* ===================================================================== *)

(** The length of a text made of literals and of variable parts. *)
Ltac literal_lengths :=
  rewrite ?length_app;
  repeat match goal with
  | |- context [length (u ?l)] =>
      let n := eval vm_compute in (length (u l)) in
      change (length (u l)) with n
  end;
  cbn [length].

Lemma file_header_length (TIMESTAMP : str) :
  length (file_header TIMESTAMP) = (52 + length TIMESTAMP)%nat.
Proof. unfold file_header, header_created, header_function. literal_lengths. lia. Qed.

Lemma file_footer_length (n : counters) : (121 <= length (file_footer n))%nat.
Proof. unfold file_footer, footer_brace, footer_numbers. literal_lengths. lia. Qed.

Lemma build_popup_length (name typ : str) (ide : Z) (tags : gmap str str) :
  (76 <= length (build_popup name typ ide tags))%nat.
Proof.
  unfold build_popup, popup_header, link, Q. literal_lengths. lia.
Qed.

Lemma marker_line_length (str_of_float : spec_float -> str) (la lo : pyval)
    (title : str) (icon : icon) (category popup : str) :
  (68 + length popup <= length (marker_line str_of_float la lo title icon
                                  category popup))%nat.
Proof. unfold marker_line. literal_lengths. lia. Qed.

Lemma element_line_length
    (html5 : str -> option str) (invalid_charrefs : N -> option str)
    (invalid_codepoints : N -> bool) (str_of_float : spec_float -> str)
    (e : element) :
  located e = true ->
  (144 <= length (element_line html5 invalid_charrefs invalid_codepoints
                    str_of_float e))%nat.
Proof.
  unfold located, element_line.
  destruct (resolved_coordinates e) as [[la lo]|]; [|done]. intros _.
  pose proof (marker_line_length str_of_float la lo
    (name_and_title html5 invalid_charrefs invalid_codepoints
       (first_match_icon (escaped_tags e)) (escaped_tags e) (e_type e) (e_id e)).2
    (first_match_icon (escaped_tags e))
    (category_name (classify (escaped_tags e)))
    (build_popup
       (name_and_title html5 invalid_charrefs invalid_codepoints
          (first_match_icon (escaped_tags e)) (escaped_tags e) (e_type e) (e_id e)).1
       (e_type e) (e_id e) (escaped_tags e))) as Hline.
  pose proof (build_popup_length
    (name_and_title html5 invalid_charrefs invalid_codepoints
       (first_match_icon (escaped_tags e)) (escaped_tags e) (e_type e) (e_id e)).1
    (e_type e) (e_id e) (escaped_tags e)) as Hpopup.
  cbn zeta. lia.
Qed.

Lemma utf8_encode_length (s : str) : (length s <= length (utf8_encode s))%nat.
Proof.
  unfold utf8_encode. rewrite length_map.
  induction s as [|c s IH]; [done|]. cbn [flat_map]. rewrite length_app.
  assert (1 <= length (utf8_encode_char c))%nat; [|cbn [length]; lia].
  unfold utf8_encode_char. repeat (destruct (_ <? _)%N); cbn [length]; lia.
Qed.

Lemma utf8_encode_ascii (s : str) :
  ascii_text s = true -> length (utf8_encode s) = length s.
Proof.
  unfold utf8_encode, ascii_text. rewrite length_map.
  induction s as [|c s IH]; [done|]. cbn [forallb flat_map].
  intros [Hc Hs]%andb_true_iff. rewrite length_app, (IH Hs).
  unfold utf8_encode_char. apply N.ltb_lt in Hc.
  change 0x80%N with 128%N. apply N.ltb_lt in Hc. by rewrite Hc.
Qed.

(** UTF-8 never writes fewer bytes than the text has characters. *)
Lemma utf8_file_length (before s : str) (b : list Byte.byte) :
  utf8_file before s = Some b -> (length s <= length b)%nat.
Proof.
  unfold utf8_file, utf8. destruct (forallb _ s); [|discriminate].
  intros [= <-]. apply utf8_encode_length.
Qed.

(** UTF-8 writes an ASCII text, one byte for each character. *)
Lemma utf8_file_ascii (before s : str) :
  ascii_text s = true ->
  exists b, utf8_file before s = Some b /\ length b = length s.
Proof.
  intros Hs. exists (utf8_encode s). split; [|by apply utf8_encode_ascii].
  unfold utf8_file, utf8.
  replace (forallb _ s) with true; [reflexivity|].
  symmetry. apply forallb_forall. intros c Hc.
  unfold ascii_text in Hs. rewrite forallb_forall in Hs.
  specialize (Hs c Hc). apply N.ltb_lt in Hs.
  apply orb_true_iff. left. apply N.ltb_lt. lia.
Qed.

Lemma ascii_text_app (s t : str) :
  ascii_text (s ++ t) = ascii_text s && ascii_text t.
Proof. unfold ascii_text. apply forallb_app. Qed.

Lemma file_header_split (TIMESTAMP : str) :
  file_header TIMESTAMP = header_created TIMESTAMP ++ header_function.
Proof. reflexivity. Qed.

Lemma file_footer_split (n : counters) :
  file_footer n = footer_brace ++ footer_numbers n.
Proof. reflexivity. Qed.

(* ===================================================================== *)
(** ** The writes of [write_data] *)
(* ===================================================================== *)

Section BlockFacts.

Variable html5 : str -> option str.
Variable invalid_charrefs : N -> option str.
Variable invalid_codepoints : N -> bool.
Variable str_of_float : spec_float -> str.
Variable encode : str -> str -> option (list Byte.byte).

Local Abbreviation step :=
  (process_element html5 invalid_charrefs invalid_codepoints str_of_float).
Local Abbreviation loop :=
  (write_loop html5 invalid_charrefs invalid_codepoints str_of_float).
Local Abbreviation line :=
  (element_line html5 invalid_charrefs invalid_codepoints str_of_float).
Local Abbreviation elements_to :=
  (write_elements html5 invalid_charrefs invalid_codepoints str_of_float encode).
Local Abbreviation block :=
  (write_block html5 invalid_charrefs invalid_codepoints str_of_float).

Lemma write_all_app (before : str) (c1 c2 : list str) (file : list Byte.byte) :
  write_all encode before (c1 ++ c2) file =
    match write_all encode before c1 file with
    | (Ok _, file1) => write_all encode (before ++ concat c1) c2 file1
    | (Raise x, file1) => (Raise x, file1)
    end.
Proof.
  revert before file.
  induction c1 as [|c c1 IH]; intros before file; cbn [app write_all concat].
  - by rewrite app_nil_r.
  - destruct (encode before c) as [bytes|]; [|done].
    rewrite IH. by rewrite <- app_assoc.
Qed.

(** Texts that the encoding accepts are all written. *)
Lemma write_all_total (before : str) (chunks : list str) (file : list Byte.byte) :
  (forall b c, In c chunks -> is_Some (encode b c)) ->
  exists bytes, write_all encode before chunks file = (Ok tt, bytes).
Proof.
  revert before file. induction chunks as [|c chunks IH]; intros before file Hall.
  - by exists file.
  - cbn [write_all]. destruct (Hall before c) as [bytes ->]; [by left|].
    apply IH. intros b c' Hc'. apply Hall. by right.
Qed.

(** With an encoding that does not shorten a text, the file is at least
    as long as the texts written to it. *)
Lemma write_all_length (before : str) (chunks : list str)
    (file bytes : list Byte.byte) :
  (forall b s r, encode b s = Some r -> (length s <= length r)%nat) ->
  write_all encode before chunks file = (Ok tt, bytes) ->
  (length file + length (concat chunks) <= length bytes)%nat.
Proof.
  intros Hencode. revert before file.
  induction chunks as [|c chunks IH]; intros before file; cbn [write_all concat].
  - intros [= <-]. cbn [length]. lia.
  - destruct (encode before c) as [r|] eqn:Hr; [|discriminate].
    intros Hrun. apply IH in Hrun. apply Hencode in Hr.
    rewrite length_app in *. lia.
Qed.

(** With an encoding that writes one byte for an ASCII character, ASCII
    texts are written byte for character. *)
Lemma write_all_ascii (before : str) (chunks : list str) (file : list Byte.byte) :
  (forall b s, ascii_text s = true ->
               exists r, encode b s = Some r /\ length r = length s) ->
  forallb ascii_text chunks = true ->
  exists bytes,
    write_all encode before chunks file = (Ok tt, bytes)
    /\ length bytes = (length file + length (concat chunks))%nat.
Proof.
  intros Hencode. revert before file.
  induction chunks as [|c chunks IH]; intros before file; cbn [forallb write_all concat].
  - intros _. exists file. split; [done|]. cbn [length]. lia.
  - intros [Hc Hcs]%andb_true_iff.
    destruct (Hencode before c Hc) as (r & -> & Hlen).
    destruct (IH (before ++ c) (file ++ r) Hcs) as (bytes & -> & Hbytes).
    exists bytes. split; [done|]. rewrite Hbytes, !length_app. lia.
Qed.

(** What the body of the loop adds to [written]: nothing, or the line of
    one marker, which is what it hands to [f.write]. *)
Lemma process_element_written (e : element) (st st' : wstate) :
  step e st = Ok st' ->
  written st' = written st
  \/ exists la lo title icon category popup,
       written st' =
         written st ++ marker_line str_of_float la lo title icon category popup
       /\ drop (length (written st)) (written st') =
            marker_line str_of_float la lo title icon category popup
       /\ written st' <> written st.
Proof.
  assert (Hfinish : forall st0,
            written st0 = written st ->
            finish_element html5 invalid_charrefs invalid_codepoints
              str_of_float e st0 = Ok st' ->
            written st' = written st
            \/ exists la lo title icon category popup,
                 written st' =
                   written st
                     ++ marker_line str_of_float la lo title icon category popup
                 /\ drop (length (written st)) (written st') =
                      marker_line str_of_float la lo title icon category popup
                 /\ written st' <> written st).
  { intros st0 Hw0. unfold finish_element.
    destruct (lat st0) as [la|]; [|done]. cbn [read_local bind].
    destruct (truthy la); cbn [negb]; [|intros [= <-]; by left].
    destruct (lon st0) as [lo|]; [|done]. cbn [read_local bind].
    destruct (truthy lo); cbn [negb]; [|intros [= <-]; by left].
    rewrite determine_icon_first_match. cbn [bind].
    destruct (name_and_title _ _ _ _ _ _ _) as [name title].
    intros [= <-]. right. cbn [written]. rewrite Hw0.
    eexists _, _, _, _, _, _. split; [reflexivity|].
    split; [apply drop_app_length|].
    intros Heq. apply (f_equal length) in Heq. rewrite length_app in Heq.
    pose proof (marker_line_length str_of_float la lo title
                  (first_match_icon (escaped_tags e))
                  (category_name (classify (escaped_tags e)))
                  (build_popup name (e_type e) (e_id e) (escaped_tags e))).
    lia. }
  unfold process_element.
  destruct (str_eqb (e_type e) (u "node")); destruct (str_eqb (e_type e) (u "way"));
    cbn [bind written]; try destruct (e_center e); cbn [bind written];
    try discriminate; by apply Hfinish.
Qed.

Lemma write_elements_app (pre post : list element) (st : wstate)
    (file : list Byte.byte) :
  elements_to (pre ++ post) st file =
    match elements_to pre st file with
    | (Ok st1, file1) => elements_to post st1 file1
    | (Raise x, file1) => (Raise x, file1)
    end.
Proof.
  revert st file. induction pre as [|e pre IH]; intros st file;
    cbn [app write_elements]; [done|].
  destruct (step e st) as [st'|x]; [|done].
  destruct (bool_decide _); [apply IH|].
  destruct (f_write _ _ _ _); [apply IH | done].
Qed.

(** The loop with its writes is the loop [write_loop], as long as no
    write is refused: it ends in the same state, or with the same
    exception. *)
Lemma write_elements_loop (es : list element) (st : wstate)
    (file : list Byte.byte) :
  match elements_to es st file with
  | (Ok st', _) => loop es st = (Ok tt, st')
  | (Raise x, _) =>
      x = UnicodeEncodeError \/ exists st', loop es st = (Raise x, st')
  end.
Proof.
  revert st file. induction es as [|e es IH]; intros st file;
    cbn [write_elements write_loop]; [done|].
  destruct (step e st) as [st'|x]; [|right; by eexists].
  destruct (bool_decide _); [apply IH|].
  unfold f_write. destruct (encode _ _); [apply IH | by left].
Qed.

(** On nodes and ways with their centre the loop hands to [f.write] the
    lines of the located elements, in order, and stops only at a line the
    encoding refuses. *)
Lemma write_elements_markers (es : list element) (st : wstate)
    (file : list Byte.byte) :
  forallb node_or_centered_way es = true ->
  exists st',
    written st' = written st ++ concat (map line (List.filter located es))
    /\ numbers st' = tally (numbers st) (marked_categories es)
    /\ elements_to es st file =
         match write_all encode (written st)
                 (map line (List.filter located es)) file with
         | (Ok _, file') => (Ok st', file')
         | (Raise x, file') => (Raise x, file')
         end.
Proof.
  revert st file. induction es as [|e es IH]; intros st file Hall.
  - exists st. by rewrite app_nil_r.
  - cbn [forallb] in Hall. apply andb_true_iff in Hall as [He Hes].
    destruct (process_resolved html5 invalid_charrefs invalid_codepoints
                str_of_float e st He) as (st1 & Hrun & Hw1 & Hn1).
    unfold marked_categories in *. cbn [write_elements List.filter].
    rewrite Hrun. destruct (located e) eqn:Hloc; cbn [map concat write_all].
    + pose proof (element_line_length html5 invalid_charrefs invalid_codepoints
                    str_of_float e Hloc) as Hlen.
      rewrite bool_decide_eq_false_2.
      2:{ rewrite Hw1. intros Heq. apply (f_equal length) in Heq.
          rewrite length_app in Heq. lia. }
      rewrite Hw1, drop_app_length. unfold f_write.
      destruct (encode (written st) (line e)) as [bytes|].
      * destruct (IH st1 (file ++ bytes) Hes) as (st' & Hw & Hn & Hgo).
        exists st'. rewrite Hw, Hn, Hw1, Hn1. rewrite Hw1 in Hgo.
        split; [by rewrite <- app_assoc|]. split; [done | exact Hgo].
      * destruct (IH st1 file Hes) as (st' & Hw & Hn & _).
        exists st'. rewrite Hw, Hn, Hw1, Hn1.
        split; [by rewrite <- app_assoc|]. by split.
    + rewrite app_nil_r in Hw1. rewrite bool_decide_eq_true_2 by exact Hw1.
      destruct (IH st1 file Hes) as (st' & Hw & Hn & Hgo).
      exists st'. rewrite Hw, Hn, Hw1, Hn1. rewrite Hw1 in Hgo.
      split; [done|]. split; [done | exact Hgo].
Qed.

Variable TIMESTAMP : str.

(** What the [with] block writes for nodes and ways with their centre. *)
Lemma write_block_markers (es : list element) :
  forallb node_or_centered_way es = true ->
  block TIMESTAMP encode (JDoc es) =
    write_all encode []
      (file_chunks html5 invalid_charrefs invalid_codepoints str_of_float
         TIMESTAMP es) [].
Proof.
  intros Hall. unfold write_block, file_chunks, f_write.
  cbn [app write_all].
  destruct (encode [] (header_created TIMESTAMP)) as [b1|]; [|done].
  destruct (encode (header_created TIMESTAMP) header_function) as [b2|]; [|done].
  rewrite write_all_app, <- file_header_split.
  destruct (write_elements_markers es (initial_wstate TIMESTAMP) (b1 ++ b2) Hall)
    as (st' & Hw & Hn & ->).
  cbn [initial_wstate written numbers] in *.
  destruct (write_all encode (file_header TIMESTAMP) _ (b1 ++ b2))
    as [[[]|x] file3]; [|done].
  cbn [write_all]. rewrite Hw, Hn.
  destruct (encode _ footer_brace) as [b4|]; [|done].
  by destruct (encode _ (footer_numbers _)) as [b5|].
Qed.

(** The [with] block on a response with a way without [center]: the
    lines of the elements before it are written, then the body
    raises. *)
Lemma write_block_way_without_center (pre post : list element) (e : element) :
  forallb node_or_centered_way pre = true ->
  e_type e = u "way" ->
  e_center e = None ->
  block TIMESTAMP encode (JDoc (pre ++ e :: post)) =
    match write_all encode []
            ([header_created TIMESTAMP; header_function]
               ++ map line (List.filter located pre)) [] with
    | (Ok _, file) => (Raise AttributeError, file)
    | (Raise x, file) => (Raise x, file)
    end.
Proof.
  intros Hpre Htype Hcenter. unfold write_block, f_write.
  cbn [app write_all].
  destruct (encode [] (header_created TIMESTAMP)) as [b1|]; [|done].
  destruct (encode (header_created TIMESTAMP) header_function) as [b2|]; [|done].
  rewrite write_elements_app, <- file_header_split.
  destruct (write_elements_markers pre (initial_wstate TIMESTAMP) (b1 ++ b2) Hpre)
    as (st' & Hw & Hn & ->).
  cbn [initial_wstate written numbers] in *.
  destruct (write_all encode (file_header TIMESTAMP) _ (b1 ++ b2))
    as [[[]|x] file3]; [|done].
  cbn [write_elements]. rewrite process_way by exact Htype. by rewrite Hcenter.
Qed.

End BlockFacts.

Section RunFacts.

Variable html5 : str -> option str.
Variable invalid_charrefs : N -> option str.
Variable invalid_codepoints : N -> bool.
Variable str_of_float : spec_float -> str.
Variable TIMESTAMP : str.
Variable SCRIPTDIR : str.
Variable encode : str -> str -> option (list Byte.byte).
Variable open_error : option exn.
Variable HTTP_request : nat -> str -> outcome response.

Local Abbreviation TEMP := (VEGGIEMAP_TEMPFILE SCRIPTDIR).
Local Abbreviation FILE := (VEGGIEMAP_FILE SCRIPTDIR).
Local Abbreviation OLD := (VEGGIEMAP_OLDFILE SCRIPTDIR).
Local Abbreviation run :=
  (main html5 invalid_charrefs invalid_codepoints str_of_float TIMESTAMP
     SCRIPTDIR encode open_error HTTP_request).
Local Abbreviation block :=
  (write_block html5 invalid_charrefs invalid_codepoints str_of_float TIMESTAMP
     encode).

(** [main] when the temp file does not open: nothing is written and
    [check_data] is not called. *)
Lemma main_open_raises (fs : files) (es : list element) (evs : list event)
    (x : exn) :
  get_data_osm HTTP_request = (Ok (JDoc es), evs) ->
  open_error = Some x ->
  run fs = (Raise x, fs, evs ++ [OpenWrite TEMP]).
Proof.
  intros Hget Hopen. unfold main, write_data. by rewrite Hget, Hopen.
Qed.

(** [main] once the fetch gave a document and [write_data] wrote the
    whole file: the rotation decides. *)
Lemma main_after_write (fs : files) (es : list element) (evs : list event)
    (bytes : list Byte.byte) :
  get_data_osm HTTP_request = (Ok (JDoc es), evs) ->
  open_error = None ->
  block (JDoc es) = (Ok tt, bytes) ->
  run fs =
    (let '(r, fs2, evs2) := check_data SCRIPTDIR (<[TEMP := bytes]> fs) in
     (r, fs2, evs ++ [OpenWrite TEMP] ++ evs2)).
Proof.
  intros Hget Hopen Hblock. unfold main, write_data.
  by rewrite Hget, Hopen, Hblock.
Qed.

(** [main] when the [with] block raises: [check_data] is not called. *)
Lemma main_write_raises (fs : files) (es : list element) (evs : list event)
    (bytes : list Byte.byte) (x : exn) :
  get_data_osm HTTP_request = (Ok (JDoc es), evs) ->
  open_error = None ->
  block (JDoc es) = (Raise x, bytes) ->
  run fs = (Raise x, <[TEMP := bytes]> fs, evs ++ [OpenWrite TEMP]).
Proof.
  intros Hget Hopen Hblock. unfold main, write_data.
  by rewrite Hget, Hopen, Hblock.
Qed.

(** When [write_data] leaves a temp file of at most 250 bytes, [main]
    renames nothing: the active file is what it was. *)
Lemma main_keeps_active_file (fs : files) (es : list element)
    (evs : list event) (bytes : list Byte.byte) :
  get_data_osm HTTP_request = (Ok (JDoc es), evs) ->
  open_error = None ->
  block (JDoc es) = (Ok tt, bytes) ->
  Z.of_nat (length bytes) <= 250 ->
  exists fs',
    run fs = (Ok tt, fs', evs ++ [OpenWrite TEMP])
    /\ fs' !! FILE = fs !! FILE
    /\ fs' !! TEMP = Some bytes.
Proof.
  intros Hget Hopen Hblock Hsize.
  rewrite (main_after_write fs es evs bytes Hget Hopen Hblock).
  rewrite check_data_refuses.
  - eexists. split; [reflexivity|]. split.
    + apply lookup_insert_ne, temp_ne_file.
    + apply lookup_insert_eq.
  - right. exists bytes. by rewrite lookup_insert_eq.
Qed.

End RunFacts.

(** X5. For a response of nodes and of ways with their centre,
    [write_data] hands to [f.write] the two lines of the header, one line
    for each element whose latitude and longitude are both true, in the
    order of the response, the closing brace and the counters of those
    elements; elements with a false coordinate leave no trace. It raises
    what [open] raises, or [UnicodeEncodeError] at the first of these texts
    the encoding of the file refuses, the temp file then holding the texts
    before that one, and nothing else: when the file opens and the encoding
    accepts the texts, they are all in the temp file. *)
Theorem write_data_markers
    (html5 : str -> option str) (invalid_charrefs : N -> option str)
    (invalid_codepoints : N -> bool) (str_of_float : spec_float -> str)
    (TIMESTAMP SCRIPTDIR : str) (encode : str -> str -> option (list Byte.byte))
    (open_error : option exn) (fs : files) (es : list element) :
  forallb node_or_centered_way es = true ->
  let chunks :=
    file_chunks html5 invalid_charrefs invalid_codepoints str_of_float
      TIMESTAMP es in
  write_data html5 invalid_charrefs invalid_codepoints str_of_float TIMESTAMP
    SCRIPTDIR encode open_error (JDoc es) fs =
    match open_error with
    | Some x => (Raise x, fs, [OpenWrite (VEGGIEMAP_TEMPFILE SCRIPTDIR)])
    | None =>
        let '(r, file) := write_all encode [] chunks [] in
        (r, <[VEGGIEMAP_TEMPFILE SCRIPTDIR := file]> fs,
         [OpenWrite (VEGGIEMAP_TEMPFILE SCRIPTDIR)])
    end
  /\ ((forall before c, In c chunks -> is_Some (encode before c)) ->
      (write_all encode [] chunks []).1 = Ok tt).
Proof.
  intros Hall chunks. split.
  - unfold write_data. destruct open_error as [x|]; [reflexivity|].
    by rewrite (write_block_markers html5 invalid_charrefs invalid_codepoints
                  str_of_float encode TIMESTAMP es Hall).
  - intros Hencode.
    by destruct (write_all_total encode [] chunks [] Hencode) as [bytes ->].
Qed.

(** The cafe, a node without latitude and the cafe again, written in
    UTF-8: two lines between the header and the footer. *)
Lemma write_data_markers_witness :
  write_data Html.html5_excerpt Html.invalid_charrefs_excerpt
    Html.invalid_codepoints_excerpt example_str_of_float example_timestamp
    example_dir utf8_file None (JDoc [cafe; node_without_lat; cafe]) small_temp =
  (Ok tt,
   <[VEGGIEMAP_TEMPFILE example_dir :=
       utf8_encode
         (file_header example_timestamp
            ++ concat (map (element_line Html.html5_excerpt
                              Html.invalid_charrefs_excerpt
                              Html.invalid_codepoints_excerpt example_str_of_float)
                         [cafe; cafe])
            ++ file_footer (tally no_markers [vegan_only; vegan_only]))]>
     small_temp,
   [OpenWrite (VEGGIEMAP_TEMPFILE example_dir)]).
Proof.
  rewrite (proj1 (write_data_markers Html.html5_excerpt
                    Html.invalid_charrefs_excerpt Html.invalid_codepoints_excerpt
                    example_str_of_float example_timestamp example_dir utf8_file
                    None small_temp [cafe; node_without_lat; cafe] eq_refl)).
  vm_compute. reflexivity.
Defined.

(** X14. One way without [center] anywhere in a response of nodes and
    ways aborts the run: [main] raises, nothing is renamed and the active
    and the previous file are as they were. When the temp file opens and
    the encoding accepts the header and the lines of the elements before
    that way, the exception is [AttributeError] and the temp file holds
    that header and those lines. *)
Theorem main_way_without_center
    (html5 : str -> option str) (invalid_charrefs : N -> option str)
    (invalid_codepoints : N -> bool) (str_of_float : spec_float -> str)
    (TIMESTAMP SCRIPTDIR : str) (encode : str -> str -> option (list Byte.byte))
    (open_error : option exn)
    (HTTP_request : nat -> str -> outcome response) (fs : files)
    (pre post : list element) (e : element) (evs : list event) :
  get_data_osm HTTP_request = (Ok (JDoc (pre ++ e :: post)), evs) ->
  forallb node_or_centered_way pre = true ->
  e_type e = u "way" ->
  e_center e = None ->
  exists x fs',
    main html5 invalid_charrefs invalid_codepoints str_of_float TIMESTAMP
      SCRIPTDIR encode open_error HTTP_request fs =
      (Raise x, fs', evs ++ [OpenWrite (VEGGIEMAP_TEMPFILE SCRIPTDIR)])
    /\ fs' !! VEGGIEMAP_FILE SCRIPTDIR = fs !! VEGGIEMAP_FILE SCRIPTDIR
    /\ fs' !! VEGGIEMAP_OLDFILE SCRIPTDIR = fs !! VEGGIEMAP_OLDFILE SCRIPTDIR
    /\ forall bytes,
         open_error = None ->
         write_all encode []
           ([header_created TIMESTAMP; header_function]
              ++ map (element_line html5 invalid_charrefs invalid_codepoints
                        str_of_float) (List.filter located pre)) []
           = (Ok tt, bytes) ->
         x = AttributeError
         /\ fs' !! VEGGIEMAP_TEMPFILE SCRIPTDIR = Some bytes.
Proof.
  intros Hget Hpre Htype Hcenter.
  destruct open_error as [x0|] eqn:Hopen.
  { exists x0, fs. split; [|by repeat split].
    exact (main_open_raises _ _ _ _ _ _ _ _ _ _ _ _ _ Hget eq_refl). }
  pose proof (write_block_way_without_center html5 invalid_charrefs
                invalid_codepoints str_of_float encode TIMESTAMP pre post e
                Hpre Htype Hcenter) as Hblock.
  destruct (write_all encode [] _ []) as [r file] eqn:Hall.
  exists (match r with Ok _ => AttributeError | Raise x => x end),
         (<[VEGGIEMAP_TEMPFILE SCRIPTDIR := file]> fs).
  split; [|split; [|split]].
  - apply (main_write_raises _ _ _ _ _ _ _ _ _ _ _ _ _ _ Hget eq_refl).
    rewrite Hblock. by destruct r.
  - apply lookup_insert_ne, temp_ne_file.
  - apply lookup_insert_ne, temp_ne_old.
  - intros bytes _ [= -> ->]. split; [reflexivity | apply lookup_insert_eq].
Qed.

Lemma main_way_without_center_witness :
  exists fs',
    main Html.html5_excerpt Html.invalid_charrefs_excerpt
      Html.invalid_codepoints_excerpt example_str_of_float example_timestamp
      example_dir utf8_file None cafe_way_cafe three_files =
      (Raise AttributeError, fs',
       [Request (query_url (u "https://lz4.overpass-api.de/api/interpreter"))]
         ++ [OpenWrite (VEGGIEMAP_TEMPFILE example_dir)])
    /\ fs' !! VEGGIEMAP_FILE example_dir = Some (utf8_encode (u "active"))
    /\ fs' !! VEGGIEMAP_TEMPFILE example_dir =
         Some (utf8_encode
                 (file_header example_timestamp
                    ++ element_line Html.html5_excerpt
                         Html.invalid_charrefs_excerpt
                         Html.invalid_codepoints_excerpt example_str_of_float
                         cafe)).
Proof.
  destruct (main_way_without_center Html.html5_excerpt
              Html.invalid_charrefs_excerpt Html.invalid_codepoints_excerpt
              example_str_of_float example_timestamp example_dir utf8_file None
              cafe_way_cafe three_files [cafe] [cafe] way_without_center
              [Request (query_url (u "https://lz4.overpass-api.de/api/interpreter"))])
    as (x & fs' & Hrun & Hfile & _ & Htemp).
  - vm_compute. reflexivity.
  - vm_compute. reflexivity.
  - reflexivity.
  - reflexivity.
  - destruct (Htemp (utf8_encode
                       (file_header example_timestamp
                          ++ element_line Html.html5_excerpt
                               Html.invalid_charrefs_excerpt
                               Html.invalid_codepoints_excerpt
                               example_str_of_float cafe)))
      as [-> Hbytes].
    + reflexivity.
    + vm_compute. reflexivity.
    + exists fs'. split; [exact Hrun|]. split; [|exact Hbytes].
      rewrite Hfile. vm_compute. reflexivity.
Defined.

(** X15. A response of nodes and ways with their centre, one of them
    located at least, always passes the threshold once it is written:
    when the temp file opens, the encoding accepts the texts and does not
    shorten them, and an active file is in place, the temp file is longer
    than 250 bytes whatever the tags, and [main] rotates the files. *)
Theorem main_promotes_markers
    (html5 : str -> option str) (invalid_charrefs : N -> option str)
    (invalid_codepoints : N -> bool) (str_of_float : spec_float -> str)
    (TIMESTAMP SCRIPTDIR : str) (encode : str -> str -> option (list Byte.byte))
    (open_error : option exn)
    (HTTP_request : nat -> str -> outcome response) (fs : files)
    (es : list element) (evs : list event) (bytes active : list Byte.byte) :
  get_data_osm HTTP_request = (Ok (JDoc es), evs) ->
  forallb node_or_centered_way es = true ->
  existsb located es = true ->
  open_error = None ->
  write_all encode []
    (file_chunks html5 invalid_charrefs invalid_codepoints str_of_float
       TIMESTAMP es) [] = (Ok tt, bytes) ->
  (forall before s r, encode before s = Some r -> (length s <= length r)%nat) ->
  fs !! VEGGIEMAP_FILE SCRIPTDIR = Some active ->
  exists fs',
    (250 < length bytes)%nat
    /\ main html5 invalid_charrefs invalid_codepoints str_of_float TIMESTAMP
         SCRIPTDIR encode open_error HTTP_request fs =
       (Ok tt, fs',
        evs ++ [OpenWrite (VEGGIEMAP_TEMPFILE SCRIPTDIR);
                Rename (VEGGIEMAP_FILE SCRIPTDIR) (VEGGIEMAP_OLDFILE SCRIPTDIR);
                Rename (VEGGIEMAP_TEMPFILE SCRIPTDIR) (VEGGIEMAP_FILE SCRIPTDIR)])
    /\ fs' !! VEGGIEMAP_FILE SCRIPTDIR = Some bytes
    /\ fs' !! VEGGIEMAP_OLDFILE SCRIPTDIR = Some active
    /\ fs' !! VEGGIEMAP_TEMPFILE SCRIPTDIR = None.
Proof.
  intros Hget Hall Hsome Hopen Hwrite Hencode Hactive.
  assert (Hlen : (250 < length bytes)%nat).
  { pose proof (write_all_length encode [] _ [] bytes Hencode Hwrite) as Hlen.
    unfold file_chunks in Hlen. rewrite !concat_app, !length_app in Hlen.
    cbn [concat] in Hlen. rewrite !length_app in Hlen.
    apply existsb_exists in Hsome as (e & Hin & He).
    assert (In e (List.filter located es)) as Hf by (by apply filter_In).
    destruct (List.filter located es) as [|e1 l] eqn:Hfil; [done|].
    cbn [map concat] in Hlen. rewrite length_app in Hlen.
    assert (located e1 = true) as He1.
    { assert (In e1 (List.filter located es)) as H1 by (rewrite Hfil; by left).
      by apply filter_In in H1 as [_ H1]. }
    pose proof (element_line_length html5 invalid_charrefs invalid_codepoints
                  str_of_float e1 He1).
    assert (length (header_created TIMESTAMP) = 13 + length TIMESTAMP)%nat as Hc
      by (unfold header_created; literal_lengths; lia).
    pose proof (file_footer_length (tally no_markers (marked_categories es)))
      as Hfoot.
    rewrite file_footer_split, length_app in Hfoot.
    change (length header_function) with 39%nat in Hlen.
    change (length footer_brace) with 2%nat in Hlen, Hfoot.
    cbn [length] in Hlen. lia. }
  pose proof (temp_ne_file SCRIPTDIR) as Htf.
  pose proof (temp_ne_old SCRIPTDIR) as Hto.
  pose proof (file_ne_old SCRIPTDIR) as Hfo.
  rewrite <- (write_block_markers html5 invalid_charrefs invalid_codepoints
                str_of_float encode TIMESTAMP es Hall) in Hwrite.
  eexists. split; [exact Hlen|].
  rewrite (main_after_write _ _ _ _ _ _ _ _ _ _ _ _ _ Hget Hopen Hwrite).
  rewrite (check_data_rotates SCRIPTDIR _ bytes active).
  - split; [reflexivity|]. split; [apply lookup_insert_eq|]. split.
    + rewrite lookup_insert_ne by exact Hfo.
      rewrite lookup_delete_ne by exact Hto. apply lookup_insert_eq.
    + rewrite lookup_insert_ne by exact (not_eq_sym Htf). apply lookup_delete_eq.
  - apply lookup_insert_eq.
  - lia.
  - rewrite lookup_insert_ne by exact Htf. exact Hactive.
Qed.

Lemma main_promotes_markers_witness :
  exists fs',
    main Html.html5_excerpt Html.invalid_charrefs_excerpt
      Html.invalid_codepoints_excerpt example_str_of_float example_timestamp
      example_dir utf8_file None cafe_at_once small_temp =
       (Ok tt, fs',
        [Request (query_url (u "https://lz4.overpass-api.de/api/interpreter"))]
          ++ [OpenWrite (VEGGIEMAP_TEMPFILE example_dir);
              Rename (VEGGIEMAP_FILE example_dir) (VEGGIEMAP_OLDFILE example_dir);
              Rename (VEGGIEMAP_TEMPFILE example_dir) (VEGGIEMAP_FILE example_dir)])
    /\ fs' !! VEGGIEMAP_OLDFILE example_dir = Some (utf8_encode (u "active")).
Proof.
  destruct (main_promotes_markers Html.html5_excerpt Html.invalid_charrefs_excerpt
              Html.invalid_codepoints_excerpt example_str_of_float
              example_timestamp example_dir utf8_file None cafe_at_once small_temp
              [cafe]
              [Request (query_url (u "https://lz4.overpass-api.de/api/interpreter"))]
              (write_all utf8_file []
                 (file_chunks Html.html5_excerpt Html.invalid_charrefs_excerpt
                    Html.invalid_codepoints_excerpt example_str_of_float
                    example_timestamp [cafe]) []).2
              (utf8_encode (u "active")))
    as (fs' & _ & Hrun & _ & Hold & _).
  - vm_compute. reflexivity.
  - vm_compute. reflexivity.
  - vm_compute. reflexivity.
  - reflexivity.
  - vm_compute. reflexivity.
  - apply utf8_file_length.
  - vm_compute. reflexivity.
  - exists fs'. split; [exact Hrun | exact Hold].
Defined.

(** X16. A response without a located element (an empty one, or nodes and
    ways whose coordinates are all false) does not replace the active
    file: with a timestamp of at most 72 ASCII characters and an encoding
    that writes one byte for an ASCII character, the temp file holds the
    header and the footer in 178 bytes and those of the timestamp, at most
    250, [main] renames nothing and leaves the temp file behind. When the
    temp file does not open, [main] raises what [open] raises and no file
    changes. *)
Theorem main_keeps_file_without_markers
    (html5 : str -> option str) (invalid_charrefs : N -> option str)
    (invalid_codepoints : N -> bool) (str_of_float : spec_float -> str)
    (TIMESTAMP SCRIPTDIR : str) (encode : str -> str -> option (list Byte.byte))
    (open_error : option exn)
    (HTTP_request : nat -> str -> outcome response) (fs : files)
    (es : list element) (evs : list event) :
  get_data_osm HTTP_request = (Ok (JDoc es), evs) ->
  forallb node_or_centered_way es = true ->
  existsb located es = false ->
  ascii_text TIMESTAMP = true ->
  (length TIMESTAMP <= 72)%nat ->
  (forall before s, ascii_text s = true ->
                    exists r, encode before s = Some r /\ length r = length s) ->
  match open_error with
  | Some x =>
      main html5 invalid_charrefs invalid_codepoints str_of_float TIMESTAMP
        SCRIPTDIR encode open_error HTTP_request fs =
        (Raise x, fs, evs ++ [OpenWrite (VEGGIEMAP_TEMPFILE SCRIPTDIR)])
  | None =>
      exists fs' bytes,
        main html5 invalid_charrefs invalid_codepoints str_of_float TIMESTAMP
          SCRIPTDIR encode open_error HTTP_request fs =
          (Ok tt, fs', evs ++ [OpenWrite (VEGGIEMAP_TEMPFILE SCRIPTDIR)])
        /\ fs' !! VEGGIEMAP_FILE SCRIPTDIR = fs !! VEGGIEMAP_FILE SCRIPTDIR
        /\ fs' !! VEGGIEMAP_TEMPFILE SCRIPTDIR = Some bytes
        /\ write_all encode []
             [header_created TIMESTAMP; header_function;
              footer_brace; footer_numbers no_markers] [] = (Ok tt, bytes)
        /\ length bytes = (178 + length TIMESTAMP)%nat
        /\ length (file_header TIMESTAMP ++ file_footer no_markers)
           = (178 + length TIMESTAMP)%nat
  end.
Proof.
  intros Hget Hall Hnone Hts Hshort Hencode.
  destruct open_error as [x|] eqn:Hopen.
  { exact (main_open_raises _ _ _ _ _ _ _ _ _ _ _ _ _ Hget eq_refl). }
  pose proof (write_block_markers html5 invalid_charrefs invalid_codepoints
                str_of_float encode TIMESTAMP es Hall) as Hblock.
  assert (Hfil : List.filter located es = []).
  { destruct (List.filter located es) as [|e l] eqn:Hfil; [done|]. exfalso.
    assert (In e (List.filter located es)) as Hin by (rewrite Hfil; by left).
    apply filter_In in Hin as [Hin He].
    apply not_true_iff_false in Hnone. apply Hnone, existsb_exists. eauto. }
  unfold file_chunks, marked_categories in Hblock. rewrite Hfil in Hblock.
  cbn [map concat tally fold_left app] in Hblock.
  assert (Hlen : length (file_header TIMESTAMP ++ file_footer no_markers)
                 = (178 + length TIMESTAMP)%nat).
  { rewrite length_app, file_header_length.
    change (length (file_footer no_markers)) with 126%nat. lia. }
  destruct (write_all_ascii encode []
              [header_created TIMESTAMP; header_function;
               footer_brace; footer_numbers no_markers] [] Hencode)
    as (bytes & Hwrite & Hbytes).
  { cbn [forallb]. unfold header_created. rewrite !ascii_text_app, Hts.
    by vm_compute. }
  assert (Hsize : length bytes = (178 + length TIMESTAMP)%nat).
  { rewrite Hbytes, <- Hlen. cbn [concat length Nat.add].
    rewrite file_header_split, file_footer_split, app_nil_r.
    by rewrite <- !app_assoc. }
  rewrite Hwrite in Hblock.
  destruct (main_keeps_active_file html5 invalid_charrefs invalid_codepoints
              str_of_float TIMESTAMP SCRIPTDIR encode None HTTP_request fs es evs
              bytes Hget eq_refl Hblock) as (fs' & Hrun & Hfile & Htemp); [lia|].
  exists fs', bytes. by repeat split.
Qed.

(** A network that answers 200 with a document without elements. *)
Lemma main_keeps_file_without_markers_witness :
  exists fs',
    main Html.html5_excerpt Html.invalid_charrefs_excerpt
      Html.invalid_codepoints_excerpt example_str_of_float example_timestamp
      example_dir utf8_file None busy_then_empty three_files =
      (Ok tt, fs',
       (failure_events busy_then_empty (take 1 SERVERS) 0
          ++ [Request (query_url (u "https://overpass.kumi.systems/api/interpreter"))])
         ++ [OpenWrite (VEGGIEMAP_TEMPFILE example_dir)])
    /\ fs' !! VEGGIEMAP_FILE example_dir = Some (utf8_encode (u "active")).
Proof.
  destruct (main_keeps_file_without_markers Html.html5_excerpt
              Html.invalid_charrefs_excerpt Html.invalid_codepoints_excerpt
              example_str_of_float example_timestamp example_dir utf8_file None
              busy_then_empty three_files []
              (failure_events busy_then_empty (take 1 SERVERS) 0
                 ++ [Request (query_url
                                (u "https://overpass.kumi.systems/api/interpreter"))]))
    as (fs' & bytes & Hrun & Hfile & _).
  - vm_compute. reflexivity.
  - reflexivity.
  - reflexivity.
  - vm_compute. reflexivity.
  - vm_compute. lia.
  - apply utf8_file_ascii.
  - exists fs'. split; [exact Hrun|]. rewrite Hfile. vm_compute. reflexivity.
Defined.

(* ===================================================================== *)
(** ** The emoji of the icons *)
(* ===================================================================== *)

Lemma icon_rules_emoji :
  forallb (fun r : rule => existsb emoji_range r.2.2) icon_rules = true.
Proof. vm_compute. reflexivity. Qed.

Lemma existsb_app_l {A} (p : A -> bool) (l1 l2 : list A) :
  existsb p l1 = true -> existsb p (l1 ++ l2) = true.
Proof. intros H. by rewrite existsb_app, H. Qed.

Lemma existsb_app_r {A} (p : A -> bool) (l1 l2 : list A) :
  existsb p l2 = true -> existsb p (l1 ++ l2) = true.
Proof. intros H. rewrite existsb_app, H. apply orb_true_r. Qed.

(** The icon of an element that a rule of the table matches has an
    emoji. *)
Lemma first_match_icon_emoji (e : element) :
  has_table_icon e = true ->
  existsb emoji_range (first_match_icon (escaped_tags e)).2 = true.
Proof.
  unfold has_table_icon, first_match_icon.
  intros (r0 & Hin0 & Hr0)%existsb_exists.
  destruct (find _ icon_rules) as [r|] eqn:Hfind.
  - apply find_some in Hfind as [Hin _].
    pose proof icon_rules_emoji as Hall. rewrite forallb_forall in Hall.
    exact (Hall r Hin).
  - by rewrite (find_none _ _ Hfind r0 Hin0) in Hr0.
Qed.

(** The line of a located element with an icon of the table holds the
    emoji of the icon: the popup starts with the name, and the name with
    the emoji. *)
Lemma element_line_emoji
    (html5 : str -> option str) (invalid_charrefs : N -> option str)
    (invalid_codepoints : N -> bool) (str_of_float : spec_float -> str)
    (e : element) :
  located e = true ->
  has_table_icon e = true ->
  existsb emoji_range
    (element_line html5 invalid_charrefs invalid_codepoints str_of_float e)
  = true.
Proof.
  intros Hloc Hicon. apply first_match_icon_emoji in Hicon.
  unfold located, element_line in *.
  destruct (resolved_coordinates e) as [[la lo]|]; [|done]. cbn zeta.
  assert (Hname : existsb emoji_range
            (name_and_title html5 invalid_charrefs invalid_codepoints
               (first_match_icon (escaped_tags e)) (escaped_tags e)
               (e_type e) (e_id e)).1 = true).
  { unfold name_and_title.
    destruct (escaped_tags e !! u "name"); cbn [fst]; by apply existsb_app_l. }
  unfold marker_line. do 18 apply existsb_app_r. apply existsb_app_l.
  unfold build_popup. apply existsb_app_l.
  unfold popup_header. apply existsb_app_r. by apply existsb_app_l.
Qed.

(** A text that the encoding always refuses stops the writes. *)
Lemma write_all_refused (encode : str -> str -> option (list Byte.byte))
    (before : str) (chunks : list str) (file : list Byte.byte) (c : str) :
  In c chunks ->
  (forall b, encode b c = None) ->
  exists file', write_all encode before chunks file = (Raise UnicodeEncodeError, file').
Proof.
  intros Hin Hc. revert before file.
  induction chunks as [|d chunks IH]; intros before file; [done|].
  cbn [write_all]. destruct (encode before d) as [bytes|] eqn:Hd; [|by eexists].
  destruct Hin as [-> | Hin]; [by rewrite Hc in Hd | by apply IH].
Qed.

Lemma latin1_file_without_emoji : without_emoji latin1_file.
Proof.
  intros before s (c & Hin & Hc)%existsb_exists. unfold latin1_file.
  destruct (forallb _ s) eqn:Hall; [|reflexivity].
  rewrite forallb_forall in Hall. specialize (Hall c Hin).
  unfold emoji_range in Hc. apply N.leb_le in Hc. apply N.ltb_lt in Hall. lia.
Qed.

(** X20. Under an encoding of the file without a character from U+2600
    on (ASCII, Latin-1, Windows-1252), a response of nodes and ways with
    their centre that holds a located element with an icon of the table is
    never published: the line of that element holds the emoji of its icon,
    so [main] raises, [UnicodeEncodeError] when the temp file opens, nothing
    is renamed and the active and the previous file are as they were. *)
Theorem main_icon_unencodable
    (html5 : str -> option str) (invalid_charrefs : N -> option str)
    (invalid_codepoints : N -> bool) (str_of_float : spec_float -> str)
    (TIMESTAMP SCRIPTDIR : str) (encode : str -> str -> option (list Byte.byte))
    (open_error : option exn)
    (HTTP_request : nat -> str -> outcome response) (fs : files)
    (es : list element) (e : element) (evs : list event) :
  get_data_osm HTTP_request = (Ok (JDoc es), evs) ->
  forallb node_or_centered_way es = true ->
  In e es ->
  located e = true ->
  has_table_icon e = true ->
  without_emoji encode ->
  exists x fs',
    main html5 invalid_charrefs invalid_codepoints str_of_float TIMESTAMP
      SCRIPTDIR encode open_error HTTP_request fs =
      (Raise x, fs', evs ++ [OpenWrite (VEGGIEMAP_TEMPFILE SCRIPTDIR)])
    /\ (open_error = None -> x = UnicodeEncodeError)
    /\ fs' !! VEGGIEMAP_FILE SCRIPTDIR = fs !! VEGGIEMAP_FILE SCRIPTDIR
    /\ fs' !! VEGGIEMAP_OLDFILE SCRIPTDIR = fs !! VEGGIEMAP_OLDFILE SCRIPTDIR.
Proof.
  intros Hget Hall Hin Hloc Hicon Hencode.
  destruct open_error as [x0|] eqn:Hopen.
  { exists x0, fs. split; [|by repeat split].
    exact (main_open_raises _ _ _ _ _ _ _ _ _ _ _ _ _ Hget eq_refl). }
  pose proof (write_block_markers html5 invalid_charrefs invalid_codepoints
                str_of_float encode TIMESTAMP es Hall) as Hblock.
  destruct (write_all_refused encode []
              (file_chunks html5 invalid_charrefs invalid_codepoints
                 str_of_float TIMESTAMP es) []
              (element_line html5 invalid_charrefs invalid_codepoints
                 str_of_float e)) as [file Hwrite].
  { unfold file_chunks. apply in_or_app. right. apply in_or_app. left.
    apply in_map. by apply filter_In. }
  { intros b. apply Hencode. by apply element_line_emoji. }
  rewrite Hwrite in Hblock.
  exists UnicodeEncodeError, (<[VEGGIEMAP_TEMPFILE SCRIPTDIR := file]> fs).
  split; [|split; [done|split]].
  - exact (main_write_raises _ _ _ _ _ _ _ _ _ _ _ _ _ _ Hget eq_refl Hblock).
  - apply lookup_insert_ne, temp_ne_file.
  - apply lookup_insert_ne, temp_ne_old.
Qed.

(** The cafe written in Latin-1. *)
Lemma main_icon_unencodable_witness :
  exists fs',
    main Html.html5_excerpt Html.invalid_charrefs_excerpt
      Html.invalid_codepoints_excerpt example_str_of_float example_timestamp
      example_dir latin1_file None cafe_at_once small_temp =
      (Raise UnicodeEncodeError, fs',
       [Request (query_url (u "https://lz4.overpass-api.de/api/interpreter"))]
         ++ [OpenWrite (VEGGIEMAP_TEMPFILE example_dir)])
    /\ fs' !! VEGGIEMAP_FILE example_dir = Some (utf8_encode (u "active")).
Proof.
  destruct (main_icon_unencodable Html.html5_excerpt
              Html.invalid_charrefs_excerpt Html.invalid_codepoints_excerpt
              example_str_of_float example_timestamp example_dir latin1_file None
              cafe_at_once small_temp [cafe] cafe
              [Request (query_url (u "https://lz4.overpass-api.de/api/interpreter"))])
    as (x & fs' & Hrun & Hx & Hfile & _).
  - vm_compute. reflexivity.
  - vm_compute. reflexivity.
  - by left.
  - vm_compute. reflexivity.
  - vm_compute. reflexivity.
  - exact latin1_file_without_emoji.
  - rewrite (Hx eq_refl) in Hrun.
    exists fs'. split; [exact Hrun|]. rewrite Hfile. vm_compute. reflexivity.
Defined.

(* ===================================================================== *)
(** ** What a run leaves behind *)
(* ===================================================================== *)

Section AfterFacts.

Variable SCRIPTDIR : str.

Local Abbreviation TEMP := (VEGGIEMAP_TEMPFILE SCRIPTDIR).
Local Abbreviation FILE := (VEGGIEMAP_FILE SCRIPTDIR).
Local Abbreviation OLD := (VEGGIEMAP_OLDFILE SCRIPTDIR).

(** The three ways [check_data] can go. *)
Lemma check_data_cases (fs : files) :
  check_data SCRIPTDIR fs = (Ok tt, fs, [])
  \/ (exists temp active,
        fs !! TEMP = Some temp /\ fs !! FILE = Some active
        /\ check_data SCRIPTDIR fs =
             (Ok tt,
              <[FILE := temp]> (delete TEMP (<[OLD := active]> (delete FILE fs))),
              [Rename FILE OLD; Rename TEMP FILE]))
  \/ (fs !! FILE = None
      /\ check_data SCRIPTDIR fs = (Raise FileNotFoundError, fs, [])).
Proof.
  destruct (fs !! TEMP) as [temp|] eqn:Htemp.
  2:{ left. apply check_data_refuses. by left. }
  destruct (Z_lt_le_dec 250 (Z.of_nat (length temp))) as [Hbig|Hsmall].
  2:{ left. apply check_data_refuses. right. by exists temp. }
  destruct (fs !! FILE) as [active|] eqn:Hfile.
  - right. left. exists temp, active. split; [done|]. split; [done|].
    by apply check_data_rotates.
  - right. right. split; [done|]. unfold check_data. rewrite Htemp.
    rewrite Z.gtb_ltb. apply Z.ltb_lt in Hbig. rewrite Hbig.
    unfold os_rename. by rewrite Hfile.
Qed.

Lemma check_data_frame (fs : files) (p : str) :
  p <> TEMP -> p <> FILE -> p <> OLD ->
  (check_data SCRIPTDIR fs).1.2 !! p = fs !! p.
Proof.
  intros Hpt Hpf Hpo.
  destruct (check_data_cases fs)
    as [-> | [(temp & active & _ & _ & ->) | [_ ->]]]; cbn [fst snd];
    [reflexivity| |reflexivity].
  rewrite lookup_insert_ne by exact (not_eq_sym Hpf).
  rewrite lookup_delete_ne by exact (not_eq_sym Hpt).
  rewrite lookup_insert_ne by exact (not_eq_sym Hpo).
  apply lookup_delete_ne. exact (not_eq_sym Hpf).
Qed.

Lemma check_data_keeps_active (fs : files) :
  is_Some (fs !! FILE) -> is_Some ((check_data SCRIPTDIR fs).1.2 !! FILE).
Proof.
  intros Hfile.
  destruct (check_data_cases fs)
    as [-> | [(temp & active & _ & _ & ->) | [_ ->]]]; cbn [fst snd];
    [exact Hfile| |exact Hfile].
  rewrite lookup_insert_eq. by eexists.
Qed.

End AfterFacts.

(** X17. [check_data] settles: after a call that did not raise, a second
    call renames nothing and leaves every file as the first call left
    it. *)
Theorem check_data_idempotent (SCRIPTDIR : str) (fs fs' : files)
    (evs : list event) :
  check_data SCRIPTDIR fs = (Ok tt, fs', evs) ->
  check_data SCRIPTDIR fs' = (Ok tt, fs', []).
Proof.
  intros Hrun.
  destruct (check_data_cases SCRIPTDIR fs)
    as [H | [(temp & active & _ & _ & H) | [_ H]]];
    rewrite H in Hrun; [| |discriminate Hrun].
  - injection Hrun as <- _. exact H.
  - injection Hrun as <- _. apply check_data_refuses. left.
    rewrite lookup_insert_ne by exact (not_eq_sym (temp_ne_file SCRIPTDIR)).
    apply lookup_delete_eq.
Qed.

Lemma check_data_idempotent_witness :
  exists fs',
    check_data example_dir three_files =
      (Ok tt, fs', [Rename (VEGGIEMAP_FILE example_dir) (VEGGIEMAP_OLDFILE example_dir);
                    Rename (VEGGIEMAP_TEMPFILE example_dir) (VEGGIEMAP_FILE example_dir)])
    /\ check_data example_dir fs' = (Ok tt, fs', []).
Proof.
  eexists. split.
  - apply (check_data_rotates example_dir three_files (repeat Byte.x20 251)
             (utf8_encode (u "active"))).
    + vm_compute. reflexivity.
    + vm_compute. reflexivity.
    + vm_compute. reflexivity.
  - apply (check_data_idempotent example_dir three_files _
             [Rename (VEGGIEMAP_FILE example_dir) (VEGGIEMAP_OLDFILE example_dir);
              Rename (VEGGIEMAP_TEMPFILE example_dir) (VEGGIEMAP_FILE example_dir)]).
    apply (check_data_rotates example_dir three_files (repeat Byte.x20 251)
             (utf8_encode (u "active"))).
    + vm_compute. reflexivity.
    + vm_compute. reflexivity.
    + vm_compute. reflexivity.
Defined.

(** X18. However a run of [main] ends, it leaves every file alone except
    the temp file, the active file and the previous file, and a directory
    that had an active file still has one. *)
Theorem main_touches_three_files
    (html5 : str -> option str) (invalid_charrefs : N -> option str)
    (invalid_codepoints : N -> bool) (str_of_float : spec_float -> str)
    (TIMESTAMP SCRIPTDIR : str) (encode : str -> str -> option (list Byte.byte))
    (open_error : option exn)
    (HTTP_request : nat -> str -> outcome response) (fs : files) :
  let after_run :=
    (main html5 invalid_charrefs invalid_codepoints str_of_float TIMESTAMP
       SCRIPTDIR encode open_error HTTP_request fs).1.2 in
  (forall p,
     p <> VEGGIEMAP_TEMPFILE SCRIPTDIR ->
     p <> VEGGIEMAP_FILE SCRIPTDIR ->
     p <> VEGGIEMAP_OLDFILE SCRIPTDIR ->
     after_run !! p = fs !! p)
  /\ (is_Some (fs !! VEGGIEMAP_FILE SCRIPTDIR) ->
      is_Some (after_run !! VEGGIEMAP_FILE SCRIPTDIR)).
Proof.
  intros after_run. subst after_run. unfold main, write_data.
  destruct (get_data_osm HTTP_request) as [[[|es]|x] evs]; cbn [fst snd];
    [by split| |by split].
  destruct open_error as [x|]; [by split|].
  destruct (write_block html5 invalid_charrefs invalid_codepoints str_of_float
              TIMESTAMP encode (JDoc es)) as [[[]|x] bytes].
  - pose proof (check_data_frame SCRIPTDIR
                  (<[VEGGIEMAP_TEMPFILE SCRIPTDIR := bytes]> fs)) as Hframe.
    pose proof (check_data_keeps_active SCRIPTDIR
                  (<[VEGGIEMAP_TEMPFILE SCRIPTDIR := bytes]> fs)) as Hkeep.
    destruct (check_data SCRIPTDIR _) as [[r fs2] evs2]. cbn [fst snd] in *.
    split.
    + intros p Hpt Hpf Hpo. rewrite Hframe by assumption.
      apply lookup_insert_ne. exact (not_eq_sym Hpt).
    + intros Hfile. apply Hkeep.
      rewrite lookup_insert_ne by exact (temp_ne_file SCRIPTDIR). exact Hfile.
  - cbn [fst snd]. split.
    + intros p Hpt _ _. apply lookup_insert_ne. exact (not_eq_sym Hpt).
    + intros Hfile.
      rewrite lookup_insert_ne by exact (temp_ne_file SCRIPTDIR). exact Hfile.
Qed.

Lemma main_touches_three_files_witness :
  is_Some
    ((main Html.html5_excerpt Html.invalid_charrefs_excerpt
        Html.invalid_codepoints_excerpt example_str_of_float example_timestamp
        example_dir utf8_file None cafe_at_once small_temp).1.2
       !! VEGGIEMAP_FILE example_dir).
Proof.
  apply (proj2 (main_touches_three_files Html.html5_excerpt
                  Html.invalid_charrefs_excerpt Html.invalid_codepoints_excerpt
                  example_str_of_float example_timestamp example_dir utf8_file None
                  cafe_at_once small_temp)).
  vm_compute. eauto.
Defined.
